(** * Risk barometer and market snapshot scripts: a shallow embedding

    The two scripts [scripts/fetch_risk_barometer.py] and
    [scripts/fetch_market_data.py] are embedded function by function.

    Conventions of the embedding.
    - A Python float (or a JSON number) is an exact rational [Q]: the
      arithmetic is the ideal one, without rounding.  Comparisons of
      numbers are the boolean ones of [Q]; numeric results are stated up
      to [==].
    - A Python string is a [string]; exception messages are ASCII.
    - A function that may raise returns [res]; a block that assigns
      locals and may raise runs in the state-and-exception monad [M], in
      which the assignments made before a raise persist, as in Python.
    - Everything the scripts get from outside their own source sits in an
      environment record: the HTTP responses (indexed by the number of
      requests made so far, so that the same URL may answer differently
      each time), the clock, the outcome of writing the output file, and
      the two runtime services the source calls but does not define
      (the float square root behind [statistics.stdev] and the
      formatting of a float by a format spec such as [+.1f]). *)

From Stdlib Require Import ZArith QArith Qround Qabs List String Ascii Bool.
From Stdlib Require Import DecimalString Permutation Lia Lqa.
Import ListNotations.

Local Open Scope Z_scope.

(** ** Python values, exceptions and the monad *)

Module Py.

(** The exception classes that occur.  Every class except
    [KeyboardInterrupt] and [SystemExit] derives from [Exception];
    [OtherException] stands for whatever else the HTTP and JSON layer
    raises (URLError, KeyError, JSONDecodeError, ...). *)
Inductive exn_class : Type :=
| ValueError
| IndexError
| ZeroDivisionError
| StatisticsError
| OtherException
| KeyboardInterrupt
| SystemExit.

(** An exception object: its class and [str(e)]. *)
Record exn : Type := Exn { exn_cls : exn_class; exn_msg : string }.

(** [isinstance(e, Exception)]: what [except Exception] catches. *)
Definition is_Exception (e : exn) : bool :=
  match exn_cls e with
  | KeyboardInterrupt | SystemExit => false
  | _ => true
  end.

Inductive res (A : Type) : Type :=
| Val (a : A)
| Exc (e : exn).
Arguments Val {A} a.
Arguments Exc {A} e.

(** State and exceptions; the state reached when the exception was
    raised is kept. *)
Definition M (S A : Type) : Type := S -> res A * S.

Definition ret {S A} (a : A) : M S A := fun s => (Val a, s).

Definition bind {S A B} (m : M S A) (k : A -> M S B) : M S B :=
  fun s =>
    match m s with
    | (Val a, s') => k a s'
    | (Exc e, s') => (Exc e, s')
    end.

Definition raise {S A} (e : exn) : M S A := fun s => (Exc e, s).

Definition lift {S A} (r : res A) : M S A := fun s => (r, s).

Definition get {S} : M S S := fun s => (Val s, s).

Definition modify {S} (f : S -> S) : M S unit := fun s => (Val tt, f s).

(** [try: body  except Exception as e: handler e].  An exception that is
    not an [Exception] passes through. *)
Definition try_except {S A} (body : M S A) (handler : exn -> M S A) : M S A :=
  fun s =>
    match body s with
    | (Val a, s') => (Val a, s')
    | (Exc e, s') => if is_Exception e then handler e s' else (Exc e, s')
    end.

(** The value of a field that ordinarily holds a bool but, for the [and]
    of a non-bool operand, may hold the operand itself. *)
Inductive pyval : Type :=
| PyNone
| PyBool (b : bool)
| PyFloat (q : Q).

(** Truth value testing: [None] and [0.0] are false. *)
Definition truthy (v : pyval) : bool :=
  match v with
  | PyNone => false
  | PyBool b => b
  | PyFloat q => negb (Qeq_bool q 0)
  end.

Definition is_bool (v : pyval) : bool :=
  match v with
  | PyBool _ => true
  | _ => false
  end.

(** [x < y] on numbers. *)
Definition Qlt_bool (x y : Q) : bool := negb (Qle_bool y x).

(** [a / b] on floats. *)
Definition div (a b : Q) : res Q :=
  if Qeq_bool b 0
  then Exc (Exn ZeroDivisionError "float division by zero")
  else Val (a / b)%Q.

(** [len(l)]. *)
Definition len {A} (l : list A) : Z := Z.of_nat (List.length l).

(** [l[i]], negative indices counting from the end. *)
Definition index {A} (l : list A) (i : Z) : res A :=
  let j := if i <? 0 then i + len l else i in
  if (j <? 0) || (len l <=? j)
  then Exc (Exn IndexError "list index out of range")
  else match nth_error l (Z.to_nat j) with
       | Some a => Val a
       | None => Exc (Exn IndexError "list index out of range")
       end.

(** [l[start:]]: a negative start counts from the end, and the start is
    clamped to the list. *)
Definition slice_from {A} (l : list A) (start : Z) : list A :=
  let s := if start <? 0 then Z.max (start + len l) 0 else Z.min start (len l) in
  skipn (Z.to_nat s) l.

(** [l[::step]] for a step of [S k]: the elements at indices 0, step,
    2*step, ...; [wait] counts the elements still to skip. *)
Fixpoint stride_aux {A} (k wait : nat) (l : list A) : list A :=
  match l with
  | [] => []
  | x :: xs =>
      match wait with
      | O => x :: stride_aux k k xs
      | S w => stride_aux k w xs
      end
  end.

Definition stride {A} (step : nat) (l : list A) : list A :=
  stride_aux (Nat.pred step) 0 l.

Definition Qsum (l : list Q) : Q := fold_right Qplus 0%Q l.

(** [statistics.mean]. *)
Definition mean (l : list Q) : res Q :=
  match l with
  | [] => Exc (Exn StatisticsError "mean requires at least one data point")
  | _ => Val (Qsum l / inject_Z (len l))%Q
  end.

(** [statistics.stdev]: the square root of the sample variance; the
    square root is the runtime's. *)
Definition stdev (sqrt : Q -> Q) (l : list Q) : res Q :=
  if len l <? 2
  then Exc (Exn StatisticsError "stdev requires at least two data points")
  else
    let m := (Qsum l / inject_Z (len l))%Q in
    let ss := Qsum (map (fun x => (x - m) * (x - m))%Q l) in
    Val (sqrt (ss / inject_Z (len l - 1))%Q).

(** [max(...)] of numbers. *)
Definition Qmax (x y : Q) : Q := if Qlt_bool x y then y else x.

Definition max (l : list Q) : res Q :=
  match l with
  | [] => Exc (Exn ValueError "max() arg is an empty sequence")
  | x :: xs => Val (fold_left Qmax xs x)
  end.

(** [sorted(l)] on numbers: a stable sort, by insertion from the right. *)
Fixpoint insert_sorted (x : Q) (l : list Q) : list Q :=
  match l with
  | [] => [x]
  | y :: ys => if Qle_bool x y then x :: y :: ys else y :: insert_sorted x ys
  end.

Definition sorted (l : list Q) : list Q := fold_right insert_sorted [] l.

(** [d[key] = v] on an insertion-ordered dict. *)
Fixpoint dict_set {V} (key : string) (v : V) (d : list (string * V))
  : list (string * V) :=
  match d with
  | [] => [(key, v)]
  | (k, w) :: rest =>
      if String.eqb k key then (k, v) :: rest else (k, w) :: dict_set key v rest
  end.

Fixpoint dict_get {V} (key : string) (d : list (string * V)) : option V :=
  match d with
  | [] => None
  | (k, w) :: rest => if String.eqb k key then Some w else dict_get key rest
  end.

(** [s[:n]] on strings. *)
Definition str_prefix (n : nat) (s : string) : string := substring 0 n s.

End Py.

Import Py.

Declare Scope py_scope.
Delimit Scope py_scope with py.
Notation "x <- m ;; k" := (bind m (fun x => k))
  (at level 100, m at next level, right associativity) : py_scope.
Notation "m ;;; k" := (bind m (fun _ => k))
  (at level 100, right associativity) : py_scope.

(** ** scripts/fetch_risk_barometer.py *)

Module RiskBarometer.

Local Open Scope string_scope.
Local Open Scope Z_scope.
Local Open Scope py_scope.

(** *** Data *)

(** A signal record: the dict appended to [signals]. *)
Record Signal : Type := mkSignal {
  name : string;
  triggered : pyval;
  points : Z;
  maxPoints : Z;
  detail : string
}.

Inductive Level : Type := LOW | CAUTION | WARNING | DANGER.

(** What a barometer function returns: [{'error': ...}] or the dict with
    the four keys score, level, signals, recommendation. *)
Inductive Barometer : Type :=
| ErrorRecord (error : string)
| ScoreRecord (score : Z) (level : Level) (signals : list Signal)
    (recommendation : string).

(** The keys of the returned dict. *)
Definition keys (b : Barometer) : list string :=
  match b with
  | ErrorRecord _ => ["error"]
  | ScoreRecord _ _ _ _ => ["score"; "level"; "signals"; "recommendation"]
  end.

(** [key in b]. *)
Definition has_key (key : string) (b : Barometer) : bool :=
  existsb (String.eqb key) (keys b).

(** The document written to [data/risk-barometer.json]. *)
Record Report : Type := mkReport {
  updatedAt : string;
  report_barometers : list (string * Barometer)
}.

(** A price history: [(timestamp, close)] pairs. *)
Definition History : Type := list (Z * Q).

(** The environment of a run. *)
Record Env : Type := mkEnv {
  (** the outcome of the k-th HTTP request, for a symbol and a range:
      an exception of [fetch_json] or of the navigation of the JSON body,
      or the [timestamp] list and the [close] list of the chart *)
  http_get : nat -> string -> string -> res (list Z * list (option Q));
  (** [datetime.now(timezone.utc).strftime(...)] *)
  utc_now : string;
  (** the exception of [os.makedirs], [open] or [json.dump], if any *)
  write_error : option exn;
  (** the float square root *)
  float_sqrt : Q -> Q;
  (** [format(x, spec)] on a float *)
  float_format : string -> Q -> string
}.

(** The state of a run: the number of HTTP requests made, the locals
    [score] and [signals] of the barometer function being run, the local
    [barometers] of [main], and the content of the output file. *)
Record State : Type := mkState {
  calls : nat;
  score : Z;
  signals : list Signal;
  barometers : list (string * Barometer);
  disk : option Report
}.

Definition initial : State := mkState 0 0 [] [] None.

Definition set_calls (k : nat) (s : State) : State :=
  mkState k (score s) (signals s) (barometers s) (disk s).
Definition set_score (z : Z) (s : State) : State :=
  mkState (calls s) z (signals s) (barometers s) (disk s).
Definition set_signals (l : list Signal) (s : State) : State :=
  mkState (calls s) (score s) l (barometers s) (disk s).
Definition set_barometers (d : list (string * Barometer)) (s : State) : State :=
  mkState (calls s) (score s) (signals s) d (disk s).
Definition set_disk (r : option Report) (s : State) : State :=
  mkState (calls s) (score s) (signals s) (barometers s) r.

Definition Run (A : Type) : Type := M State A.

(** [score += p] *)
Definition add_score (p : Z) : Run unit :=
  modify (fun s => set_score (score s + p) s).

(** [signals.append(d)] *)
Definition append_signal (d : Signal) : Run unit :=
  modify (fun s => set_signals (signals s ++ [d])%list s).

(** *** Lines 29-61: history, moving average, percentile rank *)

(** [fetch_yahoo_history]: one request; the pairs of [zip(timestamps,
    closes)] whose close is not [None]. *)
Definition fetch_yahoo_history (E : Env) (symbol range_str : string)
  : Run History :=
  fun s =>
    let s' := set_calls (S (calls s)) s in
    match http_get E (calls s) symbol range_str with
    | Exc e => (Exc e, s')
    | Val (timestamps, closes) =>
        (Val (flat_map (fun tc : Z * option Q =>
                          match snd tc with
                          | Some close => [(fst tc, close)]
                          | None => []
                          end)
                       (combine timestamps closes)), s')
    end.

(** [calculate_ma]: [None] when the history is shorter than the period,
    else the mean of [history[-period:]]. *)
Definition calculate_ma (history : History) (period : Z) : res (option Q) :=
  if len history <? period
  then Val None
  else
    let recent_prices := map snd (slice_from history (- period)) in
    match mean recent_prices with
    | Val m => Val (Some m)
    | Exc e => Exc e
    end.

(** [sum(1 for v in vals if v < value)] *)
Definition count_below (value : Q) (vals : list Q) : Z :=
  len (filter (fun v => Qlt_bool v value) vals).

(** [percentile_rank]: [None] for an empty population or a [None] value. *)
Definition percentile_rank (value : option Q) (historical_values : list Q)
  : option Q :=
  match historical_values, value with
  | [], _ => None
  | _, None => None
  | _, Some v =>
      let sorted_vals := sorted historical_values in
      let count_below := count_below v sorted_vals in
      Some ((inject_Z count_below / inject_Z (len sorted_vals)) * 100)%Q
  end.

(** *** The pieces shared by the signal blocks *)

(** The [except Exception as e:] branch of a signal block. *)
Definition unavailable (nm : string) (maxp : Z) (e : exn) : Run unit :=
  append_signal
    {| name := nm;
       triggered := PyBool false;
       points := 0;
       maxPoints := maxp;
       detail := "Data unavailable: " ++ str_prefix 50 (exn_msg e) |}.

(** [h[i][1]] *)
Definition price_at (h : History) (i : Z) : res Q :=
  match index h i with
  | Val tp => Val (snd tp)
  | Exc e => Exc e
  end.

(** [[price for _, price in h]] *)
Definition prices (h : History) : list Q := map snd h.

(** *** Lines 68-262: [fetch_gold_barometer] *)

(** Signal 1 (lines 85-111).  [price_percentile and price_percentile > 85]
    is the left operand when that is [None] or [0.0], and the comparison
    otherwise. *)
Definition gold_signal_1_body (E : Env) (current_price : Q) : Run unit :=
  gold_5y <- fetch_yahoo_history E "GC=F" "5y" ;;
  let weekly_prices := prices (stride 7 gold_5y) in
  let price_percentile := percentile_rank (Some current_price) weekly_prices in
  let cot_triggered :=
    match price_percentile with
    | None => PyNone
    | Some p => if truthy (PyFloat p) then PyBool (Qlt_bool 85 p) else PyFloat p
    end in
  let cot_points := if truthy cot_triggered then 30 else 0 in
  add_score cot_points ;;;
  append_signal
    {| name := "COT Positioning (Proxy)";
       triggered := cot_triggered;
       points := cot_points;
       maxPoints := 30;
       detail :=
         match price_percentile with
         | None => "Unavailable"
         | Some p =>
             if truthy (PyFloat p)
             then "Price at " ++ float_format E ".0f" p ++ "th percentile (5yr)"
             else "Unavailable"
         end |}.

Definition gold_signal_1 (E : Env) (current_price : Q) : Run unit :=
  try_except (gold_signal_1_body E current_price)
    (unavailable "COT Positioning" 30).

(** Signal 2 (lines 114-144). *)
Definition gold_signal_2_body (E : Env) : Run unit :=
  tnx_history <- fetch_yahoo_history E "^TNX" "3mo" ;;
  if 28 <=? len tnx_history then
    last <- lift (price_at tnx_history (-1)) ;;
    let current_yield := (last / 10)%Q in
    ago <- lift (price_at tnx_history (-28)) ;;
    let month_ago_yield := (ago / 10)%Q in
    let yield_change := ((current_yield - month_ago_yield) * 100)%Q in
    let real_yields_triggered := Qlt_bool 50 yield_change in
    let real_yields_points := if real_yields_triggered then 25 else 0 in
    add_score real_yields_points ;;;
    append_signal
      {| name := "Real Yields Surge";
         triggered := PyBool real_yields_triggered;
         points := real_yields_points;
         maxPoints := 25;
         detail := "4-week change: " ++ float_format E "+.0f" yield_change
                   ++ "bps (current: " ++ float_format E ".2f" current_yield
                   ++ "%)" |}
  else raise (Exn ValueError "Insufficient yield data").

Definition gold_signal_2 (E : Env) : Run unit :=
  try_except (gold_signal_2_body E)
    (unavailable "Real Yields" 25).

(** Signal 3 (lines 147-174).  [if ma_50:] fails for [None] and for a
    moving average of zero. *)
Definition gold_signal_3_body (E : Env) (gold_history : History)
  (current_price : Q)
  : Run unit :=
  ma_50 <- lift (calculate_ma gold_history 50) ;;
  match ma_50 with
  | Some ma =>
      if truthy (PyFloat ma) then
        ratio <- lift (div (current_price - ma) ma) ;;
        let deviation_pct := (ratio * 100)%Q in
        let ma_triggered := Qlt_bool 10 deviation_pct in
        let ma_points := if ma_triggered then 15 else 0 in
        add_score ma_points ;;;
        append_signal
          {| name := "MA Overextension";
             triggered := PyBool ma_triggered;
             points := ma_points;
             maxPoints := 15;
             detail := float_format E "+.1f" deviation_pct
                       ++ "% above 50-day MA" |}
      else raise (Exn ValueError "Insufficient history for MA")
  | None => raise (Exn ValueError "Insufficient history for MA")
  end.

Definition gold_signal_3 (E : Env) (gold_history : History) (current_price : Q)
  : Run unit :=
  try_except (gold_signal_3_body E gold_history current_price)
    (unavailable "MA Deviation" 15).

(** Signal 4 (lines 177-209). *)
Definition gold_signal_4_body (E : Env) : Run unit :=
  dxy_history <- fetch_yahoo_history E "DX-Y.NYB" "1y" ;;
  current_dxy <- lift (price_at dxy_history (-1)) ;;
  ma_200 <- lift (calculate_ma dxy_history 200) ;;
  match ma_200 with
  | Some ma =>
      if truthy (PyFloat ma) then
        week_ago_dxy <-
          (if 7 <=? len dxy_history
           then lift (price_at dxy_history (-7))
           else ret current_dxy) ;;
        let is_rising := Qlt_bool week_ago_dxy current_dxy in
        let above_ma := Qlt_bool ma current_dxy in
        let dxy_triggered := above_ma && is_rising in
        let dxy_points := if dxy_triggered then 15 else 0 in
        add_score dxy_points ;;;
        ratio <- lift (div (current_dxy - ma) ma) ;;
        let ma_diff_pct := (ratio * 100)%Q in
        append_signal
          {| name := "DXY Breakout";
             triggered := PyBool dxy_triggered;
             points := dxy_points;
             maxPoints := 15;
             detail := float_format E "+.1f" ma_diff_pct ++ "% vs 200-MA, "
                       ++ (if is_rising then "rising" else "falling") |}
      else raise (Exn ValueError "Insufficient DXY history")
  | None => raise (Exn ValueError "Insufficient DXY history")
  end.

Definition gold_signal_4 (E : Env) : Run unit :=
  try_except (gold_signal_4_body E)
    (unavailable "DXY Breakout" 15).

(** [stdev(ps) / mean(ps) * 100] *)
Definition relative_volatility (E : Env) (ps : list Q) : res Q :=
  match stdev (float_sqrt E) ps with
  | Exc e => Exc e
  | Val sd =>
      match mean ps with
      | Exc e => Exc e
      | Val m =>
          match div sd m with
          | Exc e => Exc e
          | Val r => Val (r * 100)%Q
          end
      end
  end.

(** Signal 5 (lines 213-241). *)
Definition gold_signal_5_body (E : Env) (gold_history : History) : Run unit :=
  let recent_prices := prices (slice_from gold_history (-20)) in
  if 20 <=? len recent_prices then
    volatility <- lift (relative_volatility E recent_prices) ;;
    let sentiment_triggered := Qlt_bool 3 volatility in
    let sentiment_points := if sentiment_triggered then 15 else 0 in
    add_score sentiment_points ;;;
    append_signal
      {| name := "Volatility Extreme";
         triggered := PyBool sentiment_triggered;
         points := sentiment_points;
         maxPoints := 15;
         detail := "20-day volatility: " ++ float_format E ".2f" volatility
                   ++ "%" |}
  else raise (Exn ValueError "Insufficient data").

Definition gold_signal_5 (E : Env) (gold_history : History) : Run unit :=
  try_except (gold_signal_5_body E gold_history)
    (unavailable "Sentiment" 15).

(** Lines 244-255. *)
Definition gold_level (score : Z) : Level * string :=
  if score <=? 30 then
    (LOW, "Normal conditions. Maintain trend-following positions.")
  else if score <=? 50 then
    (CAUTION, "Elevated risk. Monitor closely, prepare hedges.")
  else if score <=? 70 then
    (WARNING, "High risk. Consider reducing exposure by 25-50%.")
  else
    (DANGER, "Extreme risk. Hedge aggressively or reduce to 25% position.").

(** The function.  The first [try] binds [gold_history] and
    [current_price]; its [except] branch returns the error record. *)
Definition fetch_gold_barometer (E : Env) : Run Barometer :=
  modify (set_signals []) ;;;
  modify (set_score 0) ;;;
  b <- try_except
         (gold_history <- fetch_yahoo_history E "GC=F" "1y" ;;
          current_price <- lift (price_at gold_history (-1)) ;;
          ret (inl (gold_history, current_price)))
         (fun e =>
            ret (inr (ErrorRecord ("Failed to fetch gold data: " ++ exn_msg e)))) ;;
  match b with
  | inr error_record => ret error_record
  | inl (gold_history, current_price) =>
      gold_signal_1 E current_price ;;;
      gold_signal_2 E ;;;
      gold_signal_3 E gold_history current_price ;;;
      gold_signal_4 E ;;;
      gold_signal_5 E gold_history ;;;
      s <- get ;;
      let (level, recommendation) := gold_level (score s) in
      ret (ScoreRecord (score s) level (signals s) recommendation)
  end.

(** *** Lines 269-445: [fetch_sp500_barometer] *)

(** Signal 1 (lines 281-304). *)
Definition sp500_signal_1_body (E : Env) : Run unit :=
  vix_history <- fetch_yahoo_history E "^VIX" "3mo" ;;
  current_vix <- lift (price_at vix_history (-1)) ;;
  let vix_triggered := Qlt_bool 25 current_vix in
  let vix_points := if vix_triggered then 30 else 0 in
  add_score vix_points ;;;
  append_signal
    {| name := "VIX Elevated";
       triggered := PyBool vix_triggered;
       points := vix_points;
       maxPoints := 30;
       detail := "VIX at " ++ float_format E ".1f" current_vix
                 ++ " (threshold: 25)" |}.

Definition sp500_signal_1 (E : Env) : Run unit :=
  try_except (sp500_signal_1_body E)
    (unavailable "VIX Level" 30).

(** Signal 2 (lines 307-334). *)
Definition sp500_signal_2_body (E : Env) : Run unit :=
  tnx <- fetch_yahoo_history E "^TNX" "1mo" ;;
  tnx_last <- lift (price_at tnx (-1)) ;;
  let tnx_10y := (tnx_last / 10)%Q in
  irx <- fetch_yahoo_history E "^IRX" "1mo" ;;
  irx_last <- lift (price_at irx (-1)) ;;
  let irx_short := (irx_last / 10)%Q in
  let yield_spread := (tnx_10y - irx_short)%Q in
  let curve_triggered := Qlt_bool yield_spread (2 # 10) in
  let curve_points := if curve_triggered then 25 else 0 in
  add_score curve_points ;;;
  append_signal
    {| name := "Yield Curve";
       triggered := PyBool curve_triggered;
       points := curve_points;
       maxPoints := 25;
       detail := "10Y-2Y spread: " ++ float_format E ".2f" yield_spread ++ "% "
                 ++ (if Qlt_bool yield_spread 0 then "(inverted)" else "") |}.

Definition sp500_signal_2 (E : Env) : Run unit :=
  try_except (sp500_signal_2_body E)
    (unavailable "Yield Curve" 25).

(** Signal 3 (lines 337-364). *)
Definition sp500_signal_3_body (E : Env) (sp_history : History)
  (current_price : Q)
  : Run unit :=
  ma_200 <- lift (calculate_ma sp_history 200) ;;
  match ma_200 with
  | Some ma =>
      if truthy (PyFloat ma) then
        ratio <- lift (div (current_price - ma) ma) ;;
        let deviation_pct := (ratio * 100)%Q in
        let ma_triggered := Qlt_bool 8 deviation_pct in
        let ma_points := if ma_triggered then 20 else 0 in
        add_score ma_points ;;;
        append_signal
          {| name := "MA Overextension";
             triggered := PyBool ma_triggered;
             points := ma_points;
             maxPoints := 20;
             detail := float_format E "+.1f" deviation_pct
                       ++ "% vs 200-day MA" |}
      else raise (Exn ValueError "Insufficient history")
  | None => raise (Exn ValueError "Insufficient history")
  end.

Definition sp500_signal_3 (E : Env) (sp_history : History) (current_price : Q)
  : Run unit :=
  try_except (sp500_signal_3_body E sp_history current_price)
    (unavailable "MA Deviation" 20).

(** Signal 4 (lines 367-394).  The conditional expression evaluates its
    test first: the second request decides, the third is indexed. *)
Definition sp500_signal_4_body (E : Env) : Run unit :=
  vix_1 <- fetch_yahoo_history E "^VIX" "1mo" ;;
  vix_current <- lift (price_at vix_1 (-1)) ;;
  vix_2 <- fetch_yahoo_history E "^VIX" "1mo" ;;
  vix_week_ago <-
    (if 7 <=? len vix_2
     then vix_3 <- fetch_yahoo_history E "^VIX" "1mo" ;;
          lift (price_at vix_3 (-7))
     else ret vix_current) ;;
  ratio <- lift (div (vix_current - vix_week_ago) vix_week_ago) ;;
  let vix_change_pct := (ratio * 100)%Q in
  let pc_triggered := Qlt_bool 30 vix_change_pct in
  let pc_points := if pc_triggered then 15 else 0 in
  add_score pc_points ;;;
  append_signal
    {| name := "Hedging Surge";
       triggered := PyBool pc_triggered;
       points := pc_points;
       maxPoints := 15;
       detail := "VIX 1-week change: " ++ float_format E "+.1f" vix_change_pct
                 ++ "%" |}.

Definition sp500_signal_4 (E : Env) : Run unit :=
  try_except (sp500_signal_4_body E)
    (unavailable "Put/Call Ratio" 15).

(** Signal 5 (lines 397-424). *)
Definition sp500_signal_5_body (E : Env) (sp_history : History) : Run unit :=
  nasdaq_history <- fetch_yahoo_history E "^IXIC" "1mo" ;;
  n_last <- lift (price_at nasdaq_history (-1)) ;;
  n_first <- lift (price_at nasdaq_history 0) ;;
  n_ratio <- lift (div (n_last - n_first) n_first) ;;
  let nasdaq_change_1m := (n_ratio * 100)%Q in
  sp_change_1m <-
    (if 30 <=? len sp_history
     then s_last <- lift (price_at sp_history (-1)) ;;
          s_ago <- lift (price_at sp_history (-30)) ;;
          s_ratio <- lift (div (s_last - s_ago) s_ago) ;;
          ret (s_ratio * 100)%Q
     else ret 0%Q) ;;
  let divergence := (nasdaq_change_1m - sp_change_1m)%Q in
  let breadth_triggered := Qlt_bool divergence (-3) in
  let breadth_points := if breadth_triggered then 10 else 0 in
  add_score breadth_points ;;;
  append_signal
    {| name := "Market Breadth";
       triggered := PyBool breadth_triggered;
       points := breadth_points;
       maxPoints := 10;
       detail := "NDX-SPX divergence: " ++ float_format E "+.1f" divergence
                 ++ "%" |}.

Definition sp500_signal_5 (E : Env) (sp_history : History) : Run unit :=
  try_except (sp500_signal_5_body E sp_history)
    (unavailable "Market Breadth" 10).

(** Lines 427-438. *)
Definition sp500_level (score : Z) : Level * string :=
  if score <=? 30 then
    (LOW, "Normal market conditions. Continue systematic strategies.")
  else if score <=? 50 then
    (CAUTION, "Elevated risk. Consider tightening stops.")
  else if score <=? 70 then
    (WARNING, "High risk environment. Reduce equity exposure.")
  else
    (DANGER, "Extreme risk. Consider significant hedging.").

Definition fetch_sp500_barometer (E : Env) : Run Barometer :=
  modify (set_signals []) ;;;
  modify (set_score 0) ;;;
  b <- try_except
         (sp_history <- fetch_yahoo_history E "^GSPC" "1y" ;;
          current_price <- lift (price_at sp_history (-1)) ;;
          ret (inl (sp_history, current_price)))
         (fun e =>
            ret (inr (ErrorRecord
                        ("Failed to fetch S&P 500 data: " ++ exn_msg e)))) ;;
  match b with
  | inr error_record => ret error_record
  | inl (sp_history, current_price) =>
      sp500_signal_1 E ;;;
      sp500_signal_2 E ;;;
      sp500_signal_3 E sp_history current_price ;;;
      sp500_signal_4 E ;;;
      sp500_signal_5 E sp_history ;;;
      s <- get ;;
      let (level, recommendation) := sp500_level (score s) in
      ret (ScoreRecord (score s) level (signals s) recommendation)
  end.

(** *** Lines 452-624: [fetch_nasdaq_barometer] *)

(** Signal 1 (lines 464-486). *)
Definition nasdaq_signal_1_body (E : Env) : Run unit :=
  vix_history <- fetch_yahoo_history E "^VIX" "3mo" ;;
  current_vix <- lift (price_at vix_history (-1)) ;;
  let vix_triggered := Qlt_bool 25 current_vix in
  let vix_points := if vix_triggered then 30 else 0 in
  add_score vix_points ;;;
  append_signal
    {| name := "VIX Elevated";
       triggered := PyBool vix_triggered;
       points := vix_points;
       maxPoints := 30;
       detail := "VIX at " ++ float_format E ".1f" current_vix |}.

Definition nasdaq_signal_1 (E : Env) : Run unit :=
  try_except (nasdaq_signal_1_body E)
    (unavailable "VIX Level" 30).

(** Signal 2 (lines 489-517). *)
Definition nasdaq_signal_2_body (E : Env) (nasdaq_history : History)
  (current_price : Q)
  : Run unit :=
  ma_200 <- lift (calculate_ma nasdaq_history 200) ;;
  match ma_200 with
  | Some ma =>
      if truthy (PyFloat ma) then
        ratio <- lift (div (current_price - ma) ma) ;;
        let deviation_pct := (ratio * 100)%Q in
        let ma_triggered := Qlt_bool 12 deviation_pct in
        let ma_points := if ma_triggered then 25 else 0 in
        add_score ma_points ;;;
        append_signal
          {| name := "MA Overextension";
             triggered := PyBool ma_triggered;
             points := ma_points;
             maxPoints := 25;
             detail := float_format E "+.1f" deviation_pct
                       ++ "% vs 200-day MA" |}
      else raise (Exn ValueError "Insufficient history")
  | None => raise (Exn ValueError "Insufficient history")
  end.

Definition nasdaq_signal_2 (E : Env) (nasdaq_history : History)
  (current_price : Q)
  : Run unit :=
  try_except (nasdaq_signal_2_body E nasdaq_history current_price)
    (unavailable "MA Deviation" 25).

(** Signal 3 (lines 520-546). *)
Definition nasdaq_signal_3_body (E : Env) : Run unit :=
  tnx_history <- fetch_yahoo_history E "^TNX" "3mo" ;;
  last <- lift (price_at tnx_history (-1)) ;;
  let current_yield := (last / 10)%Q in
  month_ago_yield <-
    (if 28 <=? len tnx_history
     then ago <- lift (price_at tnx_history (-28)) ;; ret (ago / 10)%Q
     else ret current_yield) ;;
  let yield_change := ((current_yield - month_ago_yield) * 100)%Q in
  let rate_triggered := Qlt_bool 40 yield_change in
  let rate_points := if rate_triggered then 20 else 0 in
  add_score rate_points ;;;
  append_signal
    {| name := "Rate Surge";
       triggered := PyBool rate_triggered;
       points := rate_points;
       maxPoints := 20;
       detail := "4-week yield change: " ++ float_format E "+.0f" yield_change
                 ++ "bps" |}.

Definition nasdaq_signal_3 (E : Env) : Run unit :=
  try_except (nasdaq_signal_3_body E)
    (unavailable "Rate Sensitivity" 20).

(** Signal 4 (lines 549-578). *)
Definition nasdaq_signal_4_body (E : Env) (nasdaq_history : History)
  (current_price : Q)
  : Run unit :=
  if 60 <=? len nasdaq_history then
    price_60d_ago <- lift (price_at nasdaq_history (-60)) ;;
    price_30d_ago <- lift (price_at nasdaq_history (-30)) ;;
    r60 <- lift (div (price_30d_ago - price_60d_ago) price_60d_ago) ;;
    let momentum_60d := (r60 * 100)%Q in
    r30 <- lift (div (current_price - price_30d_ago) price_30d_ago) ;;
    let momentum_recent := (r30 * 100)%Q in
    let reversal_triggered :=
      Qlt_bool 5 momentum_60d && Qlt_bool momentum_recent (-2) in
    let reversal_points := if reversal_triggered then 15 else 0 in
    add_score reversal_points ;;;
    append_signal
      {| name := "Momentum Reversal";
         triggered := PyBool reversal_triggered;
         points := reversal_points;
         maxPoints := 15;
         detail := "60d: " ++ float_format E "+.1f" momentum_60d ++ "%, 30d: "
                   ++ float_format E "+.1f" momentum_recent ++ "%" |}
  else raise (Exn ValueError "Insufficient history").

Definition nasdaq_signal_4 (E : Env) (nasdaq_history : History)
  (current_price : Q)
  : Run unit :=
  try_except (nasdaq_signal_4_body E nasdaq_history current_price)
    (unavailable "Momentum" 15).

(** Signal 5 (lines 581-603). *)
Definition nasdaq_signal_5_body (E : Env) (nasdaq_history : History)
  : Run unit :=
  let recent_prices := prices (slice_from nasdaq_history (-20)) in
  volatility <- lift (relative_volatility E recent_prices) ;;
  let vol_triggered := Qlt_bool (25 # 10) volatility in
  let vol_points := if vol_triggered then 10 else 0 in
  add_score vol_points ;;;
  append_signal
    {| name := "Volatility Spike";
       triggered := PyBool vol_triggered;
       points := vol_points;
       maxPoints := 10;
       detail := "20-day vol: " ++ float_format E ".2f" volatility ++ "%" |}.

Definition nasdaq_signal_5 (E : Env) (nasdaq_history : History) : Run unit :=
  try_except (nasdaq_signal_5_body E nasdaq_history)
    (unavailable "Volatility" 10).

(** Lines 606-617. *)
Definition nasdaq_level (score : Z) : Level * string :=
  if score <=? 30 then
    (LOW, "Normal conditions for growth/tech.")
  else if score <=? 50 then
    (CAUTION, "Elevated risk. Monitor rate-sensitive positions.")
  else if score <=? 70 then
    (WARNING, "High risk. Consider rotating to defensive sectors.")
  else
    (DANGER, "Extreme risk for tech. Reduce exposure significantly.").

Definition fetch_nasdaq_barometer (E : Env) : Run Barometer :=
  modify (set_signals []) ;;;
  modify (set_score 0) ;;;
  b <- try_except
         (nasdaq_history <- fetch_yahoo_history E "^IXIC" "1y" ;;
          current_price <- lift (price_at nasdaq_history (-1)) ;;
          ret (inl (nasdaq_history, current_price)))
         (fun e =>
            ret (inr (ErrorRecord
                        ("Failed to fetch Nasdaq data: " ++ exn_msg e)))) ;;
  match b with
  | inr error_record => ret error_record
  | inl (nasdaq_history, current_price) =>
      nasdaq_signal_1 E ;;;
      nasdaq_signal_2 E nasdaq_history current_price ;;;
      nasdaq_signal_3 E ;;;
      nasdaq_signal_4 E nasdaq_history current_price ;;;
      nasdaq_signal_5 E nasdaq_history ;;;
      s <- get ;;
      let (level, recommendation) := nasdaq_level (score s) in
      ret (ScoreRecord (score s) level (signals s) recommendation)
  end.

(** *** Lines 631-812: [fetch_bitcoin_barometer] *)

(** Signal 1 (lines 643-670). *)
Definition bitcoin_signal_1_body (E : Env) (btc_history : History)
  (current_price : Q)
  : Run unit :=
  ma_200 <- lift (calculate_ma btc_history 200) ;;
  match ma_200 with
  | Some ma =>
      if truthy (PyFloat ma) then
        ratio <- lift (div (current_price - ma) ma) ;;
        let deviation_pct := (ratio * 100)%Q in
        let ma_triggered := Qlt_bool 25 deviation_pct in
        let ma_points := if ma_triggered then 30 else 0 in
        add_score ma_points ;;;
        append_signal
          {| name := "MA Overextension";
             triggered := PyBool ma_triggered;
             points := ma_points;
             maxPoints := 30;
             detail := float_format E "+.1f" deviation_pct
                       ++ "% vs 200-day MA" |}
      else raise (Exn ValueError "Insufficient history")
  | None => raise (Exn ValueError "Insufficient history")
  end.

Definition bitcoin_signal_1 (E : Env) (btc_history : History)
  (current_price : Q)
  : Run unit :=
  try_except (bitcoin_signal_1_body E btc_history current_price)
    (unavailable "MA Deviation" 30).

(** Signal 2 (lines 673-696). *)
Definition bitcoin_signal_2_body (E : Env) (btc_history : History) : Run unit :=
  let recent_prices := prices (slice_from btc_history (-30)) in
  volatility <- lift (relative_volatility E recent_prices) ;;
  let vol_triggered := Qlt_bool 8 volatility in
  let vol_points := if vol_triggered then 25 else 0 in
  add_score vol_points ;;;
  append_signal
    {| name := "Volatility Extreme";
       triggered := PyBool vol_triggered;
       points := vol_points;
       maxPoints := 25;
       detail := "30-day volatility: " ++ float_format E ".2f" volatility
                 ++ "%" |}.

Definition bitcoin_signal_2 (E : Env) (btc_history : History) : Run unit :=
  try_except (bitcoin_signal_2_body E btc_history)
    (unavailable "Volatility" 25).

(** Signal 3 (lines 699-728). *)
Definition bitcoin_signal_3_body (E : Env) (btc_history : History)
  (current_price : Q)
  : Run unit :=
  if 90 <=? len btc_history then
    price_90d_ago <- lift (price_at btc_history (-90)) ;;
    price_30d_ago <- lift (price_at btc_history (-30)) ;;
    r60 <- lift (div (price_30d_ago - price_90d_ago) price_90d_ago) ;;
    let gain_first_60d := (r60 * 100)%Q in
    r30 <- lift (div (current_price - price_30d_ago) price_30d_ago) ;;
    let gain_last_30d := (r30 * 100)%Q in
    let momentum_triggered :=
      Qlt_bool 30 gain_first_60d && Qlt_bool gain_last_30d 10 in
    let momentum_points := if momentum_triggered then 20 else 0 in
    add_score momentum_points ;;;
    append_signal
      {| name := "Momentum Exhaustion";
         triggered := PyBool momentum_triggered;
         points := momentum_points;
         maxPoints := 20;
         detail := "60d gain: " ++ float_format E "+.1f" gain_first_60d
                   ++ "%, 30d: " ++ float_format E "+.1f" gain_last_30d
                   ++ "%" |}
  else raise (Exn ValueError "Insufficient history").

Definition bitcoin_signal_3 (E : Env) (btc_history : History)
  (current_price : Q)
  : Run unit :=
  try_except (bitcoin_signal_3_body E btc_history current_price)
    (unavailable "Momentum" 20).

(** Signal 4 (lines 731-765). *)
Definition bitcoin_signal_4_body (E : Env) (btc_history : History) : Run unit :=
  nasdaq_history <- fetch_yahoo_history E "^IXIC" "3mo" ;;
  let btc_recent := prices (slice_from btc_history (-60)) in
  let nasdaq_recent := prices (slice_from nasdaq_history (-60)) in
  if (60 <=? len btc_recent) && (60 <=? len nasdaq_recent) then
    b_last <- lift (index btc_recent (-1)) ;;
    b_first <- lift (index btc_recent 0) ;;
    b_ratio <- lift (div (b_last - b_first) b_first) ;;
    let btc_change := (b_ratio * 100)%Q in
    n_last <- lift (index nasdaq_recent (-1)) ;;
    n_first <- lift (index nasdaq_recent 0) ;;
    n_ratio <- lift (div (n_last - n_first) n_first) ;;
    let ndx_change := (n_ratio * 100)%Q in
    let corr_triggered :=
      Qlt_bool btc_change (-10) && Qlt_bool ndx_change (-10) in
    let corr_points := if corr_triggered then 15 else 0 in
    add_score corr_points ;;;
    append_signal
      {| name := "Risk-Off Correlation";
         triggered := PyBool corr_triggered;
         points := corr_points;
         maxPoints := 15;
         detail := "BTC: " ++ float_format E "+.1f" btc_change ++ "%, NDX: "
                   ++ float_format E "+.1f" ndx_change ++ "%" |}
  else raise (Exn ValueError "Insufficient data").

Definition bitcoin_signal_4 (E : Env) (btc_history : History) : Run unit :=
  try_except (bitcoin_signal_4_body E btc_history)
    (unavailable "Correlation" 15).

(** Signal 5 (lines 768-791). *)
Definition bitcoin_signal_5_body (E : Env) (btc_history : History)
  (current_price : Q)
  : Run unit :=
  all_time_high <- lift (max (prices btc_history)) ;;
  ratio <- lift (div (current_price - all_time_high) all_time_high) ;;
  let drawdown_pct := (ratio * 100)%Q in
  let dd_triggered := Qlt_bool drawdown_pct (-30) in
  let dd_points := if dd_triggered then 10 else 0 in
  add_score dd_points ;;;
  append_signal
    {| name := "Drawdown from ATH";
       triggered := PyBool dd_triggered;
       points := dd_points;
       maxPoints := 10;
       detail := float_format E ".1f" drawdown_pct ++ "% from all-time high" |}.

Definition bitcoin_signal_5 (E : Env) (btc_history : History)
  (current_price : Q)
  : Run unit :=
  try_except (bitcoin_signal_5_body E btc_history current_price)
    (unavailable "Drawdown" 10).

(** Lines 794-805. *)
Definition bitcoin_level (score : Z) : Level * string :=
  if score <=? 30 then
    (LOW, "Normal crypto conditions. Maintain positions.")
  else if score <=? 50 then
    (CAUTION, "Elevated risk. Consider taking profits on leveraged positions.")
  else if score <=? 70 then
    (WARNING, "High risk. Reduce exposure, avoid leverage.")
  else
    (DANGER, "Extreme risk. Significant correction likely.").

Definition fetch_bitcoin_barometer (E : Env) : Run Barometer :=
  modify (set_signals []) ;;;
  modify (set_score 0) ;;;
  b <- try_except
         (btc_history <- fetch_yahoo_history E "BTC-USD" "1y" ;;
          current_price <- lift (price_at btc_history (-1)) ;;
          ret (inl (btc_history, current_price)))
         (fun e =>
            ret (inr (ErrorRecord
                        ("Failed to fetch Bitcoin data: " ++ exn_msg e)))) ;;
  match b with
  | inr error_record => ret error_record
  | inl (btc_history, current_price) =>
      bitcoin_signal_1 E btc_history current_price ;;;
      bitcoin_signal_2 E btc_history ;;;
      bitcoin_signal_3 E btc_history current_price ;;;
      bitcoin_signal_4 E btc_history ;;;
      bitcoin_signal_5 E btc_history current_price ;;;
      s <- get ;;
      let (level, recommendation) := bitcoin_level (score s) in
      ret (ScoreRecord (score s) level (signals s) recommendation)
  end.

(** *** Lines 819-881: [main] and the script body *)

(** The body of the loop of [main] for one [(name, func)] pair.  Both
    branches of [if 'error' in barometer] store the record. *)
Definition analyze (nm : string) (func : Run Barometer) : Run unit :=
  try_except
    (barometer <- func ;;
     if has_key "error" barometer
     then modify (fun s => set_barometers (dict_set nm barometer (barometers s)) s)
     else modify (fun s => set_barometers (dict_set nm barometer (barometers s)) s))
    (fun e =>
       modify (fun s =>
                 set_barometers
                   (dict_set nm (ErrorRecord (exn_msg e)) (barometers s)) s)).

(** The table the loop of [main] runs over. *)
Definition barometer_functions (E : Env) : list (string * Run Barometer) :=
  [ ("gold", fetch_gold_barometer E);
    ("sp500", fetch_sp500_barometer E);
    ("nasdaq", fetch_nasdaq_barometer E);
    ("bitcoin", fetch_bitcoin_barometer E) ].

(** [for name, func in table: ...] *)
Fixpoint for_each (table : list (string * Run Barometer)) : Run unit :=
  match table with
  | [] => ret tt
  | (nm, func) :: rest => analyze nm func ;;; for_each rest
  end.

(** [os.makedirs], [open] and [json.dump] on the output. *)
Definition write_report (E : Env) (output : Report) : Run unit :=
  match write_error E with
  | Some e => raise e
  | None => modify (set_disk (Some output))
  end.

Definition main (E : Env) : Run unit :=
  modify (set_barometers []) ;;;
  for_each (barometer_functions E) ;;;
  s <- get ;;
  let output := {| updatedAt := utc_now E; report_barometers := barometers s |} in
  write_report E output.

(** The exit status of the process: the [if __name__ == '__main__'] block
    calls [sys.exit(1)] for a [KeyboardInterrupt] and for an [Exception];
    a run of [main] that returns ends the process with status 0. *)
Definition exit_status (E : Env) (s : State) : Z :=
  match main E s with
  | (Val _, _) => 0
  | (Exc e, _) =>
      match exn_cls e with
      | KeyboardInterrupt => 1
      | _ => 1
      end
  end.

End RiskBarometer.

(** ** scripts/fetch_market_data.py *)

Module MarketData.

Local Open Scope string_scope.
Local Open Scope Z_scope.
Local Open Scope py_scope.

(** Lines 10-20. *)
Definition SYMBOLS : list string :=
  [ "GC=F"; "SI=F"; "CL=F"; "^GSPC"; "^IXIC"; "^DJI"; "BTC-USD"; "ETH-USD";
    "DX-Y.NYB" ].

(** The [meta] object of a chart; [None] is a key that is absent. *)
Record Meta : Type := mkMeta {
  regularMarketPrice : option Q;
  chartPreviousClose : option Q;
  previousClose : option Q;
  meta_marketState : option string;
  regularMarketVolume : option Z;
  meta_currency : option string
}.

(** What the script reads of a response: [meta] and the [close] list,
    [None] when the key is absent or null. *)
Record Chart : Type := mkChart {
  meta : Meta;
  close : option (list (option Q))
}.

(** The dict returned by [fetch_symbol]. *)
Record Snapshot : Type := mkSnapshot {
  price : option Q;
  prevClose : option Q;
  dailyChange : Q;
  dailyChangePct : Q;
  weekChangePct : Q;
  sparkData : list Q;
  high : option Q;
  low : option Q;
  marketState : string;
  volume : Z;
  currency : string
}.

(** A value of the [assets] dict: a snapshot or [{'error': True}]. *)
Inductive Asset : Type :=
| AssetSnapshot (snapshot : Snapshot)
| AssetError.

Record Report : Type := mkReport {
  updatedAt : string;
  report_assets : list (string * Asset)
}.

Record Env : Type := mkEnv {
  (** the outcome of the k-th HTTP request, for a symbol: an exception of
      the request or of the navigation of the JSON body, or the chart *)
  http_get : nat -> string -> res Chart;
  utc_now : string;
  (** the exception of [os.makedirs], [open] or [json.dump], if any *)
  write_error : option exn;
  (** [round(x, ndigits)] *)
  round : Q -> Z -> Q
}.

(** The state of a run: requests made, the locals [assets] and [success]
    of [main], and the content of the output file. *)
Record State : Type := mkState {
  calls : nat;
  assets : list (string * Asset);
  success : Z;
  disk : option Report
}.

Definition initial : State := mkState 0 [] 0 None.

Definition Run (A : Type) : Type := M State A.

(** [x or y] and truth of an optional number: [None] and [0] are false. *)
Definition truthy_num (x : option Q) : bool :=
  match x with
  | Some q => negb (Qeq_bool q 0)
  | None => false
  end.

Definition or_else (x y : option Q) : option Q :=
  if truthy_num x then x else y.

Definition Qmin (x y : Q) : Q := if Qlt_bool y x then y else x.

(** Lines 39-66 of [fetch_symbol]: the snapshot of a chart.  Every
    division is under the truth test of its divisor. *)
Definition snapshot_of (E : Env) (c : Chart) : Snapshot :=
  let closes_raw := match close c with Some l => l | None => [] end in
  let closes :=
    flat_map (fun c => match c with Some x => [x] | None => [] end) closes_raw in
  let price :=
    or_else (regularMarketPrice (meta c))
            (match index closes (-1) with Val x => Some x | Exc _ => None end) in
  let prev_close := or_else (chartPreviousClose (meta c)) (previousClose (meta c)) in
  let daily_change :=
    match price, prev_close with
    | Some p, Some pc =>
        if truthy_num price && truthy_num prev_close then (p - pc)%Q else 0%Q
    | _, _ => 0%Q
    end in
  let daily_change_pct :=
    match prev_close with
    | Some pc => if truthy_num prev_close then (daily_change / pc * 100)%Q else 0%Q
    | None => 0%Q
    end in
  let first_close :=
    match closes with
    | x :: _ => Some x
    | [] => prev_close
    end in
  let week_change :=
    match price, first_close with
    | Some p, Some fc =>
        if truthy_num price && truthy_num first_close then (p - fc)%Q else 0%Q
    | _, _ => 0%Q
    end in
  let week_change_pct :=
    match first_close with
    | Some fc => if truthy_num first_close then (week_change / fc * 100)%Q else 0%Q
    | None => 0%Q
    end in
  {| price :=
       match price with
       | Some p => if truthy_num price then Some (round E p 4) else None
       | None => None
       end;
     prevClose :=
       match prev_close with
       | Some pc => if truthy_num prev_close then Some (round E pc 4) else None
       | None => None
       end;
     dailyChange := round E daily_change 4;
     dailyChangePct := round E daily_change_pct 2;
     weekChangePct := round E week_change_pct 2;
     sparkData := map (fun c => round E c 2) (slice_from closes (-48));
     high :=
       match closes with
       | x :: xs => Some (round E (fold_left Qmax xs x) 4)
       | [] => None
       end;
     low :=
       match closes with
       | x :: xs => Some (round E (fold_left Qmin xs x) 4)
       | [] => None
       end;
     marketState :=
       match meta_marketState (meta c) with Some m => m | None => "CLOSED" end;
     volume := match regularMarketVolume (meta c) with Some v => v | None => 0 end;
     currency := match meta_currency (meta c) with Some m => m | None => "USD" end
  |}.

(** [fetch_symbol]: one request, then the snapshot. *)
Definition fetch_symbol (E : Env) (sym : string) : Run Snapshot :=
  fun s =>
    let s' := mkState (S (calls s)) (assets s) (success s) (disk s) in
    match http_get E (calls s) sym with
    | Exc e => (Exc e, s')
    | Val c => (Val (snapshot_of E c), s')
    end.

Definition set_asset (sym : string) (a : Asset) : Run unit :=
  modify (fun s =>
            mkState (calls s) (dict_set sym a (assets s))
                    (success s) (disk s)).

(** Lines 74-80: the body of the loop of [main]. *)
Definition fetch_one (E : Env) (sym : string) : Run unit :=
  try_except
    (snapshot <- fetch_symbol E sym ;;
     set_asset sym (AssetSnapshot snapshot) ;;;
     modify (fun s => mkState (calls s) (assets s) (success s + 1) (disk s)))
    (fun e => set_asset sym AssetError).

Fixpoint for_each (E : Env) (syms : list string) : Run unit :=
  match syms with
  | [] => ret tt
  | sym :: rest => fetch_one E sym ;;; for_each E rest
  end.

Definition write_report (E : Env) (output : Report) : Run unit :=
  match write_error E with
  | Some e => raise e
  | None =>
      modify (fun s => mkState (calls s) (assets s) (success s) (Some output))
  end.

(** Lines 69-96: [main]; [sys.exit(1)] raises [SystemExit]. *)
Definition main (E : Env) : Run unit :=
  modify (fun s => mkState (calls s) [] 0 (disk s)) ;;;
  for_each E SYMBOLS ;;;
  s <- get ;;
  write_report E {| updatedAt := utc_now E; report_assets := assets s |} ;;;
  if success s =? 0 then raise (Exn SystemExit "1") else ret tt.

(** The exit status of the process.  The script body is the bare call
    [main()]: [SystemExit(1)] ends the process with status 1, an uncaught
    exception with the interpreter's status for it (1, and the status of
    a death by SIGINT, 130, for a [KeyboardInterrupt]). *)
Definition exit_status (E : Env) (s : State) : Z :=
  match main E s with
  | (Val _, _) => 0
  | (Exc e, _) =>
      match exn_cls e with
      | SystemExit => 1
      | KeyboardInterrupt => 130
      | _ => 1
      end
  end.

(** *** [fetch_symbol] with its partial operations written out

    Lines 36-66 again, this time with every operation that can raise
    left partial: indexing a list, [-] and [/] with an operand that is
    [None], a division by zero, [max] and [min] of an empty list,
    [round] of [None].  The guards are the source's. *)

(** The [TypeError] of an operation on [None]. *)
Definition type_error : exn := Exn OtherException "TypeError".

(** [x - y] *)
Definition sub (x y : option Q) : res Q :=
  match x, y with
  | Some a, Some b => Val (a - b)%Q
  | _, _ => Exc type_error
  end.



(** [min(...)] of numbers. *)
Definition min (l : list Q) : res Q :=
  match l with
  | [] => Exc (Exn ValueError "min() arg is an empty sequence")
  | x :: xs => Val (fold_left Qmin xs x)
  end.




End MarketData.

(** ** The vocabulary of the properties *)

Module RiskSpec.
Import RiskBarometer.

Local Open Scope string_scope.
Local Open Scope Z_scope.
Local Open Scope py_scope.

(** The part of the state a barometer function must leave alone. *)
Definition same_outer (s s' : State) : Prop :=
  barometers s' = barometers s /\ disk s' = disk s.

(** The locals of the barometer function are as they were. *)
Definition same_locals (s s' : State) : Prop :=
  signals s' = signals s /\ score s' = score s.

(** The exception was handed over by the HTTP layer. *)
Definition from_http (E : Env) (e : exn) : Prop :=
  exists k sym rng, http_get E k sym rng = Exc e.

(** The HTTP layer fails with instances of [Exception] only: nobody
    interrupts the run. *)
Definition no_interrupt (E : Env) : Prop :=
  forall k sym rng e, http_get E k sym rng = Exc e -> is_Exception e = true.

(** Binary award. *)
Definition binary (sig : Signal) : Prop :=
  points sig = 0 \/ points sig = maxPoints sig.

(** [triggered] holds a bool, in every record but the one named
    'COT Positioning (Proxy)'. *)
Definition typed (sig : Signal) : Prop :=
  name sig = "COT Positioning (Proxy)" \/ is_bool (triggered sig) = true.

(** [sum(f(sig) for sig in sigs)] *)
Definition total (f : Signal -> Z) (sigs : list Signal) : Z :=
  fold_right (fun sig acc => f sig + acc) 0 sigs.

Definition only_Exception {A} (r : res A) : Prop :=
  match r with
  | Exc e => is_Exception e = true
  | Val _ => True
  end.

(** The body of a signal block: it ends by appending one record of the
    given budget and adding its points, or raises with the locals as they
    were. *)
Definition body_ok (E : Env) (K : Z) (body : Run unit) : Prop :=
  forall s,
    match body s with
    | (Val _, s') =>
        exists sig,
          signals s' = (signals s ++ [sig])%list /\
          score s' = score s + points sig /\
          maxPoints sig = K /\ binary sig /\ typed sig /\ same_outer s s'
    | (Exc e, s') =>
        same_locals s s' /\ same_outer s s' /\
        (is_Exception e = true \/ from_http E e)
    end.

(** A whole signal block: one record appended, or an exception of the
    HTTP layer that is not an [Exception] passing through. *)
Definition appends (E : Env) (K : Z) (blk : Run unit) : Prop :=
  forall s,
    match blk s with
    | (Val _, s') =>
        exists sig,
          signals s' = (signals s ++ [sig])%list /\
          score s' = score s + points sig /\
          maxPoints sig = K /\ binary sig /\ typed sig /\ same_outer s s'
    | (Exc e, s') =>
        is_Exception e = false /\ from_http E e /\ same_outer s s'
    end.

(** What a barometer function does, for the budgets [Ks] of its five
    blocks and its level table: an error record, or a score record whose
    signals carry these budgets, each with a binary award and typed, whose
    score is
    the sum of the awards and whose level and recommendation are those of
    the table; the only exception it lets through is one of the HTTP layer
    that is not an [Exception]. *)
Definition fn_contract (E : Env) (Ks : list Z) (level_of : Z -> Level * string)
  (f : Run Barometer) : Prop :=
  forall s,
    match f s with
    | (Val (ErrorRecord _), s') => same_outer s s'
    | (Val (ScoreRecord sc lv sigs rec), s') =>
        map maxPoints sigs = Ks /\
        sc = total points sigs /\
        Forall binary sigs /\
        Forall typed sigs /\
        (lv, rec) = level_of sc /\
        same_outer s s'
    | (Exc e, s') => is_Exception e = false /\ from_http E e /\ same_outer s s'
    end.

(** The shape the four functions share: the locals, the baseline [try],
    and the rest of the function on the baseline history and its last
    close. *)
Definition with_baseline (E : Env) (symbol prefix : string)
  (rest : History -> Q -> Run Barometer) : Run Barometer :=
  modify (set_signals []) ;;;
  modify (set_score 0) ;;;
  b <- try_except
         (history <- fetch_yahoo_history E symbol "1y" ;;
          current_price <- lift (price_at history (-1)) ;;
          ret (inl (history, current_price)))
         (fun e => ret (inr (ErrorRecord (prefix ++ exn_msg e)))) ;;
  match b with
  | inr error_record => ret error_record
  | inl (history, current_price) => rest history current_price
  end.

(** The state in which the baseline request has been made. *)
Definition entered (s : State) : State :=
  set_calls (S (calls s)) (set_score 0 (set_signals [] s)).

(** The record of the [except] branch of a signal block. *)
Definition fallback (nm : string) (K : Z) (e : exn) : Signal :=
  {| name := nm;
     triggered := PyBool false;
     points := 0;
     maxPoints := K;
     detail := "Data unavailable: " ++ str_prefix 50 (exn_msg e) |}.

(** The asset classes: the key in the report, the symbol of the baseline
    history, the name in the error text, the function. *)
Definition asset_classes (E : Env)
  : list (string * string * string * Run Barometer) :=
  [ ("gold", "GC=F", "gold", fetch_gold_barometer E);
    ("sp500", "^GSPC", "S&P 500", fetch_sp500_barometer E);
    ("nasdaq", "^IXIC", "Nasdaq", fetch_nasdaq_barometer E);
    ("bitcoin", "BTC-USD", "Bitcoin", fetch_bitcoin_barometer E) ].


(** The four moving-average deviation blocks: the block, its body, the
    period, the message of the guard, the name of the fallback record,
    the budget. *)
Definition ma_blocks (E : Env) (h : History) (cur : Q)
  : list (Run unit * Run unit * Z * string * string * Z) :=
  [ (gold_signal_3 E h cur, gold_signal_3_body E h cur,
     50, "Insufficient history for MA", "MA Deviation", 15);
    (sp500_signal_3 E h cur, sp500_signal_3_body E h cur,
     200, "Insufficient history", "MA Deviation", 20);
    (nasdaq_signal_2 E h cur, nasdaq_signal_2_body E h cur,
     200, "Insufficient history", "MA Deviation", 25);
    (bitcoin_signal_1 E h cur, bitcoin_signal_1_body E h cur,
     200, "Insufficient history", "MA Deviation", 30) ].

(** The four level tables. *)
Definition level_tables : list (Z -> Level * string) :=
  [gold_level; sp500_level; nasdaq_level; bitcoin_level].

(** *** Concrete environments *)

(** A runtime to run examples with: a square root exact to six decimals,
    and fixed-point formatting with round-half-even. *)
Definition sqrt_6 (q : Q) : Q :=
  (inject_Z (Z.sqrt (Qfloor (q * 1000000000000))) / 1000000)%Q.

Definition round_half_even (q : Q) : Z :=
  let f := Qfloor q in
  let r := (q - inject_Z f)%Q in
  if Qlt_bool r (1 # 2) then f
  else if Qlt_bool (1 # 2) r then f + 1
  else if Z.even f then f else f + 1.

Definition decimal (z : Z) : string :=
  NilZero.string_of_uint (N.to_uint (Z.to_N z)).

Fixpoint zeros (n : nat) : string :=
  match n with
  | O => ""
  | S n' => "0" ++ zeros n'
  end.

Definition format_fixed (plus : bool) (digits : nat) (q : Q) : string :=
  let scale := 10 ^ Z.of_nat digits in
  let n := round_half_even (Qabs q * inject_Z scale)%Q in
  let frac := decimal (n mod scale) in
  (if Qlt_bool q 0 then "-" else if plus then "+" else "")
  ++ decimal (n / scale)
  ++ match digits with
     | O => ""
     | _ => "." ++ zeros (digits - String.length frac) ++ frac
     end.

Definition format_spec (spec : string) (q : Q) : string :=
  if String.eqb spec ".0f" then format_fixed false 0 q
  else if String.eqb spec "+.0f" then format_fixed true 0 q
  else if String.eqb spec ".1f" then format_fixed false 1 q
  else if String.eqb spec "+.1f" then format_fixed true 1 q
  else if String.eqb spec ".2f" then format_fixed false 2 q
  else "".

(** A chart with the given closes, at the timestamps 1, 2, ... *)
Definition chart (closes : list Q) : list Z * list (option Q) :=
  (map Z.of_nat (seq 1 (List.length closes)), map Some closes).

Definition env_of (http : nat -> string -> string -> res (list Z * list (option Q)))
  : Env :=
  {| http_get := http;
     utc_now := "2024-01-01T00:00:00Z";
     write_error := None;
     float_sqrt := sqrt_6;
     float_format := format_spec |}.

Definition dns_failure : exn :=
  Exn OtherException
      "<urlopen error [Errno -3] Temporary failure in name resolution>".

(** Every request answers the two closes 100 and 70. *)
Definition env_two_closes : Env :=
  env_of (fun _ _ _ => Val (chart [100; 70]%Q)).

(** Every request fails. *)
Definition env_down : Env :=
  env_of (fun _ _ _ => Exc dns_failure).

(** The 1-year histories answer, every other request fails. *)
Definition env_aux_down : Env :=
  env_of (fun _ _ rng =>
            if String.eqb rng "1y" then Val (chart [100; 70]%Q)
            else Exc dns_failure).

(** The 5-year history comes back empty. *)
Definition env_empty_5y : Env :=
  env_of (fun _ _ rng =>
            if String.eqb rng "5y" then Val (chart [])
            else Val (chart [100; 70]%Q)).

(** *** Further vocabulary *)

(** The history [fetch_yahoo_history] builds from the [timestamp] list
    and the [close] list of a response. *)
Definition history_of (timestamps : list Z) (closes : list (option Q))
  : History :=
  flat_map (fun tc : Z * option Q =>
              match snd tc with
              | Some close => [(fst tc, close)]
              | None => []
              end)
           (combine timestamps closes).

(** The computation makes at least [lo] and at most [hi] requests,
    whether it returns or raises. *)
Definition requests {A} (lo hi : nat) (m : Run A) : Prop :=
  forall s, (calls s + lo <= calls (snd (m s)) <= calls s + hi)%nat.

Definition at_most {A} (n : nat) (m : Run A) : Prop := requests 0 n m.

(** Ctrl-C during a request. *)
Definition interrupt : exn := Exn KeyboardInterrupt "".

Definition env_interrupted : Env :=
  env_of (fun _ _ _ => Exc interrupt).

(** Every request answers the same closes. *)
Definition env_closes (closes : list Q) : Env :=
  env_of (fun _ _ _ => Val (chart closes)).


(** The record is the record of a block's [try], named [ok], or the
    record of its [except] branch, named [fb], for some exception. *)
Definition signal_named (ok fb : string) (K : Z) (sig : Signal) : Prop :=
  name sig = ok \/ exists e, sig = fallback fb K e.

(** The five blocks of each class in their order: the name of the record
    of the [try], the name of the record of the [except] branch, the
    budget. *)
Definition signal_table : list (string * list (string * string * Z)) :=
  [ ("gold",
     [ ("COT Positioning (Proxy)", "COT Positioning", 30);
       ("Real Yields Surge", "Real Yields", 25);
       ("MA Overextension", "MA Deviation", 15);
       ("DXY Breakout", "DXY Breakout", 15);
       ("Volatility Extreme", "Sentiment", 15) ]);
    ("sp500",
     [ ("VIX Elevated", "VIX Level", 30);
       ("Yield Curve", "Yield Curve", 25);
       ("MA Overextension", "MA Deviation", 20);
       ("Hedging Surge", "Put/Call Ratio", 15);
       ("Market Breadth", "Market Breadth", 10) ]);
    ("nasdaq",
     [ ("VIX Elevated", "VIX Level", 30);
       ("MA Overextension", "MA Deviation", 25);
       ("Rate Surge", "Rate Sensitivity", 20);
       ("Momentum Reversal", "Momentum", 15);
       ("Volatility Spike", "Volatility", 10) ]);
    ("bitcoin",
     [ ("MA Overextension", "MA Deviation", 30);
       ("Volatility Extreme", "Volatility", 25);
       ("Momentum Exhaustion", "Momentum", 20);
       ("Risk-Off Correlation", "Correlation", 15);
       ("Drawdown from ATH", "Drawdown", 10) ]) ].

(** The award follows the trigger: the points are the budget when
    [triggered] counts as true, and 0 when it does not. *)
Definition awarded (sig : Signal) : Prop :=
  points sig = if truthy (triggered sig) then maxPoints sig else 0.

(** The record of the [try] of a block: it bears the name [ok] and its
    award follows its trigger. *)
Definition try_record (ok : string) (sig : Signal) : Prop :=
  name sig = ok /\ awarded sig.

(** The record of a block, of its [try] or of its [except] branch. *)
Definition block_record (n : string * string * Z) (sig : Signal) : Prop :=
  try_record (fst (fst n)) sig \/
  exists e, sig = fallback (snd (fst n)) (snd n) e.

(** The body of a block appends one record of its [try], or raises with
    [signals] as it was. *)
Definition body_emits (ok : string) (body : Run unit) : Prop :=
  forall s,
    match body s with
    | (Val _, s') =>
        exists sig, signals s' = (signals s ++ [sig])%list /\ try_record ok sig
    | (Exc _, s') => signals s' = signals s
    end.

(** A block appends one record, as the table says. *)
Definition block_emits (n : string * string * Z) (blk : Run unit) : Prop :=
  forall s,
    match blk s with
    | (Val _, s') =>
        exists sig,
          signals s' = (signals s ++ [sig])%list /\ block_record n sig
    | (Exc _, _) => True
    end.

End RiskSpec.

Module MarketSpec.
Import MarketData.

Local Open Scope string_scope.
Local Open Scope Z_scope.

(** The HTTP layer and the file system fail with instances of [Exception]
    only. *)
Definition no_interrupt (E : Env) : Prop :=
  (forall k sym e, http_get E k sym = Exc e -> is_Exception e = true) /\
  (forall e, write_error E = Some e -> is_Exception e = true).


Definition empty_meta : Meta := mkMeta None None None None None None.

Definition env_of (http : nat -> string -> res Chart) : Env :=
  {| http_get := http;
     utc_now := "2024-01-01T00:00:00Z";
     write_error := None;
     round := fun q _ => q |}.

(** Every request fails. *)
Definition env_down : Env :=
  env_of (fun _ _ => Exc RiskSpec.dns_failure).

(** Only the request for bitcoin answers. *)
Definition env_bitcoin_only : Env :=
  env_of (fun _ sym =>
            if String.eqb sym "BTC-USD"
            then Val (mkChart empty_meta (Some [Some 100%Q; None; Some 70%Q]))
            else Exc RiskSpec.dns_failure).

(** The closes of a chart that are not null. *)
Definition closes_of (c : Chart) : list Q :=
  flat_map (fun c => match c with Some x => [x] | None => [] end)
           (match close c with Some l => l | None => [] end).



(** Every request answers the chart. *)
Definition env_chart (c : Chart) : Env :=
  env_of (fun _ _ => Val c).

End MarketSpec.

(** ** Properties of the risk barometer *)

Module RiskProofs.
Import RiskBarometer RiskSpec.

Local Open Scope string_scope.
Local Open Scope Z_scope.
Local Open Scope py_scope.

Create HintDb py.

(** *** The primitives raise instances of [Exception] only *)

Lemma index_only_Exception {A} (l : list A) i : only_Exception (index l i).
Proof.
  unfold index.
  destruct ((_ <? 0) || _); [reflexivity|].
  destruct (nth_error _ _); reflexivity.
Qed.

Lemma price_at_only_Exception h i : only_Exception (price_at h i).
Proof.
  unfold price_at. pose proof (index_only_Exception h i) as H.
  destruct (index h i); exact H.
Qed.

Lemma div_only_Exception a b : only_Exception (div a b).
Proof. unfold div. destruct (Qeq_bool b 0); reflexivity. Qed.

Lemma mean_only_Exception l : only_Exception (mean l).
Proof. destruct l; reflexivity. Qed.

Lemma max_only_Exception l : only_Exception (max l).
Proof. destruct l; reflexivity. Qed.

Lemma stdev_only_Exception f l : only_Exception (stdev f l).
Proof. unfold stdev. destruct (len l <? 2); reflexivity. Qed.

Lemma calculate_ma_only_Exception h p : only_Exception (calculate_ma h p).
Proof.
  unfold calculate_ma. destruct (len h <? p); [exact I|].
  pose proof (mean_only_Exception (map snd (slice_from h (- p)))) as H.
  destruct (mean _); [exact I | exact H].
Qed.

Lemma relative_volatility_only_Exception E l :
  only_Exception (relative_volatility E l).
Proof.
  unfold relative_volatility.
  pose proof (stdev_only_Exception (float_sqrt E) l) as H1.
  destruct (stdev _ _) as [sd|]; [|exact H1].
  pose proof (mean_only_Exception l) as H2.
  destruct (mean l) as [m|]; [|exact H2].
  pose proof (div_only_Exception sd m) as H3.
  destruct (div sd m); [exact I | exact H3].
Qed.

#[local] Hint Resolve index_only_Exception price_at_only_Exception
  div_only_Exception mean_only_Exception max_only_Exception
  stdev_only_Exception calculate_ma_only_Exception
  relative_volatility_only_Exception : py.

(** *** Rules for the bodies of the signal blocks *)

Lemma body_ok_fetch E K sym rng (k : History -> Run unit) :
  (forall h, body_ok E K (k h)) ->
  body_ok E K (bind (fetch_yahoo_history E sym rng) k).
Proof.
  intros Hk s. unfold bind, fetch_yahoo_history.
  destruct (http_get E (calls s) sym rng) as [[ts cs]|e] eqn:Hget.
  - exact (Hk _ (set_calls (S (calls s)) s)).
  - cbn. repeat split. right. exists (calls s), sym, rng. exact Hget.
Qed.

Lemma body_ok_lift E K {A} (r : res A) (k : A -> Run unit) :
  only_Exception r ->
  (forall a, body_ok E K (k a)) ->
  body_ok E K (bind (lift r) k).
Proof.
  intros Hr Hk s. unfold bind, lift. destruct r as [a|e].
  - exact (Hk a s).
  - cbn in Hr. repeat split. left. exact Hr.
Qed.

Lemma body_ok_ret E K {A} (a : A) (k : A -> Run unit) :
  body_ok E K (k a) -> body_ok E K (bind (ret a) k).
Proof. intros Hk s. exact (Hk s). Qed.

Lemma body_ok_assoc E K {A B} (m : Run A) (f : A -> Run B) (k : B -> Run unit) :
  body_ok E K (bind m (fun a => bind (f a) k)) ->
  body_ok E K (bind (bind m f) k).
Proof.
  intros H s. specialize (H s). unfold bind in *.
  destruct (m s) as [[a|e] s1]; exact H.
Qed.

Lemma body_ok_raise E K e :
  is_Exception e = true -> body_ok E K (raise e).
Proof. intros He s. cbn. repeat split. left. exact He. Qed.

Lemma body_ok_emit E K (b : bool) nm tr dt :
  typed (mkSignal nm tr (if b then K else 0) K dt) ->
  body_ok E K
    (bind (add_score (if b then K else 0))
       (fun _ => append_signal (mkSignal nm tr (if b then K else 0) K dt))).
Proof.
  intros Ht s. cbn. eexists. repeat split; [|exact Ht].
  unfold binary. cbn. destruct b; auto.
Qed.

(** The one block that divides after [score +=]: the divisor passed the
    truth test. *)
Lemma body_ok_emit_div E K (b : bool) a d nm tr (dt : Q -> string) :
  (forall ratio, typed (mkSignal nm tr (if b then K else 0) K (dt ratio))) ->
  Qeq_bool d 0 = false ->
  body_ok E K
    (bind (add_score (if b then K else 0))
       (fun _ =>
          bind (lift (div a d))
            (fun ratio =>
               append_signal
                 (mkSignal nm tr (if b then K else 0) K (dt ratio))))).
Proof.
  intros Ht Hd s. unfold bind, lift, div. rewrite Hd. cbn.
  eexists. repeat split; [|apply Ht].
  unfold binary. cbn. destruct b; auto.
Qed.

Lemma appends_try E K body nm :
  body_ok E K body -> appends E K (try_except body (unavailable nm K)).
Proof.
  intros Hb s. specialize (Hb s). unfold try_except.
  destruct (body s) as [[[]|e] s1].
  - exact Hb.
  - destruct Hb as [[Hs Hsc] [[Hb Hd] Ho]].
    destruct (is_Exception e) eqn:He.
    + unfold unavailable, append_signal, modify. cbn.
      eexists. split; [rewrite Hs; reflexivity|].
      cbn. split; [lia|]. split; [reflexivity|].
      split; [left; reflexivity|]. split; [right; reflexivity|].
      split; assumption.
    + repeat split; try assumption.
      destruct Ho as [Ho|Ho]; [discriminate | exact Ho].
Qed.

Ltac body_step :=
  lazymatch goal with
  | |- body_ok _ _ (bind (fetch_yahoo_history _ _ _) _) =>
      apply body_ok_fetch; intros ?h
  | |- body_ok _ _ (bind (lift _) _) =>
      apply body_ok_lift; [auto with py | intros ?x]
  | |- body_ok _ _ (bind (ret _) _) => apply body_ok_ret
  | |- body_ok _ _ (bind (bind _ _) _) => apply body_ok_assoc
  | |- body_ok _ _ (bind (if ?c then _ else _) _) => destruct c eqn:?
  | |- body_ok _ _ (raise _) => apply body_ok_raise; reflexivity
  | |- body_ok _ _ (bind (add_score _) (fun _ => append_signal _)) =>
      apply body_ok_emit;
      first [left; reflexivity | right; reflexivity]
  | |- body_ok _ _ (bind (add_score _) (fun _ => bind (lift (div _ _)) _)) =>
      apply body_ok_emit_div;
      [ intros ?ratio; right; reflexivity
      | match goal with
        | H : truthy (PyFloat _) = true |- _ =>
            apply negb_true_iff in H; exact H
        end ]
  | |- body_ok _ _ (if ?c then _ else _) => destruct c eqn:?
  | |- body_ok _ _ (match ?o with Some _ => _ | None => _ end) =>
      destruct o eqn:?
  end.

Ltac body_auto := cbv zeta; repeat body_step.

(** *** The twenty bodies *)

Lemma gold_signal_1_ok E cur : body_ok E 30 (gold_signal_1_body E cur).
Proof. unfold gold_signal_1_body. body_auto. Qed.

Lemma gold_signal_2_ok E : body_ok E 25 (gold_signal_2_body E).
Proof. unfold gold_signal_2_body. body_auto. Qed.

Lemma gold_signal_3_ok E h cur : body_ok E 15 (gold_signal_3_body E h cur).
Proof. unfold gold_signal_3_body. body_auto. Qed.

Lemma gold_signal_4_ok E : body_ok E 15 (gold_signal_4_body E).
Proof. unfold gold_signal_4_body. body_auto. Qed.

Lemma gold_signal_5_ok E h : body_ok E 15 (gold_signal_5_body E h).
Proof. unfold gold_signal_5_body. body_auto. Qed.

Lemma sp500_signal_1_ok E : body_ok E 30 (sp500_signal_1_body E).
Proof. unfold sp500_signal_1_body. body_auto. Qed.

Lemma sp500_signal_2_ok E : body_ok E 25 (sp500_signal_2_body E).
Proof. unfold sp500_signal_2_body. body_auto. Qed.

Lemma sp500_signal_3_ok E h cur : body_ok E 20 (sp500_signal_3_body E h cur).
Proof. unfold sp500_signal_3_body. body_auto. Qed.

Lemma sp500_signal_4_ok E : body_ok E 15 (sp500_signal_4_body E).
Proof. unfold sp500_signal_4_body. body_auto. Qed.

Lemma sp500_signal_5_ok E h : body_ok E 10 (sp500_signal_5_body E h).
Proof. unfold sp500_signal_5_body. body_auto. Qed.

Lemma nasdaq_signal_1_ok E : body_ok E 30 (nasdaq_signal_1_body E).
Proof. unfold nasdaq_signal_1_body. body_auto. Qed.

Lemma nasdaq_signal_2_ok E h cur : body_ok E 25 (nasdaq_signal_2_body E h cur).
Proof. unfold nasdaq_signal_2_body. body_auto. Qed.

Lemma nasdaq_signal_3_ok E : body_ok E 20 (nasdaq_signal_3_body E).
Proof. unfold nasdaq_signal_3_body. body_auto. Qed.

Lemma nasdaq_signal_4_ok E h cur : body_ok E 15 (nasdaq_signal_4_body E h cur).
Proof. unfold nasdaq_signal_4_body. body_auto. Qed.

Lemma nasdaq_signal_5_ok E h : body_ok E 10 (nasdaq_signal_5_body E h).
Proof. unfold nasdaq_signal_5_body. body_auto. Qed.

Lemma bitcoin_signal_1_ok E h cur : body_ok E 30 (bitcoin_signal_1_body E h cur).
Proof. unfold bitcoin_signal_1_body. body_auto. Qed.

Lemma bitcoin_signal_2_ok E h : body_ok E 25 (bitcoin_signal_2_body E h).
Proof. unfold bitcoin_signal_2_body. body_auto. Qed.

Lemma bitcoin_signal_3_ok E h cur : body_ok E 20 (bitcoin_signal_3_body E h cur).
Proof. unfold bitcoin_signal_3_body. body_auto. Qed.

Lemma bitcoin_signal_4_ok E h : body_ok E 15 (bitcoin_signal_4_body E h).
Proof. unfold bitcoin_signal_4_body. body_auto. Qed.

Lemma bitcoin_signal_5_ok E h cur : body_ok E 10 (bitcoin_signal_5_body E h cur).
Proof. unfold bitcoin_signal_5_body. body_auto. Qed.

(** *** The twenty blocks *)

Lemma gold_signal_1_appends E cur : appends E 30 (gold_signal_1 E cur).
Proof. apply appends_try, gold_signal_1_ok. Qed.

Lemma gold_signal_2_appends E : appends E 25 (gold_signal_2 E).
Proof. apply appends_try, gold_signal_2_ok. Qed.

Lemma gold_signal_3_appends E h cur : appends E 15 (gold_signal_3 E h cur).
Proof. apply appends_try, gold_signal_3_ok. Qed.

Lemma gold_signal_4_appends E : appends E 15 (gold_signal_4 E).
Proof. apply appends_try, gold_signal_4_ok. Qed.

Lemma gold_signal_5_appends E h : appends E 15 (gold_signal_5 E h).
Proof. apply appends_try, gold_signal_5_ok. Qed.

Lemma sp500_signal_1_appends E : appends E 30 (sp500_signal_1 E).
Proof. apply appends_try, sp500_signal_1_ok. Qed.

Lemma sp500_signal_2_appends E : appends E 25 (sp500_signal_2 E).
Proof. apply appends_try, sp500_signal_2_ok. Qed.

Lemma sp500_signal_3_appends E h cur : appends E 20 (sp500_signal_3 E h cur).
Proof. apply appends_try, sp500_signal_3_ok. Qed.

Lemma sp500_signal_4_appends E : appends E 15 (sp500_signal_4 E).
Proof. apply appends_try, sp500_signal_4_ok. Qed.

Lemma sp500_signal_5_appends E h : appends E 10 (sp500_signal_5 E h).
Proof. apply appends_try, sp500_signal_5_ok. Qed.

Lemma nasdaq_signal_1_appends E : appends E 30 (nasdaq_signal_1 E).
Proof. apply appends_try, nasdaq_signal_1_ok. Qed.

Lemma nasdaq_signal_2_appends E h cur : appends E 25 (nasdaq_signal_2 E h cur).
Proof. apply appends_try, nasdaq_signal_2_ok. Qed.

Lemma nasdaq_signal_3_appends E : appends E 20 (nasdaq_signal_3 E).
Proof. apply appends_try, nasdaq_signal_3_ok. Qed.

Lemma nasdaq_signal_4_appends E h cur : appends E 15 (nasdaq_signal_4 E h cur).
Proof. apply appends_try, nasdaq_signal_4_ok. Qed.

Lemma nasdaq_signal_5_appends E h : appends E 10 (nasdaq_signal_5 E h).
Proof. apply appends_try, nasdaq_signal_5_ok. Qed.

Lemma bitcoin_signal_1_appends E h cur : appends E 30 (bitcoin_signal_1 E h cur).
Proof. apply appends_try, bitcoin_signal_1_ok. Qed.

Lemma bitcoin_signal_2_appends E h : appends E 25 (bitcoin_signal_2 E h).
Proof. apply appends_try, bitcoin_signal_2_ok. Qed.

Lemma bitcoin_signal_3_appends E h cur : appends E 20 (bitcoin_signal_3 E h cur).
Proof. apply appends_try, bitcoin_signal_3_ok. Qed.

Lemma bitcoin_signal_4_appends E h : appends E 15 (bitcoin_signal_4 E h).
Proof. apply appends_try, bitcoin_signal_4_ok. Qed.

Lemma bitcoin_signal_5_appends E h cur : appends E 10 (bitcoin_signal_5 E h cur).
Proof. apply appends_try, bitcoin_signal_5_ok. Qed.

#[local] Hint Resolve
  gold_signal_1_appends gold_signal_2_appends gold_signal_3_appends
  gold_signal_4_appends gold_signal_5_appends
  sp500_signal_1_appends sp500_signal_2_appends sp500_signal_3_appends
  sp500_signal_4_appends sp500_signal_5_appends
  nasdaq_signal_1_appends nasdaq_signal_2_appends nasdaq_signal_3_appends
  nasdaq_signal_4_appends nasdaq_signal_5_appends
  bitcoin_signal_1_appends bitcoin_signal_2_appends bitcoin_signal_3_appends
  bitcoin_signal_4_appends bitcoin_signal_5_appends : py.

(** *** Five blocks in a row and the closing [return] *)

Lemma same_outer_refl s : same_outer s s.
Proof. split; reflexivity. Qed.

Lemma same_outer_trans s1 s2 s3 :
  same_outer s1 s2 -> same_outer s2 s3 -> same_outer s1 s3.
Proof. intros [A B] [C D]. split; congruence. Qed.

Lemma five_blocks E K1 K2 K3 K4 K5 (b1 b2 b3 b4 b5 : Run unit)
  (level_of : Z -> Level * string) (s0 s : State) :
  appends E K1 b1 -> appends E K2 b2 -> appends E K3 b3 ->
  appends E K4 b4 -> appends E K5 b5 ->
  signals s = [] -> score s = 0 -> same_outer s0 s ->
  match
    (b1 ;;; b2 ;;; b3 ;;; b4 ;;; b5 ;;;
     st <- get ;;
     let (level, recommendation) := level_of (score st) in
     ret (ScoreRecord (score st) level (signals st) recommendation)) s
  with
  | (Val (ErrorRecord _), s') => same_outer s0 s'
  | (Val (ScoreRecord sc lv sigs rec), s') =>
      map maxPoints sigs = [K1; K2; K3; K4; K5] /\
      sc = total points sigs /\
      Forall binary sigs /\
      Forall typed sigs /\
      (lv, rec) = level_of sc /\
      same_outer s0 s'
  | (Exc e, s') => is_Exception e = false /\ from_http E e /\ same_outer s0 s'
  end.
Proof.
  intros H1 H2 H3 H4 H5 Hsig Hsc O0. unfold bind.
  specialize (H1 s). destruct (b1 s) as [[[]|e] s1];
    [destruct H1 as (g1 & S1 & P1 & M1 & B1 & T1 & O1)
    | destruct H1 as (? & ? & O1); eauto using same_outer_trans].
  specialize (H2 s1). destruct (b2 s1) as [[[]|e] s2];
    [destruct H2 as (g2 & S2 & P2 & M2 & B2 & T2 & O2)
    | destruct H2 as (? & ? & O2); eauto 6 using same_outer_trans].
  specialize (H3 s2). destruct (b3 s2) as [[[]|e] s3];
    [destruct H3 as (g3 & S3 & P3 & M3 & B3 & T3 & O3)
    | destruct H3 as (? & ? & O3); eauto 7 using same_outer_trans].
  specialize (H4 s3). destruct (b4 s3) as [[[]|e] s4];
    [destruct H4 as (g4 & S4 & P4 & M4 & B4 & T4 & O4)
    | destruct H4 as (? & ? & O4); eauto 8 using same_outer_trans].
  specialize (H5 s4). destruct (b5 s4) as [[[]|e] s5];
    [destruct H5 as (g5 & S5 & P5 & M5 & B5 & T5 & O5)
    | destruct H5 as (? & ? & O5); eauto 9 using same_outer_trans].
  unfold get. cbn.
  assert (Hs : signals s5 = [g1; g2; g3; g4; g5]).
  { rewrite S5, S4, S3, S2, S1, Hsig. reflexivity. }
  destruct (level_of (score s5)) as [lv rec] eqn:Hl. cbn.
  rewrite Hs. cbn.
  split; [congruence|]. split; [lia|].
  split; [repeat (apply Forall_cons; [assumption|]); apply Forall_nil|].
  split; [repeat (apply Forall_cons; [assumption|]); apply Forall_nil|].
  split; [symmetry; exact Hl|].
  eauto 9 using same_outer_trans.
Qed.

(** *** The four functions *)

Lemma with_baseline_fails E symbol prefix rest s e :
  http_get E (calls s) symbol "1y" = Exc e ->
  is_Exception e = true ->
  with_baseline E symbol prefix rest s
  = (Val (ErrorRecord (prefix ++ exn_msg e)), entered s).
Proof.
  intros Hget He. unfold with_baseline, bind, modify, try_except,
    fetch_yahoo_history. cbn. rewrite Hget, He. reflexivity.
Qed.

Lemma with_baseline_contract E symbol prefix rest Ks level_of :
  (forall h cur s0 s,
      signals s = [] -> score s = 0 -> same_outer s0 s ->
      match rest h cur s with
      | (Val (ErrorRecord _), s') => same_outer s0 s'
      | (Val (ScoreRecord sc lv sigs rec), s') =>
          map maxPoints sigs = Ks /\
          sc = total points sigs /\
          Forall binary sigs /\
          Forall typed sigs /\
          (lv, rec) = level_of sc /\
          same_outer s0 s'
      | (Exc e, s') =>
          is_Exception e = false /\ from_http E e /\ same_outer s0 s'
      end) ->
  fn_contract E Ks level_of (with_baseline E symbol prefix rest).
Proof.
  intros Hrest s.
  unfold with_baseline, bind, modify, try_except, fetch_yahoo_history, lift, ret.
  cbn.
  destruct (http_get E (calls s) symbol "1y") as [[ts cs]|e] eqn:Hget.
  - set (h := flat_map _ _).
    pose proof (price_at_only_Exception h (-1)) as Hx.
    destruct (price_at h (-1)) as [cur|e].
    + apply Hrest; [reflexivity | reflexivity | split; reflexivity].
    + cbn in Hx. rewrite Hx. split; reflexivity.
  - destruct (is_Exception e) eqn:He.
    + split; reflexivity.
    + split; [exact He|]. split; [|split; reflexivity].
      exists (calls s), symbol, "1y". exact Hget.
Qed.

Lemma gold_shape E :
  fetch_gold_barometer E
  = with_baseline E "GC=F" "Failed to fetch gold data: "
      (fun gold_history current_price =>
         gold_signal_1 E current_price ;;;
         gold_signal_2 E ;;;
         gold_signal_3 E gold_history current_price ;;;
         gold_signal_4 E ;;;
         gold_signal_5 E gold_history ;;;
         s <- get ;;
         let (level, recommendation) := gold_level (score s) in
         ret (ScoreRecord (score s) level (signals s) recommendation)).
Proof. reflexivity. Qed.

Lemma sp500_shape E :
  fetch_sp500_barometer E
  = with_baseline E "^GSPC" "Failed to fetch S&P 500 data: "
      (fun sp_history current_price =>
         sp500_signal_1 E ;;;
         sp500_signal_2 E ;;;
         sp500_signal_3 E sp_history current_price ;;;
         sp500_signal_4 E ;;;
         sp500_signal_5 E sp_history ;;;
         s <- get ;;
         let (level, recommendation) := sp500_level (score s) in
         ret (ScoreRecord (score s) level (signals s) recommendation)).
Proof. reflexivity. Qed.

Lemma nasdaq_shape E :
  fetch_nasdaq_barometer E
  = with_baseline E "^IXIC" "Failed to fetch Nasdaq data: "
      (fun nasdaq_history current_price =>
         nasdaq_signal_1 E ;;;
         nasdaq_signal_2 E nasdaq_history current_price ;;;
         nasdaq_signal_3 E ;;;
         nasdaq_signal_4 E nasdaq_history current_price ;;;
         nasdaq_signal_5 E nasdaq_history ;;;
         s <- get ;;
         let (level, recommendation) := nasdaq_level (score s) in
         ret (ScoreRecord (score s) level (signals s) recommendation)).
Proof. reflexivity. Qed.

Lemma bitcoin_shape E :
  fetch_bitcoin_barometer E
  = with_baseline E "BTC-USD" "Failed to fetch Bitcoin data: "
      (fun btc_history current_price =>
         bitcoin_signal_1 E btc_history current_price ;;;
         bitcoin_signal_2 E btc_history ;;;
         bitcoin_signal_3 E btc_history current_price ;;;
         bitcoin_signal_4 E btc_history ;;;
         bitcoin_signal_5 E btc_history current_price ;;;
         s <- get ;;
         let (level, recommendation) := bitcoin_level (score s) in
         ret (ScoreRecord (score s) level (signals s) recommendation)).
Proof. reflexivity. Qed.

Lemma gold_contract E :
  fn_contract E [30; 25; 15; 15; 15] gold_level (fetch_gold_barometer E).
Proof.
  rewrite gold_shape. apply with_baseline_contract. intros.
  apply five_blocks; auto with py.
Qed.

Lemma sp500_contract E :
  fn_contract E [30; 25; 20; 15; 10] sp500_level (fetch_sp500_barometer E).
Proof.
  rewrite sp500_shape. apply with_baseline_contract. intros.
  apply five_blocks; auto with py.
Qed.

Lemma nasdaq_contract E :
  fn_contract E [30; 25; 20; 15; 10] nasdaq_level (fetch_nasdaq_barometer E).
Proof.
  rewrite nasdaq_shape. apply with_baseline_contract. intros.
  apply five_blocks; auto with py.
Qed.

Lemma bitcoin_contract E :
  fn_contract E [30; 25; 20; 15; 10] bitcoin_level (fetch_bitcoin_barometer E).
Proof.
  rewrite bitcoin_shape. apply with_baseline_contract. intros.
  apply five_blocks; auto with py.
Qed.

(** *** The level tables and the budgets *)

Lemma level_tables_thresholds level_of sc :
  In level_of level_tables ->
  fst (level_of sc)
  = if sc <=? 30 then LOW
    else if sc <=? 50 then CAUTION
    else if sc <=? 70 then WARNING
    else DANGER.
Proof.
  intros Hin.
  destruct Hin as [<-|[<-|[<-|[<-|[]]]]];
    unfold gold_level, sp500_level, nasdaq_level, bitcoin_level;
    destruct (sc <=? 30); try reflexivity;
    destruct (sc <=? 50); try reflexivity;
    destruct (sc <=? 70); reflexivity.
Qed.

(** Every asset class has a contract: five budgets that sum to 100 and
    one of the four level tables. *)
Lemma asset_class_contract E key symbol label f :
  In (key, symbol, label, f) (asset_classes E) ->
  exists Ks level_of,
    fn_contract E Ks level_of f /\
    List.length Ks = 5%nat /\
    fold_right Z.add 0 Ks = 100 /\
    Forall (fun K => 0 <= K) Ks /\
    In level_of level_tables.
Proof.
  intros Hin. unfold asset_classes in Hin.
  repeat (destruct Hin as [Heq|Hin]; [inversion Heq; subst; clear Heq|]);
    try contradiction.
  - exists [30; 25; 15; 15; 15], gold_level.
    split; [apply gold_contract|].
    repeat split; try (repeat constructor; lia); cbn; auto.
  - exists [30; 25; 20; 15; 10], sp500_level.
    split; [apply sp500_contract|].
    repeat split; try (repeat constructor; lia); cbn; auto.
  - exists [30; 25; 20; 15; 10], nasdaq_level.
    split; [apply nasdaq_contract|].
    repeat split; try (repeat constructor; lia); cbn; auto.
  - exists [30; 25; 20; 15; 10], bitcoin_level.
    split; [apply bitcoin_contract|].
    repeat split; try (repeat constructor; lia); cbn; auto.
Qed.



(** *** C1 *)

(** C1.  For each of the four barometer functions, on every environment
    and from every state: when the function returns a record with a score
    [sc], the level of the record is LOW iff [sc <= 30], CAUTION iff
    [31 <= sc <= 50], WARNING iff [51 <= sc <= 70] and DANGER iff
    [71 <= sc]; and each of the four level tables maps the boundary scores
    30, 31, 50, 51, 70, 71 to LOW, CAUTION, CAUTION, WARNING, WARNING,
    DANGER. *)
Theorem level_by_score E key symbol label f s sc lv sigs rec s' :
  In (key, symbol, label, f) (asset_classes E) ->
  f s = (Val (ScoreRecord sc lv sigs rec), s') ->
  (lv = LOW <-> sc <= 30) /\
  (lv = CAUTION <-> 31 <= sc <= 50) /\
  (lv = WARNING <-> 51 <= sc <= 70) /\
  (lv = DANGER <-> 71 <= sc) /\
  (forall level_of,
      In level_of level_tables ->
      map (fun z => fst (level_of z)) [30; 31; 50; 51; 70; 71]
      = [LOW; CAUTION; CAUTION; WARNING; WARNING; DANGER]).
Proof.
  intros Hin Hrun.
  destruct (asset_class_contract E key symbol label f Hin)
    as (Ks & level_of & Hc & _ & _ & _ & Htab).
  specialize (Hc s). rewrite Hrun in Hc.
  destruct Hc as (_ & _ & _ & _ & Hlv & _).
  assert (Hl : lv = fst (level_of sc)) by (rewrite <- Hlv; reflexivity).
  rewrite (level_tables_thresholds level_of sc Htab) in Hl.
  assert (Hboundary :
            forall t, In t level_tables ->
                      map (fun z => fst (t z)) [30; 31; 50; 51; 70; 71]
                      = [LOW; CAUTION; CAUTION; WARNING; WARNING; DANGER]).
  { intros t Ht. cbn [map].
    rewrite !(level_tables_thresholds t _ Ht). reflexivity. }
  destruct (Z.leb_spec sc 30); [|destruct (Z.leb_spec sc 50);
                                 [|destruct (Z.leb_spec sc 70)]];
    subst lv; (repeat split; [..|exact Hboundary]);
    intros; first [ lia | discriminate | reflexivity ].
Qed.

(** The gold function on the environment that answers the two closes
    100 and 70: a record with score 0 at level LOW. *)
Lemma level_by_score_witness :
  exists sigs rec s',
    fetch_gold_barometer env_two_closes initial
    = (Val (ScoreRecord 0 LOW sigs rec), s') /\
    (LOW = LOW <-> 0 <= 30).
Proof.
  eexists _, _, _. split; [vm_compute; reflexivity|].
  eapply (level_by_score env_two_closes "gold" "GC=F" "gold"
            (fetch_gold_barometer env_two_closes) initial 0 LOW).
  - left. reflexivity.
  - vm_compute. reflexivity.
Defined.

(** *** C2 *)



(** *** [main]: the loop over the four functions *)

Lemma asset_classes_functions E :
  map (fun c : string * string * string * Run Barometer =>
         (fst (fst (fst c)), snd c)) (asset_classes E)
  = barometer_functions E.
Proof. reflexivity. Qed.

(** Without interrupts a function under contract returns. *)
Lemma contract_returns E Ks level_of f s :
  no_interrupt E ->
  fn_contract E Ks level_of f ->
  exists r s1, f s = (Val r, s1) /\ same_outer s s1.
Proof.
  intros Hno Hc. specialize (Hc s).
  destruct (f s) as [[r|e] s1].
  - exists r, s1. split; [reflexivity|].
    destruct r; [exact Hc | apply Hc].
  - destruct Hc as (He & (k & sym & rng & Hget) & _).
    rewrite (Hno _ _ _ _ Hget) in He. discriminate.
Qed.

Lemma analyze_returns nm f s r s1 :
  f s = (Val r, s1) ->
  analyze nm f s
  = (Val tt, set_barometers (dict_set nm r (barometers s1)) s1).
Proof.
  intros Hf. unfold analyze, try_except, bind. rewrite Hf.
  destruct (has_key "error" r); reflexivity.
Qed.

(** Without interrupts the loop of [main] records the four classes in
    order, each with what its function returned, and leaves the file
    alone. *)
Lemma for_each_records E s :
  no_interrupt E ->
  barometers s = [] ->
  exists r1 r2 r3 r4 s',
    for_each (barometer_functions E) s = (Val tt, s') /\
    barometers s'
    = [("gold", r1); ("sp500", r2); ("nasdaq", r3); ("bitcoin", r4)] /\
    disk s' = disk s /\
    (exists sa sb, fetch_gold_barometer E sa = (Val r1, sb)) /\
    (exists sa sb, fetch_sp500_barometer E sa = (Val r2, sb)) /\
    (exists sa sb, fetch_nasdaq_barometer E sa = (Val r3, sb)) /\
    (exists sa sb, fetch_bitcoin_barometer E sa = (Val r4, sb)).
Proof.
  intros Hno Hb.
  destruct (contract_returns E _ _ _ s Hno (gold_contract E))
    as (r1 & s1 & F1 & [B1 D1]).
  pose proof (analyze_returns "gold" _ _ _ _ F1) as A1.
  set (t1 := set_barometers _ s1) in A1.
  destruct (contract_returns E _ _ _ t1 Hno (sp500_contract E))
    as (r2 & s2 & F2 & [B2 D2]).
  pose proof (analyze_returns "sp500" _ _ _ _ F2) as A2.
  set (t2 := set_barometers _ s2) in A2.
  destruct (contract_returns E _ _ _ t2 Hno (nasdaq_contract E))
    as (r3 & s3 & F3 & [B3 D3]).
  pose proof (analyze_returns "nasdaq" _ _ _ _ F3) as A3.
  set (t3 := set_barometers _ s3) in A3.
  destruct (contract_returns E _ _ _ t3 Hno (bitcoin_contract E))
    as (r4 & s4 & F4 & [B4 D4]).
  pose proof (analyze_returns "bitcoin" _ _ _ _ F4) as A4.
  set (t4 := set_barometers _ s4) in A4.
  exists r1, r2, r3, r4, t4.
  split.
  { cbn [for_each barometer_functions]. unfold bind.
    rewrite A1, A2, A3, A4. reflexivity. }
  split.
  { subst t4. cbn. rewrite B4. subst t3. cbn. rewrite B3. subst t2. cbn.
    rewrite B2. subst t1. cbn. rewrite B1, Hb. reflexivity. }
  split.
  { subst t4. cbn. rewrite D4. subst t3. cbn. rewrite D3. subst t2. cbn.
    rewrite D2. subst t1. cbn. exact D1. }
  eauto 12.
Qed.

(** [main] without interrupts: the four classes are recorded, and the
    report is written unless the writing raises. *)
Lemma main_records E s :
  no_interrupt E ->
  exists r1 r2 r3 r4 s',
    barometers s'
    = [("gold", r1); ("sp500", r2); ("nasdaq", r3); ("bitcoin", r4)] /\
    (exists sa sb, fetch_gold_barometer E sa = (Val r1, sb)) /\
    (exists sa sb, fetch_sp500_barometer E sa = (Val r2, sb)) /\
    (exists sa sb, fetch_nasdaq_barometer E sa = (Val r3, sb)) /\
    (exists sa sb, fetch_bitcoin_barometer E sa = (Val r4, sb)) /\
    main E s
    = match write_error E with
      | Some e => (Exc e, s')
      | None =>
          (Val tt,
           set_disk (Some {| updatedAt := utc_now E;
                             report_barometers := barometers s' |}) s')
      end.
Proof.
  intros Hno.
  destruct (for_each_records E (set_barometers [] s) Hno eq_refl)
    as (r1 & r2 & r3 & r4 & s' & Hrun & Hb & _ & F1 & F2 & F3 & F4).
  exists r1, r2, r3, r4, s'.
  repeat (split; [assumption|]).
  unfold main, bind, modify, get, write_report. rewrite Hrun.
  destruct (write_error E); reflexivity.
Qed.

(** *** C3 *)

(** C3.  For each asset class, when the request for the class's own
    1-year history raises an [Exception] [e], the function returns the
    record [{'error': 'Failed to fetch <class> data: ' + str(e)}], whose
    only key is [error] (no score, level or signals); and when that
    request fails throughout a run of [main] in which nobody interrupts
    and the report can be written, the report holds the four classes in
    order, this class with that error record and every class with what
    its function returned. *)
Theorem baseline_failure_is_error_record E key symbol label f e :
  In (key, symbol, label, f) (asset_classes E) ->
  is_Exception e = true ->
  let record := ErrorRecord ("Failed to fetch " ++ label ++ " data: " ++ exn_msg e) in
  (forall s,
      http_get E (calls s) symbol "1y" = Exc e ->
      f s = (Val record, entered s)) /\
  keys record = ["error"] /\
  has_key "score" record = false /\
  has_key "level" record = false /\
  has_key "signals" record = false /\
  ((forall k, http_get E k symbol "1y" = Exc e) ->
   no_interrupt E ->
   write_error E = None ->
   forall s,
   exists s',
     main E s = (Val tt, s') /\
     disk s' = Some {| updatedAt := utc_now E;
                       report_barometers := barometers s' |} /\
     map fst (barometers s') = ["gold"; "sp500"; "nasdaq"; "bitcoin"] /\
     dict_get key (barometers s') = Some record /\
     Forall2 (fun c kv =>
                fst kv = fst (fst (fst c)) /\
                exists sa sb, snd c sa = (Val (snd kv), sb))
             (asset_classes E) (barometers s')).
Proof.
  intros Hin He record.
  assert (Hfail : forall s,
             http_get E (calls s) symbol "1y" = Exc e ->
             f s = (Val record, entered s)).
  { intros s Hget. unfold asset_classes in Hin.
    destruct Hin as [Heq|[Heq|[Heq|[Heq|[]]]]];
      inversion Heq; subst; clear Heq;
      [ rewrite gold_shape | rewrite sp500_shape
      | rewrite nasdaq_shape | rewrite bitcoin_shape ];
      exact (with_baseline_fails E _ _ _ s e Hget He). }
  split; [exact Hfail|].
  repeat (split; [reflexivity|]).
  intros Hall Hno Hw s.
  destruct (main_records E s Hno)
    as (r1 & r2 & r3 & r4 & s' & Hb & F1 & F2 & F3 & F4 & Hmain).
  rewrite Hw in Hmain.
  eexists. split; [exact Hmain|].
  cbn. rewrite Hb.
  split; [reflexivity|]. split; [reflexivity|].
  split.
  - unfold asset_classes in Hin.
    destruct Hin as [Heq|[Heq|[Heq|[Heq|[]]]]];
      inversion Heq; subst; clear Heq; cbn; f_equal.
    + destruct F1 as (sa & sb & F). rewrite (Hfail sa (Hall _)) in F.
      congruence.
    + destruct F2 as (sa & sb & F). rewrite (Hfail sa (Hall _)) in F.
      congruence.
    + destruct F3 as (sa & sb & F). rewrite (Hfail sa (Hall _)) in F.
      congruence.
    + destruct F4 as (sa & sb & F). rewrite (Hfail sa (Hall _)) in F.
      congruence.
  - unfold asset_classes.
    repeat (apply Forall2_cons; [split; [reflexivity | assumption]|]).
    apply Forall2_nil.
Qed.

Lemma no_interrupt_env_down : no_interrupt env_down.
Proof. intros k sym rng e H. inversion H. reflexivity. Qed.

(** Every request fails with a DNS error: the gold function returns its
    error record, and [main] runs to its end and records it. *)
Lemma baseline_failure_is_error_record_witness :
  fetch_gold_barometer env_down initial
  = (Val (ErrorRecord
            "Failed to fetch gold data: <urlopen error [Errno -3] Temporary failure in name resolution>"),
     entered initial) /\
  exists s',
    main env_down initial = (Val tt, s') /\
    dict_get "gold" (barometers s')
    = Some (ErrorRecord
              "Failed to fetch gold data: <urlopen error [Errno -3] Temporary failure in name resolution>").
Proof.
  destruct (baseline_failure_is_error_record env_down "gold" "GC=F" "gold"
              (fetch_gold_barometer env_down) dns_failure
              (or_introl eq_refl) eq_refl)
    as (H1 & _ & _ & _ & _ & H2).
  split.
  - exact (H1 initial eq_refl).
  - destruct (H2 (fun _ => eq_refl) no_interrupt_env_down eq_refl initial)
      as (s' & Hmain & _ & _ & Hget & _).
    exists s'. split; [exact Hmain | exact Hget].
Defined.

(** *** The fallback record of a signal block *)

#[local] Hint Resolve
  gold_signal_1_ok gold_signal_2_ok gold_signal_3_ok gold_signal_4_ok
  gold_signal_5_ok sp500_signal_1_ok sp500_signal_2_ok sp500_signal_3_ok
  sp500_signal_4_ok sp500_signal_5_ok nasdaq_signal_1_ok nasdaq_signal_2_ok
  nasdaq_signal_3_ok nasdaq_signal_4_ok nasdaq_signal_5_ok bitcoin_signal_1_ok
  bitcoin_signal_2_ok bitcoin_signal_3_ok bitcoin_signal_4_ok
  bitcoin_signal_5_ok : py.




(** *** C4 *)




(** *** Comparisons of numbers *)

Lemma Qlt_bool_iff x y : Qlt_bool x y = true <-> (x < y)%Q.
Proof.
  unfold Qlt_bool. rewrite negb_true_iff. split.
  - intros H. apply Qnot_le_lt. intros Hle.
    apply Qle_bool_iff in Hle. congruence.
  - intros H. destruct (Qle_bool y x) eqn:Hb; [|reflexivity].
    apply Qle_bool_iff in Hb. exfalso. exact (Qlt_not_le _ _ H Hb).
Qed.

Lemma Qlt_bool_false_iff x y : Qlt_bool x y = false <-> (y <= x)%Q.
Proof.
  unfold Qlt_bool. rewrite negb_false_iff. apply Qle_bool_iff.
Qed.

(** *** [sorted] keeps the length and the count *)

Lemma len_cons {A} (x : A) l : len (x :: l) = 1 + len l.
Proof. unfold len. cbn [List.length]. lia. Qed.

Lemma len_nonneg {A} (l : list A) : 0 <= len l.
Proof. unfold len. lia. Qed.

Lemma len_app {A} (l1 l2 : list A) : len (l1 ++ l2)%list = len l1 + len l2.
Proof. unfold len. rewrite length_app. lia. Qed.

Lemma count_below_cons v x l :
  count_below v (x :: l)
  = (if Qlt_bool x v then 1 else 0) + count_below v l.
Proof.
  unfold count_below. cbn [filter].
  destruct (Qlt_bool x v); [apply len_cons | reflexivity].
Qed.

Lemma count_below_insert v x l :
  count_below v (insert_sorted x l) = count_below v (x :: l).
Proof.
  induction l as [|y l IH]; cbn [insert_sorted]; [reflexivity|].
  destruct (Qle_bool x y); [reflexivity|].
  rewrite (count_below_cons v y), IH, !count_below_cons. lia.
Qed.

Lemma count_below_sorted v l : count_below v (sorted l) = count_below v l.
Proof.
  induction l as [|x l IH]; [reflexivity|].
  cbn [sorted fold_right]. fold (sorted l).
  rewrite count_below_insert, !count_below_cons, IH. reflexivity.
Qed.

Lemma len_insert x l : len (insert_sorted x l) = 1 + len l.
Proof.
  induction l as [|y l IH]; cbn [insert_sorted]; [reflexivity|].
  destruct (Qle_bool x y); [apply len_cons|].
  rewrite (len_cons y), IH, len_cons. reflexivity.
Qed.

Lemma len_sorted l : len (sorted l) = len l.
Proof.
  induction l as [|x l IH]; [reflexivity|].
  cbn [sorted fold_right]. fold (sorted l).
  rewrite len_insert, IH, len_cons. reflexivity.
Qed.

Lemma count_below_none v l :
  (forall x, In x l -> (v <= x)%Q) -> count_below v l = 0.
Proof.
  induction l as [|x l IH]; intros H; [reflexivity|].
  rewrite count_below_cons, IH by (intros y Hy; apply H; right; exact Hy).
  assert (Hx : Qlt_bool x v = false)
    by (apply Qlt_bool_false_iff, H; left; reflexivity).
  rewrite Hx. reflexivity.
Qed.

Lemma count_below_all v l :
  (forall x, In x l -> (x < v)%Q) -> count_below v l = len l.
Proof.
  induction l as [|x l IH]; intros H; [reflexivity|].
  rewrite count_below_cons, IH by (intros y Hy; apply H; right; exact Hy).
  assert (Hx : Qlt_bool x v = true)
    by (apply Qlt_bool_iff, H; left; reflexivity).
  rewrite Hx, len_cons. reflexivity.
Qed.

Lemma count_below_app v l1 l2 :
  count_below v (l1 ++ l2)%list = count_below v l1 + count_below v l2.
Proof.
  induction l1 as [|x l1 IH]; [reflexivity|].
  rewrite <- app_comm_cons, !count_below_cons, IH. lia.
Qed.

Lemma percentile_rank_value v pop :
  pop <> [] ->
  percentile_rank (Some v) pop
  = Some ((inject_Z (count_below v pop) / inject_Z (len pop)) * 100)%Q.
Proof.
  intros Hne. unfold percentile_rank.
  destruct pop as [|x pop]; [contradiction|].
  rewrite count_below_sorted, len_sorted. reflexivity.
Qed.

(** *** C5 *)

(** C5 (as amended).  [percentile_rank] counts the members strictly below
    the value: a [None] value or an empty population gives [None]; on a
    non-empty population of [n] members the rank is 100 times the number
    of members [x] with [x < value], over [n]; a member equal to the
    value is not counted; the rank of a value at or below every member
    (the minimum) is 0; the rank of a value strictly above every member
    is 100; and [100 * (n - 1) / n] is the rank of a value equal to one
    member and strictly above the [n - 1] others. *)
Theorem percentile_rank_strict v pop :
  percentile_rank None pop = None /\
  percentile_rank (Some v) [] = None /\
  (pop <> [] ->
   exists r,
     percentile_rank (Some v) pop = Some r /\
     (r == inject_Z (len (filter (fun x => Qlt_bool x v) pop))
           / inject_Z (len pop) * 100)%Q /\
     (forall x l, (x == v)%Q -> count_below v (x :: l) = count_below v l) /\
     ((forall x, In x pop -> (v <= x)%Q) -> (r == 0)%Q) /\
     ((forall x, In x pop -> (x < v)%Q) -> (r == 100)%Q) /\
     (forall front m back,
         pop = (front ++ m :: back)%list ->
         (m == v)%Q ->
         (forall x, In x (front ++ back)%list -> (x < v)%Q) ->
         (r == 100 * (inject_Z (len pop) - 1) / inject_Z (len pop))%Q)).
Proof.
  split; [destruct pop; reflexivity|].
  split; [reflexivity|].
  intros Hne. eexists. split; [apply percentile_rank_value, Hne|].
  assert (Hn : ~ (inject_Z (len pop) == 0)%Q).
  { destruct pop as [|x pop]; [contradiction|].
    rewrite len_cons. pose proof (len_nonneg pop).
    change 0%Q with (inject_Z 0). rewrite inject_Z_injective. lia. }
  split; [reflexivity|].
  split.
  { intros x l Hx. rewrite count_below_cons.
    assert (Hb : Qlt_bool x v = false)
      by (apply Qlt_bool_false_iff; rewrite Hx; apply Qle_refl).
    rewrite Hb. reflexivity. }
  split.
  { intros Hmin. rewrite (count_below_none v pop Hmin).
    unfold Qdiv. change (inject_Z 0) with 0%Q. ring. }
  split.
  { intros Hmax. rewrite (count_below_all v pop Hmax). field. exact Hn. }
  intros front m back Hpop Hm Hrest.
  assert (Hcount : count_below v pop = len pop - 1).
  { rewrite Hpop, count_below_app, count_below_cons, len_app, len_cons.
    assert (Hb : Qlt_bool m v = false)
      by (apply Qlt_bool_false_iff; rewrite Hm; apply Qle_refl).
    rewrite Hb.
    rewrite (count_below_all v front)
      by (intros x Hx; apply Hrest, in_or_app; left; exact Hx).
    rewrite (count_below_all v back)
      by (intros x Hx; apply Hrest, in_or_app; right; exact Hx).
    lia. }
  rewrite Hcount. unfold Z.sub. rewrite inject_Z_plus, inject_Z_opp.
  change (inject_Z 1) with 1%Q. field. exact Hn.
Qed.

(** The population 1, 2, 3 and the value 1, its minimum. *)
Lemma percentile_rank_strict_witness :
  exists r,
    percentile_rank (Some 1%Q) [1; 2; 3]%Q = Some r /\ (r == 0)%Q.
Proof.
  destruct (percentile_rank_strict 1%Q [1; 2; 3]%Q) as (_ & _ & H).
  destruct (H ltac:(discriminate)) as (r & Hr & _ & _ & Hmin & _).
  exists r. split; [exact Hr|].
  apply Hmin. intros x [<-|[<-|[<-|[]]]]; unfold Qle; cbn; lia.
Defined.

(** C5 as stated fails.  The value 5 is strictly greater than the maximum
    of the population 1, 2, 3: its rank is 100, not 100 * (3 - 1) / 3. *)
Lemma rank_above_maximum_is_100 :
  exists r,
    percentile_rank (Some 5%Q) [1; 2; 3]%Q = Some r /\
    (r == 100)%Q /\
    ~ (r == 100 * (3 - 1) / 3)%Q.
Proof.
  eexists. split; [vm_compute; reflexivity|].
  split; [reflexivity|].
  unfold Qeq. cbn. lia.
Qed.

(** *** C6 *)

Lemma slice_last {A} (l : list A) (n : Z) :
  1 <= n <= len l ->
  exists older, l = (older ++ slice_from l (- n))%list /\ len (slice_from l (- n)) = n.
Proof.
  intros Hn. unfold slice_from.
  assert (Hneg : (- n <? 0) = true) by (apply Z.ltb_lt; lia).
  rewrite Hneg.
  assert (Hs : Z.max (- n + len l) 0 = len l - n) by lia.
  rewrite Hs.
  exists (firstn (Z.to_nat (len l - n)) l).
  split; [symmetry; apply firstn_skipn|].
  unfold len in *. rewrite length_skipn. lia.
Qed.

(** For a period of at least 1 [calculate_ma] returns. *)
Lemma calculate_ma_returns h period :
  1 <= period -> exists o, calculate_ma h period = Val o.
Proof.
  intros Hp. unfold calculate_ma.
  destruct (len h <? period) eqn:Hlt; [eexists; reflexivity|].
  apply Z.ltb_ge in Hlt.
  destruct (slice_last h period (conj Hp Hlt)) as (older & _ & Hl).
  destruct (map snd (slice_from h (- period))) as [|p ps] eqn:Hm.
  - apply (f_equal (@List.length Q)) in Hm. rewrite length_map in Hm.
    unfold len in Hl. cbn in Hm. lia.
  - eexists. reflexivity.
Qed.

(** C6 (as amended).  For every price series and every period of at
    least 1: on a series of at least [period] points [calculate_ma]
    returns the arithmetic mean of the last [period] closes, the sum of
    exactly [period] closes over [period]; on a shorter series it returns
    [None]; in both cases it returns, it does not raise. *)
Theorem calculate_ma_spec (h : History) (period : Z) :
  1 <= period ->
  (period <= len h ->
   exists older recent,
     h = (older ++ recent)%list /\
     len recent = period /\
     calculate_ma h period
     = Val (Some (Qsum (prices recent) / inject_Z period)%Q)) /\
  (len h < period -> calculate_ma h period = Val None).
Proof.
  intros Hp. unfold calculate_ma. split.
  - intros Hlen.
    assert (Hlt : (len h <? period) = false) by (apply Z.ltb_ge; lia).
    rewrite Hlt.
    destruct (slice_last h period (conj Hp Hlen)) as (older & Hh & Hl).
    exists older, (slice_from h (- period)).
    split; [exact Hh|]. split; [exact Hl|].
    unfold mean, prices.
    destruct (map snd (slice_from h (- period))) as [|p ps] eqn:Hm.
    + apply (f_equal (@List.length Q)) in Hm. rewrite length_map in Hm.
      unfold len in Hl. cbn in Hm. lia.
    + rewrite <- Hm. unfold len at 1. rewrite length_map.
      fold (len (slice_from h (- period))). rewrite Hl. reflexivity.
  - intros Hlen.
    assert (Hlt : (len h <? period) = true) by (apply Z.ltb_lt; lia).
    rewrite Hlt. reflexivity.
Qed.

(** A series of three closes, period 2: the mean of the last two. *)
Lemma calculate_ma_spec_witness :
  (exists older recent,
      [(1, 10%Q); (2, 20%Q); (3, 60%Q)] = (older ++ recent)%list /\
      len recent = 2 /\
      calculate_ma [(1, 10%Q); (2, 20%Q); (3, 60%Q)] 2
      = Val (Some (Qsum (prices recent) / inject_Z 2)%Q)) /\
  calculate_ma [(1, 10%Q)] 2 = Val None.
Proof.
  split.
  - apply (calculate_ma_spec [(1, 10%Q); (2, 20%Q); (3, 60%Q)] 2).
    + lia.
    + cbn. lia.
  - reflexivity.
Defined.

(** C6 as stated fails for a period that is not positive.  With period 0
    the test [len(history) < period] is false and [history[-0:]] is the
    whole series: on the empty series [mean] raises, and on a series of
    two closes the result is the mean of both. *)
Lemma calculate_ma_period_zero :
  calculate_ma [] 0
  = Exc (Exn StatisticsError "mean requires at least one data point") /\
  exists m,
    calculate_ma [(1, 10%Q); (2, 20%Q)] 0 = Val (Some m) /\ (m == 15)%Q.
Proof.
  split; [reflexivity|].
  eexists. split; [vm_compute; reflexivity | reflexivity].
Qed.

(** *** C7 *)

Lemma Qeq_bool_false x y : ~ (x == y)%Q -> Qeq_bool x y = false.
Proof.
  intros H. destruct (Qeq_bool x y) eqn:Hb; [|reflexivity].
  apply Qeq_bool_iff in Hb. contradiction.
Qed.




(** *** C8 *)

(** C8 (the code departs from it).  In the first record of the gold
    function, [triggered] is the value of
    [price_percentile and price_percentile > 85]: when the last gold
    price is not above any weekly sample the percentile is 0.0 and
    [triggered] is the float 0.0; when the 5-year history is empty the
    percentile is [None] and [triggered] is [None].  Neither is a bool. *)
Theorem cot_triggered_is_not_a_bool :
  (exists sc lv g rest rec s',
      fetch_gold_barometer env_two_closes initial
      = (Val (ScoreRecord sc lv (g :: rest) rec), s') /\
      name g = "COT Positioning (Proxy)" /\
      triggered g = PyFloat 0 /\
      is_bool (triggered g) = false) /\
  (exists sc lv g rest rec s',
      fetch_gold_barometer env_empty_5y initial
      = (Val (ScoreRecord sc lv (g :: rest) rec), s') /\
      name g = "COT Positioning (Proxy)" /\
      triggered g = PyNone /\
      is_bool (triggered g) = false).
Proof.
  split; eexists _, _, _, _, _, _;
    (split; [vm_compute; reflexivity|]); cbn; repeat split.
Qed.

(** What does hold of the records of every returned result: the award is
    0 or [maxPoints], and [triggered] is a bool in every record but the
    one named 'COT Positioning (Proxy)'. *)
Lemma records_are_binary_and_typed E key symbol label f s sc lv sigs rec s' :
  In (key, symbol, label, f) (asset_classes E) ->
  f s = (Val (ScoreRecord sc lv sigs rec), s') ->
  Forall binary sigs /\
  (forall sig,
      In sig sigs ->
      name sig <> "COT Positioning (Proxy)" ->
      is_bool (triggered sig) = true).
Proof.
  intros Hin Hrun.
  destruct (asset_class_contract E key symbol label f Hin)
    as (Ks & level_of & Hc & _).
  specialize (Hc s). rewrite Hrun in Hc.
  destruct Hc as (_ & _ & Hbin & Htyped & _).
  split; [exact Hbin|].
  intros sig Hsig Hname.
  destruct (proj1 (Forall_forall _ _) Htyped sig Hsig) as [H|H];
    [contradiction | exact H].
Qed.

(** *** C10 *)

Ltac unfold_ma_block :=
  unfold gold_signal_3, gold_signal_3_body, sp500_signal_3,
    sp500_signal_3_body, nasdaq_signal_2, nasdaq_signal_2_body,
    bitcoin_signal_1, bitcoin_signal_1_body, try_except, bind, lift, raise,
    unavailable, append_signal, add_score, modify, truthy, div in *.

(** C10.  In each of the four moving-average deviation blocks the
    division by the moving average is never a division by zero:
    [calculate_ma] returns; the only exception the body of the block
    raises is the [ValueError] of its guard, never a
    [ZeroDivisionError]; when [calculate_ma] returns [None] or an
    average equal to 0 the guard fails and the block appends its
    fallback record with the guard's message; and when the average is
    not 0 the quotient [(current - ma) / ma] is computed and the body
    appends its record. *)
Theorem ma_guard_prevents_zero_division E h cur blk body period msg nm K :
  In (blk, body, period, msg, nm, K) (ma_blocks E h cur) ->
  (exists o, calculate_ma h period = Val o) /\
  (forall s e s1, body s = (Exc e, s1) -> e = Exn ValueError msg /\ s1 = s) /\
  (forall s m,
      calculate_ma h period = Val None \/
      (calculate_ma h period = Val (Some m) /\ (m == 0)%Q) ->
      body s = (Exc (Exn ValueError msg), s) /\
      blk s
      = (Val tt,
         set_signals (signals s ++ [fallback nm K (Exn ValueError msg)]) s)) /\
  (forall s m,
      calculate_ma h period = Val (Some m) ->
      ~ (m == 0)%Q ->
      div (cur - m) m = Val ((cur - m) / m)%Q /\
      exists sig,
        body s
        = (Val tt,
           set_signals (signals s ++ [sig])
                       (set_score (score s + points sig) s))).
Proof.
  intros Hin. unfold ma_blocks in Hin.
  destruct Hin as [Heq|[Heq|[Heq|[Heq|[]]]]];
    inversion Heq; subst; clear Heq.
  all: split; [apply calculate_ma_returns; lia|].
  all: split;
    [ intros s e s1 Hb; unfold_ma_block;
      destruct (calculate_ma h _) as [[m|]|e0] eqn:Hma;
      [ destruct (Qeq_bool m 0) eqn:Hz; cbn in Hb;
        [ inversion Hb; split; reflexivity | discriminate Hb ]
      | inversion Hb; split; reflexivity
      | match type of Hma with
        | calculate_ma _ ?p = _ =>
            destruct (calculate_ma_returns h p) as [o Ho];
            [lia | rewrite Ho in Hma; discriminate Hma]
        end ]
    | ].
  all: split;
    [ intros s m [Hma|[Hma Hz]]; unfold_ma_block; rewrite Hma;
      [ split; reflexivity
      | apply Qeq_bool_iff in Hz; rewrite Hz; split; reflexivity ]
    | ].
  all: intros s m Hma Hz; unfold_ma_block; rewrite Hma;
    rewrite (Qeq_bool_false _ _ Hz); split; [reflexivity|];
    cbn; eexists (mkSignal _ _ _ _ _); reflexivity.
Qed.

(** The gold block on a series of two closes: no 50-day average, the
    fallback record. *)
Lemma ma_guard_prevents_zero_division_witness :
  gold_signal_3 env_two_closes [(1, 100%Q); (2, 70%Q)] 70%Q initial
  = (Val tt,
     set_signals
       [fallback "MA Deviation" 15
          (Exn ValueError "Insufficient history for MA")]
       initial).
Proof.
  destruct (ma_guard_prevents_zero_division env_two_closes
              [(1, 100%Q); (2, 70%Q)] 70%Q
              (gold_signal_3 env_two_closes [(1, 100%Q); (2, 70%Q)] 70%Q)
              (gold_signal_3_body env_two_closes [(1, 100%Q); (2, 70%Q)] 70%Q)
              50 "Insufficient history for MA" "MA Deviation" 15
              (or_introl eq_refl))
    as (_ & _ & Hguard & _).
  exact (proj2 (Hguard initial 0%Q (or_introl eq_refl))).
Defined.

(** ** Further properties of the risk barometer *)

(** *** [fetch_yahoo_history] *)

Lemma fetch_yahoo_history_answers E symbol range_str s ts cs :
  http_get E (calls s) symbol range_str = Val (ts, cs) ->
  fetch_yahoo_history E symbol range_str s
  = (Val (history_of ts cs), set_calls (S (calls s)) s).
Proof. intros H. unfold fetch_yahoo_history. rewrite H. reflexivity. Qed.

Lemma In_combine_nth {A B} (l1 : list A) (l2 : list B) a b :
  In (a, b) (combine l1 l2) <->
  exists i, nth_error l1 i = Some a /\ nth_error l2 i = Some b.
Proof.
  revert l2. induction l1 as [|x l1 IH]; intros [|y l2]; cbn [combine].
  - split; [intros [] | intros ([|i] & H & _); discriminate H].
  - split; [intros [] | intros ([|i] & H & _); discriminate H].
  - split; [intros [] | intros ([|i] & _ & H); discriminate H].
  - split.
    + intros [Heq|Hin].
      * inversion Heq; subst. exists 0%nat. split; reflexivity.
      * apply IH in Hin. destruct Hin as (i & H1 & H2).
        exists (S i). split; assumption.
    + intros ([|i] & H1 & H2); cbn in H1, H2.
      * left. congruence.
      * right. apply IH. exists i. split; assumption.
Qed.

Lemma len_history_of ts cs :
  len (history_of ts cs) <= Z.min (len ts) (len cs).
Proof.
  unfold history_of.
  assert (H : forall l : list (Z * option Q),
             len (flat_map (fun tc : Z * option Q =>
                              match snd tc with
                              | Some close => [(fst tc, close)]
                              | None => []
                              end) l) <= len l).
  { unfold len.
    induction l as [|[t [c|]] l IH];
      cbn [flat_map snd fst app List.length]; lia. }
  specialize (H (combine ts cs)).
  unfold len in *. rewrite length_combine in H. lia.
Qed.

Lemma history_of_full ts (closes : list Q) :
  List.length ts = List.length closes ->
  history_of ts (map Some closes) = combine ts closes.
Proof.
  unfold history_of. revert closes.
  induction ts as [|t ts IH]; intros [|c closes] Hlen; cbn in *;
    try reflexivity; try discriminate.
  f_equal. apply IH. lia.
Qed.

(** X1.  [fetch_yahoo_history] makes one request, counted whether it answers
    or raises.  An exception of the request is the function's own.  From an
    answer the function returns the pairs [(timestamp[i], close[i])] whose
    close is not null and only those, at most as many as the shorter of the
    two lists; when the lists are equally long and no close is null, the
    history is the two lists paired. *)
Theorem history_pairs_timestamps_with_closes E symbol range_str s :
  calls (snd (fetch_yahoo_history E symbol range_str s)) = S (calls s) /\
  (forall e,
      http_get E (calls s) symbol range_str = Exc e ->
      fst (fetch_yahoo_history E symbol range_str s) = Exc e) /\
  (forall ts cs,
      http_get E (calls s) symbol range_str = Val (ts, cs) ->
      exists h,
        fst (fetch_yahoo_history E symbol range_str s) = Val h /\
        (forall t c,
            In (t, c) h <->
            exists i, nth_error ts i = Some t /\ nth_error cs i = Some (Some c)) /\
        len h <= Z.min (len ts) (len cs) /\
        (forall closes,
            cs = map Some closes ->
            List.length ts = List.length closes ->
            h = combine ts closes)).
Proof.
  split; [|split].
  - unfold fetch_yahoo_history.
    destruct (http_get E (calls s) symbol range_str) as [[ts cs]|e];
      reflexivity.
  - intros e H. unfold fetch_yahoo_history. rewrite H. reflexivity.
  - intros ts cs H. exists (history_of ts cs).
    rewrite (fetch_yahoo_history_answers _ _ _ _ _ _ H).
    split; [reflexivity|]. split; [|split].
    + intros t c. unfold history_of. rewrite in_flat_map. split.
      * intros ([t' [c'|]] & Hin & Hpair); cbn in Hpair.
        -- destruct Hpair as [Heq|[]]. inversion Heq; subst.
           apply In_combine_nth. exact Hin.
        -- contradiction.
      * intros Hi. apply In_combine_nth in Hi.
        exists (t, Some c). split; [exact Hi | left; reflexivity].
    + apply len_history_of.
    + intros closes -> Hlen. apply history_of_full, Hlen.
Qed.

(** *** [percentile_rank] *)

Lemma count_below_bounds v l : 0 <= count_below v l <= len l.
Proof.
  induction l as [|x l IH]; [unfold count_below, len; cbn; lia|].
  rewrite count_below_cons, len_cons.
  destruct (Qlt_bool x v); lia.
Qed.

Lemma count_below_monotone v w l :
  (v <= w)%Q -> count_below v l <= count_below w l.
Proof.
  intros Hvw. induction l as [|x l IH]; [reflexivity|].
  rewrite !count_below_cons.
  destruct (Qlt_bool x v) eqn:Hv; destruct (Qlt_bool x w) eqn:Hw; try lia.
  apply Qlt_bool_iff in Hv. apply Qlt_bool_false_iff in Hw.
  exfalso. apply (Qlt_irrefl x).
  apply Qlt_le_trans with v; [exact Hv|].
  apply Qle_trans with w; assumption.
Qed.

Lemma len_positive {A} (l : list A) : l <> [] -> 0 < len l.
Proof. destruct l; [contradiction | intros _; rewrite len_cons; pose proof (len_nonneg l); lia]. Qed.

Lemma percentile_rank_some v pop r :
  percentile_rank v pop = Some r ->
  exists x,
    v = Some x /\ pop <> [] /\
    r = ((inject_Z (count_below x pop) / inject_Z (len pop)) * 100)%Q.
Proof.
  intros H. destruct pop as [|p pop]; [discriminate H|].
  destruct v as [x|]; [|discriminate H].
  rewrite percentile_rank_value in H by discriminate.
  inversion H. exists x. repeat split. discriminate.
Qed.

Lemma ratio_le (a b n : Z) :
  0 < n -> a <= b ->
  (inject_Z a / inject_Z n * 100 <= inject_Z b / inject_Z n * 100)%Q.
Proof.
  intros Hn Hab.
  apply Qmult_le_compat_r; [|discriminate].
  apply Qmult_le_compat_r.
  - rewrite <- Zle_Qle. exact Hab.
  - apply Qinv_le_0_compat. change 0%Q with (inject_Z 0).
    rewrite <- Zle_Qle. lia.
Qed.

(** X2.  The rank is a percentage: whenever [percentile_rank] returns a
    number it lies between 0 and 100. *)
Theorem percentile_rank_between_0_and_100 v pop r :
  percentile_rank v pop = Some r -> (0 <= r <= 100)%Q.
Proof.
  intros H. destruct (percentile_rank_some v pop r H) as (x & _ & Hne & ->).
  pose proof (len_positive pop Hne) as Hn.
  pose proof (count_below_bounds x pop) as [H0 H1].
  split.
  - assert (Hz : (inject_Z 0 / inject_Z (len pop) * 100 == 0)%Q)
      by (unfold Qdiv; change (inject_Z 0) with 0%Q; ring).
    eapply Qle_trans; [rewrite <- Hz; apply Qle_refl|].
    apply ratio_le; assumption.
  - assert (Hz : (inject_Z (len pop) / inject_Z (len pop) * 100 == 100)%Q).
    { field. change 0%Q with (inject_Z 0). rewrite inject_Z_injective. lia. }
    eapply Qle_trans; [apply (ratio_le _ (len pop)); [exact Hn | exact H1]|].
    rewrite Hz. apply Qle_refl.
Qed.

(** The population 1, 2, 3 and the value 2: a rank between 0 and 100. *)
Lemma percentile_rank_between_0_and_100_witness :
  exists r,
    percentile_rank (Some 2%Q) [1; 2; 3]%Q = Some r /\ (0 <= r <= 100)%Q.
Proof.
  eexists. split; [reflexivity|].
  apply (percentile_rank_between_0_and_100 (Some 2%Q) [1; 2; 3]%Q).
  reflexivity.
Defined.

(** X3.  The rank grows with the value: on the same population a value that
    is not smaller has a rank that is not smaller. *)
Theorem percentile_rank_is_monotone v w pop r1 r2 :
  (v <= w)%Q ->
  percentile_rank (Some v) pop = Some r1 ->
  percentile_rank (Some w) pop = Some r2 ->
  (r1 <= r2)%Q.
Proof.
  intros Hvw H1 H2.
  destruct (percentile_rank_some _ _ _ H1) as (x & Hx & Hne & ->).
  destruct (percentile_rank_some _ _ _ H2) as (y & Hy & _ & ->).
  inversion Hx; inversion Hy; subst x y.
  apply ratio_le; [apply len_positive, Hne|].
  apply count_below_monotone, Hvw.
Qed.

Lemma percentile_rank_is_monotone_witness :
  exists r1 r2,
    percentile_rank (Some 2%Q) [1; 2; 3]%Q = Some r1 /\
    percentile_rank (Some 3%Q) [1; 2; 3]%Q = Some r2 /\
    (r1 <= r2)%Q.
Proof.
  eexists _, _. split; [reflexivity|]. split; [reflexivity|].
  apply (percentile_rank_is_monotone 2%Q 3%Q [1; 2; 3]%Q).
  - unfold Qle. cbn. lia.
  - reflexivity.
  - reflexivity.
Defined.

Lemma count_below_permutation v l l' :
  Permutation l l' -> count_below v l = count_below v l'.
Proof.
  induction 1 as [|x l l' _ IH|x y l|l l' l'' _ IH1 _ IH2].
  - reflexivity.
  - rewrite !count_below_cons, IH. reflexivity.
  - rewrite !count_below_cons. lia.
  - congruence.
Qed.

(** X4.  The rank does not depend on the order of the population: the call
    of [sorted] changes nothing, and two populations with the same members,
    each as many times, give the same rank. *)
Theorem percentile_rank_ignores_the_order v pop pop' :
  Permutation pop pop' ->
  percentile_rank v pop = percentile_rank v pop'.
Proof.
  intros Hp. destruct v as [x|].
  - destruct pop as [|p pop].
    + apply Permutation_nil in Hp. subst pop'. reflexivity.
    + destruct pop' as [|p' pop'].
      * apply Permutation_sym, Permutation_nil in Hp. discriminate Hp.
      * rewrite !percentile_rank_value by discriminate.
        rewrite (count_below_permutation x _ _ Hp).
        unfold len. rewrite (Permutation_length Hp). reflexivity.
  - destruct pop, pop'; reflexivity.
Qed.

Lemma percentile_rank_ignores_the_order_witness :
  percentile_rank (Some 2%Q) [3; 1; 2]%Q
  = percentile_rank (Some 2%Q) [1; 2; 3]%Q.
Proof.
  apply (percentile_rank_ignores_the_order (Some 2%Q) [3; 1; 2]%Q [1; 2; 3]%Q).
  apply Permutation_sym.
  apply (perm_trans (l' := [1; 3; 2]%Q)).
  - apply perm_skip. apply perm_swap.
  - apply perm_swap.
Defined.

(** *** [calculate_ma] *)

Lemma slice_from_app {A} (older recent : list A) (n : Z) :
  1 <= n -> len recent = n ->
  slice_from (older ++ recent)%list (- n) = recent.
Proof.
  intros Hn Hl. unfold slice_from.
  assert (Hneg : (- n <? 0) = true) by (apply Z.ltb_lt; lia).
  rewrite Hneg, len_app.
  assert (Hs : Z.max (- n + (len older + len recent)) 0 = len older)
    by (pose proof (len_nonneg older); lia).
  rewrite Hs. unfold len. rewrite Nat2Z.id.
  rewrite skipn_app, skipn_all, Nat.sub_diag. reflexivity.
Qed.

Lemma Qsum_bounds lo hi l :
  (forall p, In p l -> (lo <= p <= hi)%Q) ->
  (lo * inject_Z (len l) <= Qsum l <= hi * inject_Z (len l))%Q.
Proof.
  induction l as [|x l IH]; intros H.
  - unfold len, Qsum. cbn. split; ring_simplify; apply Qle_refl.
  - destruct (H x (or_introl eq_refl)) as [Hlo Hhi].
    destruct IH as [IHlo IHhi]; [intros p Hp; apply H; right; exact Hp|].
    rewrite len_cons, inject_Z_plus. change (inject_Z 1) with 1%Q.
    cbn [Qsum fold_right]. fold (Qsum l).
    split.
    + apply Qle_trans with (lo + lo * inject_Z (len l))%Q;
        [ring_simplify; apply Qle_refl|].
      apply Qplus_le_compat; assumption.
    + apply Qle_trans with (hi + hi * inject_Z (len l))%Q;
        [|ring_simplify; apply Qle_refl].
      apply Qplus_le_compat; assumption.
Qed.

(** X5.  The moving average lies within the window it averages: when the
    last [period] closes all lie between [lo] and [hi], so does the average,
    whatever the older closes are. *)
Theorem moving_average_within_its_window (older recent : History) period lo hi :
  1 <= period ->
  len recent = period ->
  (forall p, In p (prices recent) -> (lo <= p <= hi)%Q) ->
  exists m,
    calculate_ma (older ++ recent)%list period = Val (Some m) /\
    (lo <= m <= hi)%Q.
Proof.
  intros Hp Hl Hin. unfold calculate_ma.
  assert (Hlt : (len (older ++ recent)%list <? period) = false).
  { apply Z.ltb_ge. rewrite len_app. pose proof (len_nonneg older). lia. }
  rewrite Hlt, (slice_from_app older recent period Hp Hl).
  fold (prices recent).
  assert (Hlen : len (prices recent) = period).
  { unfold prices, len. rewrite length_map. exact Hl. }
  unfold mean. destruct (prices recent) as [|p ps] eqn:Hps.
  - unfold len in Hlen. cbn in Hlen. lia.
  - rewrite <- Hps in *. eexists. split; [reflexivity|].
    pose proof (Qsum_bounds lo hi (prices recent) Hin) as [Hlo Hhi].
    assert (Hpos : (0 < inject_Z (len (prices recent)))%Q).
    { change 0%Q with (inject_Z 0). rewrite <- Zlt_Qlt. lia. }
    split.
    + apply Qle_shift_div_l; assumption.
    + apply Qle_shift_div_r; assumption.
Qed.

(** Three closes, period 2: the average of 20 and 60 lies between them,
    whatever the first close is. *)
Lemma moving_average_within_its_window_witness :
  exists m,
    calculate_ma [(1, 1000%Q); (2, 20%Q); (3, 60%Q)] 2 = Val (Some m) /\
    (20 <= m <= 60)%Q.
Proof.
  apply (moving_average_within_its_window
           [(1, 1000%Q)] [(2, 20%Q); (3, 60%Q)] 2 20%Q 60%Q).
  - lia.
  - reflexivity.
  - intros p [<-|[<-|[]]]; split; unfold Qle; cbn; lia.
Defined.

(** *** The [except] branch of the loop of [main] *)

(** X6.  The four barometer functions catch every [Exception] themselves, so
    the [except Exception] branch of the loop of [main] is never taken: when
    the function returns a record the loop stores that record under the
    class's key, and when the function raises, the exception is not an
    [Exception], it came out of a request, and it leaves the loop as it is. *)
Theorem main_loop_handler_is_dead E key symbol label f s :
  In (key, symbol, label, f) (asset_classes E) ->
  match f s with
  | (Val r, s1) =>
      analyze key f s
      = (Val tt, set_barometers (dict_set key r (barometers s1)) s1)
  | (Exc e, s1) =>
      is_Exception e = false /\ from_http E e /\
      analyze key f s = (Exc e, s1)
  end.
Proof.
  intros Hin.
  destruct (asset_class_contract E key symbol label f Hin)
    as (Ks & level_of & Hc & _).
  specialize (Hc s).
  destruct (f s) as [[r|e] s1] eqn:Hf.
  - apply analyze_returns, Hf.
  - destruct Hc as (He & Hhttp & _).
    split; [exact He|]. split; [exact Hhttp|].
    unfold analyze, try_except, bind. rewrite Hf, He. reflexivity.
Qed.

(** A keyboard interrupt during the first request of the gold function
    leaves the function and the loop. *)
Lemma main_loop_handler_is_dead_witness :
  analyze "gold" (fetch_gold_barometer env_interrupted) initial
  = (Exc interrupt, entered initial).
Proof.
  pose proof (main_loop_handler_is_dead env_interrupted "gold" "GC=F" "gold"
                (fetch_gold_barometer env_interrupted) initial
                (or_introl eq_refl)) as H.
  assert (Hf : fetch_gold_barometer env_interrupted initial
               = (Exc interrupt, entered initial)) by reflexivity.
  rewrite Hf in H. exact (proj2 (proj2 H)).
Defined.

(** *** The number of requests *)

Lemma at_most_pure {A} n (m : Run A) :
  (forall s, calls (snd (m s)) = calls s) -> at_most n m.
Proof. intros H s. rewrite H. lia. Qed.

Lemma at_most_fetch_bind {A} E sym rng n (k : History -> Run A) :
  (forall h, at_most n (k h)) ->
  at_most (S n) (bind (fetch_yahoo_history E sym rng) k).
Proof.
  intros Hk s. unfold bind, fetch_yahoo_history.
  destruct (http_get E (calls s) sym rng) as [[ts cs]|e].
  - specialize (Hk (history_of ts cs) (set_calls (S (calls s)) s)).
    unfold history_of in Hk. cbn [calls set_calls] in Hk. lia.
  - cbn. lia.
Qed.

Lemma at_most_lift_bind {A B} n (r : res A) (k : A -> Run B) :
  (forall a, at_most n (k a)) -> at_most n (bind (lift r) k).
Proof.
  intros Hk s. unfold bind, lift. destruct r as [a|e]; [apply Hk|].
  cbn. lia.
Qed.

Lemma at_most_ret_bind {A B} n (a : A) (k : A -> Run B) :
  at_most n (k a) -> at_most n (bind (ret a) k).
Proof. intros Hk s. exact (Hk s). Qed.

Lemma at_most_assoc {A B C} n (m : Run A) (f : A -> Run B) (k : B -> Run C) :
  at_most n (bind m (fun a => bind (f a) k)) ->
  at_most n (bind (bind m f) k).
Proof.
  intros H s. specialize (H s). unfold bind in *.
  destruct (m s) as [[a|e] s1]; exact H.
Qed.

Lemma at_most_raise {A} n e : at_most n (@raise State A e).
Proof. apply at_most_pure. reflexivity. Qed.

Lemma at_most_emit n p sig :
  at_most n (bind (add_score p) (fun _ => append_signal sig)).
Proof. apply at_most_pure. reflexivity. Qed.

Lemma at_most_emit_div n p (r : res Q) (sig : Q -> Signal) :
  at_most n
    (bind (add_score p)
       (fun _ => bind (lift r) (fun ratio => append_signal (sig ratio)))).
Proof. apply at_most_pure. intros s. destruct r; reflexivity. Qed.

Lemma at_most_try n body nm K :
  at_most n body -> at_most n (try_except body (unavailable nm K)).
Proof.
  intros Hb s. specialize (Hb s). unfold try_except.
  destruct (body s) as [[[]|e] s1]; [exact Hb|].
  destruct (is_Exception e); exact Hb.
Qed.

Lemma at_most_seq {A B} a b (m : Run A) (k : A -> Run B) :
  at_most a m -> (forall x, at_most b (k x)) -> at_most (a + b) (bind m k).
Proof.
  intros Hm Hk s. specialize (Hm s). unfold bind.
  destruct (m s) as [[x|e] s1]; cbn [snd] in Hm.
  - specialize (Hk x s1). lia.
  - cbn [snd]. lia.
Qed.

Ltac budget_step :=
  lazymatch goal with
  | |- at_most _ (bind (fetch_yahoo_history _ _ _) _) =>
      apply at_most_fetch_bind; intros ?h
  | |- at_most _ (bind (lift _) _) => apply at_most_lift_bind; intros ?x
  | |- at_most _ (bind (ret _) _) => apply at_most_ret_bind
  | |- at_most _ (bind (bind _ _) _) => apply at_most_assoc
  | |- at_most _ (bind (if ?c then _ else _) _) => destruct c
  | |- at_most _ (raise _) => apply at_most_raise
  | |- at_most _ (bind (add_score _) (fun _ => append_signal _)) =>
      apply at_most_emit
  | |- at_most _ (bind (add_score _) (fun _ => bind (lift _) _)) =>
      apply at_most_emit_div
  | |- at_most _ (if ?c then _ else _) => destruct c
  | |- at_most _ (match ?o with Some _ => _ | None => _ end) => destruct o
  end.

Ltac budget := apply at_most_try; cbv zeta; repeat budget_step.

Lemma gold_signal_1_budget E cur : at_most 1 (gold_signal_1 E cur).
Proof. unfold gold_signal_1, gold_signal_1_body. budget. Qed.

Lemma gold_signal_2_budget E : at_most 1 (gold_signal_2 E).
Proof. unfold gold_signal_2, gold_signal_2_body. budget. Qed.

Lemma gold_signal_3_budget E h cur : at_most 0 (gold_signal_3 E h cur).
Proof. unfold gold_signal_3, gold_signal_3_body. budget. Qed.

Lemma gold_signal_4_budget E : at_most 1 (gold_signal_4 E).
Proof. unfold gold_signal_4, gold_signal_4_body. budget. Qed.

Lemma gold_signal_5_budget E h : at_most 0 (gold_signal_5 E h).
Proof. unfold gold_signal_5, gold_signal_5_body. budget. Qed.

Lemma sp500_signal_1_budget E : at_most 1 (sp500_signal_1 E).
Proof. unfold sp500_signal_1, sp500_signal_1_body. budget. Qed.

Lemma sp500_signal_2_budget E : at_most 2 (sp500_signal_2 E).
Proof. unfold sp500_signal_2, sp500_signal_2_body. budget. Qed.

Lemma sp500_signal_3_budget E h cur : at_most 0 (sp500_signal_3 E h cur).
Proof. unfold sp500_signal_3, sp500_signal_3_body. budget. Qed.

Lemma sp500_signal_4_budget E : at_most 3 (sp500_signal_4 E).
Proof. unfold sp500_signal_4, sp500_signal_4_body. budget. Qed.

Lemma sp500_signal_5_budget E h : at_most 1 (sp500_signal_5 E h).
Proof. unfold sp500_signal_5, sp500_signal_5_body. budget. Qed.

Lemma nasdaq_signal_1_budget E : at_most 1 (nasdaq_signal_1 E).
Proof. unfold nasdaq_signal_1, nasdaq_signal_1_body. budget. Qed.

Lemma nasdaq_signal_2_budget E h cur : at_most 0 (nasdaq_signal_2 E h cur).
Proof. unfold nasdaq_signal_2, nasdaq_signal_2_body. budget. Qed.

Lemma nasdaq_signal_3_budget E : at_most 1 (nasdaq_signal_3 E).
Proof. unfold nasdaq_signal_3, nasdaq_signal_3_body. budget. Qed.

Lemma nasdaq_signal_4_budget E h cur : at_most 0 (nasdaq_signal_4 E h cur).
Proof. unfold nasdaq_signal_4, nasdaq_signal_4_body. budget. Qed.

Lemma nasdaq_signal_5_budget E h : at_most 0 (nasdaq_signal_5 E h).
Proof. unfold nasdaq_signal_5, nasdaq_signal_5_body. budget. Qed.

Lemma bitcoin_signal_1_budget E h cur : at_most 0 (bitcoin_signal_1 E h cur).
Proof. unfold bitcoin_signal_1, bitcoin_signal_1_body. budget. Qed.

Lemma bitcoin_signal_2_budget E h : at_most 0 (bitcoin_signal_2 E h).
Proof. unfold bitcoin_signal_2, bitcoin_signal_2_body. budget. Qed.

Lemma bitcoin_signal_3_budget E h cur : at_most 0 (bitcoin_signal_3 E h cur).
Proof. unfold bitcoin_signal_3, bitcoin_signal_3_body. budget. Qed.

Lemma bitcoin_signal_4_budget E h : at_most 1 (bitcoin_signal_4 E h).
Proof. unfold bitcoin_signal_4, bitcoin_signal_4_body. budget. Qed.

Lemma bitcoin_signal_5_budget E h cur : at_most 0 (bitcoin_signal_5 E h cur).
Proof. unfold bitcoin_signal_5, bitcoin_signal_5_body. budget. Qed.

Lemma five_blocks_budget {A} a1 a2 a3 a4 a5 (b1 b2 b3 b4 b5 : Run unit)
  (k : Run A) :
  at_most a1 b1 -> at_most a2 b2 -> at_most a3 b3 -> at_most a4 b4 ->
  at_most a5 b5 -> at_most 0 k ->
  at_most (a1 + (a2 + (a3 + (a4 + (a5 + 0)))))
    (b1 ;;; b2 ;;; b3 ;;; b4 ;;; b5 ;;; k).
Proof.
  intros H1 H2 H3 H4 H5 Hk.
  repeat (apply at_most_seq; [assumption | intros _]). exact Hk.
Qed.

Lemma closing_return_budget (level_of : Z -> Level * string) :
  at_most 0
    (st <- get ;;
     let (level, recommendation) := level_of (score st) in
     ret (ScoreRecord (score st) level (signals st) recommendation)).
Proof.
  apply at_most_pure. intros s. unfold bind, get.
  destruct (level_of (score s)). reflexivity.
Qed.

(** The baseline request is the first thing a function does: one
    request at least, and at most [n] more in the rest of the function. *)
Lemma with_baseline_requests E symbol prefix rest n :
  (forall h cur, at_most n (rest h cur)) ->
  requests 1 (S n) (with_baseline E symbol prefix rest).
Proof.
  intros Hrest s.
  unfold with_baseline, bind, modify, try_except, fetch_yahoo_history, lift, ret.
  cbn.
  destruct (http_get E (calls s) symbol "1y") as [[ts cs]|e].
  - set (h := flat_map _ _).
    destruct (price_at h (-1)) as [cur|e].
    + specialize (Hrest h cur
                    (set_calls (S (calls s)) (set_score 0 (set_signals [] s)))).
      destruct Hrest as [Hlo Hhi]. cbn [calls set_calls] in Hlo, Hhi.
      cbn. lia.
    + destruct (is_Exception e); cbn; lia.
  - destruct (is_Exception e); cbn; lia.
Qed.

Lemma gold_requests E : requests 1 4 (fetch_gold_barometer E).
Proof.
  rewrite gold_shape. apply (with_baseline_requests _ _ _ _ 3). intros h cur.
  apply (five_blocks_budget 1 1 0 1 0);
    auto using gold_signal_1_budget, gold_signal_2_budget,
      gold_signal_3_budget, gold_signal_4_budget, gold_signal_5_budget,
      closing_return_budget.
Qed.

Lemma sp500_requests E : requests 1 8 (fetch_sp500_barometer E).
Proof.
  rewrite sp500_shape. apply (with_baseline_requests _ _ _ _ 7). intros h cur.
  apply (five_blocks_budget 1 2 0 3 1);
    auto using sp500_signal_1_budget, sp500_signal_2_budget,
      sp500_signal_3_budget, sp500_signal_4_budget, sp500_signal_5_budget,
      closing_return_budget.
Qed.

Lemma nasdaq_requests E : requests 1 3 (fetch_nasdaq_barometer E).
Proof.
  rewrite nasdaq_shape. apply (with_baseline_requests _ _ _ _ 2). intros h cur.
  apply (five_blocks_budget 1 0 1 0 0);
    auto using nasdaq_signal_1_budget, nasdaq_signal_2_budget,
      nasdaq_signal_3_budget, nasdaq_signal_4_budget, nasdaq_signal_5_budget,
      closing_return_budget.
Qed.

Lemma bitcoin_requests E : requests 1 2 (fetch_bitcoin_barometer E).
Proof.
  rewrite bitcoin_shape. apply (with_baseline_requests _ _ _ _ 1). intros h cur.
  apply (five_blocks_budget 0 0 0 1 0);
    auto using bitcoin_signal_1_budget, bitcoin_signal_2_budget,
      bitcoin_signal_3_budget, bitcoin_signal_4_budget, bitcoin_signal_5_budget,
      closing_return_budget.
Qed.

(** One turn of the loop makes the requests of its function, and none
    when the turn is over. *)
Lemma analyze_requests lo hi nm f :
  requests lo hi f -> requests lo hi (analyze nm f).
Proof.
  intros Hf s. specialize (Hf s). unfold analyze, try_except, bind.
  destruct (f s) as [[r|e] s1]; cbn [snd] in Hf.
  - destruct (has_key "error" r); exact Hf.
  - destruct (is_Exception e); exact Hf.
Qed.

Lemma requests_weaken {A} lo hi (m : Run A) : requests lo hi m -> at_most hi m.
Proof. intros H s. specialize (H s). lia. Qed.

Lemma main_at_most E : at_most 17 (main E).
Proof.
  unfold main.
  apply (at_most_seq 0 17); [apply at_most_pure; reflexivity | intros _].
  apply (at_most_seq 17 0).
  - cbn [for_each barometer_functions].
    apply (at_most_seq 4 13);
      [apply requests_weaken with 1%nat, analyze_requests, gold_requests
      | intros _].
    apply (at_most_seq 8 5);
      [apply requests_weaken with 1%nat, analyze_requests, sp500_requests
      | intros _].
    apply (at_most_seq 3 2);
      [apply requests_weaken with 1%nat, analyze_requests, nasdaq_requests
      | intros _].
    apply (at_most_seq 2 0);
      [apply requests_weaken with 1%nat, analyze_requests, bitcoin_requests
      | intros _].
    apply at_most_pure. reflexivity.
  - intros _. apply at_most_pure. intros s.
    unfold bind, get, write_report. destruct (write_error E); reflexivity.
Qed.

Lemma for_each_at_least E s :
  no_interrupt E ->
  exists s',
    for_each (barometer_functions E) s = (Val tt, s') /\
    (calls s + 4 <= calls s')%nat.
Proof.
  intros Hno.
  destruct (contract_returns E _ _ _ s Hno (gold_contract E))
    as (r1 & s1 & F1 & _).
  pose proof (gold_requests E s) as [L1 _]. rewrite F1 in L1. cbn [snd] in L1.
  pose proof (analyze_returns "gold" _ _ _ _ F1) as A1.
  set (t1 := set_barometers _ s1) in A1.
  destruct (contract_returns E _ _ _ t1 Hno (sp500_contract E))
    as (r2 & s2 & F2 & _).
  pose proof (sp500_requests E t1) as [L2 _]. rewrite F2 in L2. cbn [snd] in L2.
  pose proof (analyze_returns "sp500" _ _ _ _ F2) as A2.
  set (t2 := set_barometers _ s2) in A2.
  destruct (contract_returns E _ _ _ t2 Hno (nasdaq_contract E))
    as (r3 & s3 & F3 & _).
  pose proof (nasdaq_requests E t2) as [L3 _]. rewrite F3 in L3. cbn [snd] in L3.
  pose proof (analyze_returns "nasdaq" _ _ _ _ F3) as A3.
  set (t3 := set_barometers _ s3) in A3.
  destruct (contract_returns E _ _ _ t3 Hno (bitcoin_contract E))
    as (r4 & s4 & F4 & _).
  pose proof (bitcoin_requests E t3) as [L4 _]. rewrite F4 in L4. cbn [snd] in L4.
  pose proof (analyze_returns "bitcoin" _ _ _ _ F4) as A4.
  set (t4 := set_barometers _ s4) in A4.
  exists t4. split.
  - cbn [for_each barometer_functions]. unfold bind.
    rewrite A1, A2, A3, A4. reflexivity.
  - assert (H1 : calls t1 = calls s1) by reflexivity.
    assert (H2 : calls t2 = calls s2) by reflexivity.
    assert (H3 : calls t3 = calls s3) by reflexivity.
    assert (H4 : calls t4 = calls s4) by reflexivity.
    lia.
Qed.

Lemma main_at_least E s :
  no_interrupt E -> (calls s + 4 <= calls (snd (main E s)))%nat.
Proof.
  intros Hno.
  destruct (for_each_at_least E (set_barometers [] s) Hno) as (s' & Hrun & Hc).
  unfold main, bind, modify, get, write_report. rewrite Hrun.
  cbn [calls set_barometers] in Hc.
  destruct (write_error E); cbn; lia.
Qed.

(** A chart of ten closes, for runs in which no history is too short to
    be indexed at -7. *)
Lemma main_makes_17_requests :
  calls (snd (main (env_closes [1; 2; 3; 4; 5; 6; 7; 8; 9; 10]%Q) initial))
  = 17%nat.
Proof. vm_compute. reflexivity. Qed.

(** X7.  The number of HTTP requests.  Each barometer function makes at
    least one request, the baseline one, and at most 4 (gold), 8 (S&P 500),
    3 (Nasdaq) and 2 (bitcoin), whatever the requests answer; a run of
    [main] makes at most 17, a number that is reached, and at least 4 when
    nobody interrupts it. *)
Theorem requests_of_a_run E :
  requests 1 4 (fetch_gold_barometer E) /\
  requests 1 8 (fetch_sp500_barometer E) /\
  requests 1 3 (fetch_nasdaq_barometer E) /\
  requests 1 2 (fetch_bitcoin_barometer E) /\
  at_most 17 (main E) /\
  (no_interrupt E -> requests 4 17 (main E)) /\
  (exists E' s, calls (snd (main E' s)) = (calls s + 17)%nat).
Proof.
  split; [apply gold_requests|]. split; [apply sp500_requests|].
  split; [apply nasdaq_requests|]. split; [apply bitcoin_requests|].
  split; [apply main_at_most|]. split.
  - intros Hno s. pose proof (main_at_least E s Hno).
    pose proof (main_at_most E s). lia.
  - exists (env_closes [1; 2; 3; 4; 5; 6; 7; 8; 9; 10]%Q), initial.
    exact main_makes_17_requests.
Qed.

(** Every request fails: [main] makes the four baseline requests. *)
Lemma requests_of_a_run_witness :
  (calls initial + 4 <= calls (snd (main env_down initial))
   <= calls initial + 17)%nat.
Proof.
  destruct (requests_of_a_run env_down) as (_ & _ & _ & _ & _ & H & _).
  exact (H no_interrupt_env_down initial).
Defined.

(** *** A short yield history *)

Lemma price_at_last (h : History) :
  h <> [] -> exists p, price_at h (-1) = Val p /\ In p (prices h).
Proof.
  intros Hne. unfold price_at, index.
  pose proof (len_positive h Hne) as Hpos.
  assert (H1 : (-1 <? 0) = true) by reflexivity. rewrite H1.
  assert (H2 : ((-1 + len h <? 0) || (len h <=? -1 + len h)) = false).
  { apply orb_false_iff. split; [apply Z.ltb_ge | apply Z.leb_gt]; lia. }
  rewrite H2.
  destruct (nth_error h (Z.to_nat (-1 + len h))) as [tp|] eqn:Hn.
  - exists (snd tp). split; [reflexivity|].
    apply in_map, (nth_error_In _ _ Hn).
  - apply nth_error_None in Hn. unfold len in *. lia.
Qed.

(** X8.  The two blocks that read the 10-year yield differ on a history of
    fewer than 28 closes.  The gold block gives up: its record is the
    fallback 'Real Yields' with the message 'Insufficient yield data'.  The
    Nasdaq block takes the current yield for the yield of four weeks ago
    when the history is not empty: the change is 0, and its record 'Rate
    Surge' is never triggered. *)
Theorem short_yield_history E s ts cs :
  http_get E (calls s) "^TNX" "3mo" = Val (ts, cs) ->
  len (history_of ts cs) < 28 ->
  gold_signal_2 E s
  = (Val tt,
     set_signals
       (signals s ++
        [fallback "Real Yields" 25 (Exn ValueError "Insufficient yield data")])
       (set_calls (S (calls s)) s)) /\
  (history_of ts cs <> [] ->
   exists sig,
     nasdaq_signal_3 E s
     = (Val tt,
        set_signals (signals s ++ [sig])
          (set_score (score s + 0) (set_calls (S (calls s)) s))) /\
     name sig = "Rate Surge" /\
     triggered sig = PyBool false /\
     points sig = 0 /\
     maxPoints sig = 20).
Proof.
  intros Hget Hlen.
  assert (Hshort : (28 <=? len (history_of ts cs)) = false)
    by (apply Z.leb_gt; exact Hlen).
  split.
  - unfold gold_signal_2, gold_signal_2_body, try_except, bind.
    rewrite (fetch_yahoo_history_answers _ _ _ _ _ _ Hget), Hshort.
    reflexivity.
  - intros Hne. destruct (price_at_last _ Hne) as (p & Hp & _).
    unfold nasdaq_signal_3, nasdaq_signal_3_body, try_except, bind, lift, ret.
    rewrite (fetch_yahoo_history_answers _ _ _ _ _ _ Hget), Hp, Hshort.
    assert (Hz : Qlt_bool 40 ((p / 10 - p / 10) * 100) = false).
    { apply Qlt_bool_false_iff.
      assert (H0 : ((p / 10 - p / 10) * 100 == 0)%Q) by field.
      rewrite H0. discriminate. }
    rewrite Hz. eexists. split; [reflexivity|]. repeat split.
Qed.

(** A yield history of two closes. *)
Lemma short_yield_history_witness :
  gold_signal_2 env_two_closes initial
  = (Val tt,
     set_signals
       [fallback "Real Yields" 25 (Exn ValueError "Insufficient yield data")]
       (set_calls 1 initial)) /\
  exists sig,
    nasdaq_signal_3 env_two_closes initial
    = (Val tt,
       set_signals [sig] (set_score 0 (set_calls 1 initial))) /\
    triggered sig = PyBool false.
Proof.
  destruct (short_yield_history env_two_closes initial
              (fst (chart [100; 70]%Q)) (snd (chart [100; 70]%Q)) eq_refl)
    as [Hgold Hnasdaq].
  - vm_compute. reflexivity.
  - split; [exact Hgold|].
    destruct Hnasdaq as (sig & Hrun & _ & Ht & _); [discriminate|].
    exists sig. split; [exact Hrun | exact Ht].
Defined.

(** *** The dollar-index block *)

Lemma price_at_from_end (h : History) (k : Z) :
  1 <= k <= len h -> exists p, price_at h (- k) = Val p /\ In p (prices h).
Proof.
  intros Hk. unfold price_at, index.
  assert (H1 : (- k <? 0) = true) by (apply Z.ltb_lt; lia). rewrite H1.
  assert (H2 : ((- k + len h <? 0) || (len h <=? - k + len h)) = false).
  { apply orb_false_iff. split; [apply Z.ltb_ge | apply Z.leb_gt]; lia. }
  rewrite H2.
  destruct (nth_error h (Z.to_nat (- k + len h))) as [tp|] eqn:Hn.
  - exists (snd tp). split; [reflexivity|].
    apply in_map, (nth_error_In _ _ Hn).
  - apply nth_error_None in Hn. unfold len in *. lia.
Qed.

Lemma calculate_ma_some (h : History) period :
  1 <= period <= len h -> exists m, calculate_ma h period = Val (Some m).
Proof.
  intros [Hp Hl].
  destruct (calculate_ma_returns h period Hp) as ([m|] & Ho);
    [exists m; exact Ho|].
  unfold calculate_ma in Ho.
  assert (Hlt : (len h <? period) = false) by (apply Z.ltb_ge; lia).
  rewrite Hlt in Ho. destruct (mean _); discriminate Ho.
Qed.

Lemma calculate_ma_short (h : History) period :
  len h < period -> calculate_ma h period = Val None.
Proof.
  intros Hl. unfold calculate_ma.
  assert (Hlt : (len h <? period) = true) by (apply Z.ltb_lt; lia).
  rewrite Hlt. reflexivity.
Qed.

(** X9.  The dollar-index block of the gold function needs 200 closes.  On a
    shorter history its record is the fallback: with the IndexError of
    [dxy_history[-1]] when the history is empty, and with 'Insufficient DXY
    history' otherwise, so the alternative [else current_dxy] of the
    week-ago price (a history of fewer than 7 closes) is never used.  On 200
    closes or more, with a 200-day average that is not zero, the record 'DXY
    Breakout' is triggered, with 15 points, exactly when the last close is
    above the average and above the close of seven sessions ago. *)
Theorem dxy_breakout_needs_200_closes E s ts cs :
  http_get E (calls s) "DX-Y.NYB" "1y" = Val (ts, cs) ->
  let h := history_of ts cs in
  let s1 := set_calls (S (calls s)) s in
  (len h < 200 ->
   exists e,
     gold_signal_4 E s
     = (Val tt, set_signals (signals s ++ [fallback "DXY Breakout" 15 e]) s1) /\
     (h = [] -> e = Exn IndexError "list index out of range") /\
     (h <> [] -> e = Exn ValueError "Insufficient DXY history")) /\
  (200 <= len h ->
   exists current_dxy week_ago_dxy ma_200,
     price_at h (-1) = Val current_dxy /\
     price_at h (-7) = Val week_ago_dxy /\
     calculate_ma h 200 = Val (Some ma_200) /\
     (~ (ma_200 == 0)%Q ->
      exists sig,
        gold_signal_4 E s
        = (Val tt,
           set_signals (signals s ++ [sig])
             (set_score (score s + points sig) s1)) /\
        name sig = "DXY Breakout" /\
        maxPoints sig = 15 /\
        (triggered sig = PyBool true <->
         (ma_200 < current_dxy)%Q /\ (week_ago_dxy < current_dxy)%Q) /\
        (triggered sig = PyBool true \/ triggered sig = PyBool false) /\
        points sig = (if truthy (triggered sig) then 15 else 0))).
Proof.
  intros Hget h s1.
  assert (Hfetch : fetch_yahoo_history E "DX-Y.NYB" "1y" s = (Val h, s1))
    by (apply fetch_yahoo_history_answers, Hget).
  split.
  - intros Hlen.
    unfold gold_signal_4, gold_signal_4_body, try_except, bind, lift.
    rewrite Hfetch.
    destruct h as [|tp h'] eqn:Hh.
    + eexists. split; [reflexivity|].
      split; [reflexivity | intros H; contradiction].
    + destruct (price_at_last (tp :: h')) as (p & Hp & _); [discriminate|].
      rewrite Hp, (calculate_ma_short _ _ Hlen).
      eexists. split; [reflexivity|].
      split; [discriminate | reflexivity].
  - intros Hlen.
    destruct (price_at_from_end h 1) as (cur & Hcur & _); [lia|].
    destruct (price_at_from_end h 7) as (w & Hw & _); [lia|].
    destruct (calculate_ma_some h 200) as (ma & Hma); [lia|].
    exists cur, w, ma.
    change (- (1)) with (-1) in Hcur. change (- (7)) with (-7) in Hw.
    split; [exact Hcur|]. split; [exact Hw|]. split; [exact Hma|].
    intros Hnz.
    unfold gold_signal_4, gold_signal_4_body, try_except, bind, lift, ret.
    rewrite Hfetch, Hcur, Hma.
    unfold truthy. rewrite (Qeq_bool_false _ _ Hnz). cbn [negb].
    assert (H7 : (7 <=? len h) = true) by (apply Z.leb_le; lia).
    rewrite H7, Hw.
    unfold div. rewrite (Qeq_bool_false _ _ Hnz).
    eexists (mkSignal _ _ _ _ _). split; [reflexivity|].
    cbn [name maxPoints triggered points].
    split; [reflexivity|]. split; [reflexivity|].
    split; [|split].
    + rewrite <- !Qlt_bool_iff.
      destruct (Qlt_bool ma cur), (Qlt_bool w cur); cbn; split;
        first [ intros [? ?]; discriminate | intros ?; discriminate
              | intros _; split; reflexivity | reflexivity | idtac ].
    + destruct (Qlt_bool ma cur && Qlt_bool w cur); [left | right]; reflexivity.
    + destruct (Qlt_bool ma cur && Qlt_bool w cur); reflexivity.
Qed.

(** A dollar-index history of two closes: the fallback record. *)
Lemma dxy_breakout_needs_200_closes_witness :
  gold_signal_4 env_two_closes initial
  = (Val tt,
     set_signals
       [fallback "DXY Breakout" 15 (Exn ValueError "Insufficient DXY history")]
       (set_calls 1 initial)).
Proof.
  destruct (dxy_breakout_needs_200_closes env_two_closes initial
              (fst (chart [100; 70]%Q)) (snd (chart [100; 70]%Q)) eq_refl)
    as [Hshort _].
  destruct Hshort as (e & Hrun & _ & He); [vm_compute; reflexivity|].
  rewrite Hrun, He by discriminate. reflexivity.
Defined.

(** *** The drawdown block on positive prices *)

Lemma Qmax_spec x y :
  (Qmax x y = x \/ Qmax x y = y) /\ (x <= Qmax x y)%Q /\ (y <= Qmax x y)%Q.
Proof.
  unfold Qmax. destruct (Qlt_bool x y) eqn:Hb.
  - apply Qlt_bool_iff in Hb.
    split; [right; reflexivity|]. split; [apply Qlt_le_weak, Hb | apply Qle_refl].
  - apply Qlt_bool_false_iff in Hb.
    split; [left; reflexivity|]. split; [apply Qle_refl | exact Hb].
Qed.

Lemma fold_left_Qmax_spec xs x :
  In (fold_left Qmax xs x) (x :: xs) /\
  (forall y, In y (x :: xs) -> (y <= fold_left Qmax xs x)%Q).
Proof.
  revert x. induction xs as [|a xs IH]; intros x; cbn [fold_left].
  - split; [left; reflexivity|].
    intros y [<-|[]]. apply Qle_refl.
  - destruct (IH (Qmax x a)) as [Hin Hge].
    destruct (Qmax_spec x a) as (Hor & Hx & Ha).
    split.
    + destruct Hin as [Heq|Hin].
      * rewrite <- Heq. destruct Hor as [->| ->];
          [left | right; left]; reflexivity.
      * right. right. exact Hin.
    + intros y [<-|[<-|Hy]].
      * apply Qle_trans with (Qmax x a); [exact Hx|].
        apply Hge. left. reflexivity.
      * apply Qle_trans with (Qmax x a); [exact Ha|].
        apply Hge. left. reflexivity.
      * apply Hge. right. exact Hy.
Qed.

Lemma max_spec l :
  l <> [] ->
  exists m, max l = Val m /\ In m l /\ (forall y, In y l -> (y <= m)%Q).
Proof.
  destruct l as [|x xs]; [contradiction|]. intros _.
  destruct (fold_left_Qmax_spec xs x) as [Hin Hge].
  exists (fold_left Qmax xs x). repeat split; assumption.
Qed.

(** X10.  The drawdown block as the bitcoin function calls it, with the last
    close of the history as the current price, on a history of positive
    closes: the block does not fall back, the all-time high is a close of
    the history and not below the current price, the drawdown lies between
    -100 and 0, and when the current price is the all-time high the record
    is not triggered. *)
Theorem drawdown_of_positive_prices E (h : History) cur s :
  price_at h (-1) = Val cur ->
  (forall p, In p (prices h) -> (0 < p)%Q) ->
  exists ath sig,
    max (prices h) = Val ath /\
    In ath (prices h) /\
    (cur <= ath)%Q /\
    (-100 <= (cur - ath) / ath * 100 <= 0)%Q /\
    bitcoin_signal_5 E h cur s
    = (Val tt,
       set_signals (signals s ++ [sig]) (set_score (score s + points sig) s)) /\
    name sig = "Drawdown from ATH" /\
    ((cur == ath)%Q -> triggered sig = PyBool false /\ points sig = 0).
Proof.
  intros Hcur Hpos.
  assert (Hne : h <> []) by (intros ->; discriminate Hcur).
  destruct (price_at_last h Hne) as (p & Hp & Hin).
  rewrite Hcur in Hp. inversion Hp; subst p.
  assert (Hne' : prices h <> [])
    by (destruct h; [contradiction | discriminate]).
  destruct (max_spec (prices h) Hne') as (ath & Hmax & Hath & Hge).
  pose proof (Hge cur Hin) as Hle.
  pose proof (Hpos ath Hath) as Hapos.
  pose proof (Hpos cur Hin) as Hcpos.
  assert (Hnz : ~ (ath == 0)%Q) by (intros Hz; rewrite Hz in Hapos; discriminate).
  assert (Hd0 : ((cur - ath) / ath <= 0)%Q)
    by (apply Qle_shift_div_r; [exact Hapos | lra]).
  assert (Hd1 : (-1 < (cur - ath) / ath)%Q)
    by (apply Qlt_shift_div_l; [exact Hapos | lra]).
  assert (Hrange : (-100 <= (cur - ath) / ath * 100 <= 0)%Q).
  { set (d := ((cur - ath) / ath)%Q) in *. split; lra. }
  exists ath. eexists (mkSignal _ _ _ _ _).
  split; [exact Hmax|]. split; [exact Hath|]. split; [exact Hle|].
  split; [exact Hrange|].
  split.
  { unfold bitcoin_signal_5, bitcoin_signal_5_body, try_except, bind, lift.
    rewrite Hmax. unfold div. rewrite (Qeq_bool_false _ _ Hnz). reflexivity. }
  cbn [name triggered points]. split; [reflexivity|].
  intros Heq.
  assert (Hb : Qlt_bool ((cur - ath) / ath * 100) (-30) = false).
  { apply Qlt_bool_false_iff.
    assert (H0 : ((cur - ath) / ath * 100 == 0)%Q)
      by (rewrite Heq; field; exact Hnz).
    rewrite H0. discriminate. }
  rewrite Hb. split; reflexivity.
Qed.

(** The closes 100 and 70 with the current price 70. *)
Lemma drawdown_of_positive_prices_witness :
  exists ath sig,
    max (prices [(1, 100%Q); (2, 70%Q)]) = Val ath /\
    (-100 <= (70 - ath) / ath * 100 <= 0)%Q /\
    bitcoin_signal_5 env_two_closes [(1, 100%Q); (2, 70%Q)] 70%Q initial
    = (Val tt,
       set_signals [sig] (set_score (0 + points sig) initial)).
Proof.
  destruct (drawdown_of_positive_prices env_two_closes
              [(1, 100%Q); (2, 70%Q)] 70%Q initial eq_refl)
    as (ath & sig & Hmax & _ & _ & Hrange & Hrun & _).
  - intros p [<-|[<-|[]]]; reflexivity.
  - exists ath, sig. repeat split; try apply Hrange; assumption.
Defined.

(** *** The award of the positioning block *)

Lemma count_below_zero v l :
  count_below v l = 0 <-> (forall x, In x l -> (v <= x)%Q).
Proof.
  split; [|apply count_below_none].
  induction l as [|y l IH]; intros H x Hin; [contradiction|].
  rewrite count_below_cons in H. pose proof (count_below_bounds v l) as [Hb _].
  destruct (Qlt_bool y v) eqn:Hy; [lia|].
  destruct Hin as [<-|Hin].
  - apply Qlt_bool_false_iff, Hy.
  - apply IH; [lia | exact Hin].
Qed.

Lemma ratio_zero (c n : Z) :
  0 < n -> ((inject_Z c / inject_Z n * 100 == 0)%Q <-> c = 0).
Proof.
  intros Hn.
  assert (Hnz : ~ (inject_Z n == 0)%Q).
  { change 0%Q with (inject_Z 0). rewrite inject_Z_injective. lia. }
  split.
  - intros H.
    assert (Hc : (inject_Z c == inject_Z c / inject_Z n * 100 * inject_Z n / 100)%Q)
      by (field; exact Hnz).
    rewrite H in Hc.
    assert (Hc0 : (inject_Z c == inject_Z 0)%Q)
      by (rewrite Hc; change (inject_Z 0) with 0%Q; field).
    rewrite inject_Z_injective in Hc0. exact Hc0.
  - intros ->. change (inject_Z 0) with 0%Q. field. exact Hnz.
Qed.

(** X11.  The positioning block of the gold function, once the 5-year
    history is there, always appends its record 'COT Positioning (Proxy)' of
    budget 30.  The award is 30 exactly when the percentile of the current
    price among the weekly sample exists and is above 85, and 0 otherwise.
    The field [triggered] fails to be a bool exactly when the weekly sample
    is empty or no weekly price is below the current price; it is then
    [None] or [0.0], which counts as not triggered, and the award is 0.  The
    weekly sample is empty only when the 5-year history is. *)
Theorem cot_positioning_award E cur s ts cs :
  http_get E (calls s) "GC=F" "5y" = Val (ts, cs) ->
  let weekly_prices := prices (stride 7 (history_of ts cs)) in
  let price_percentile := percentile_rank (Some cur) weekly_prices in
  exists sig,
    gold_signal_1 E cur s
    = (Val tt,
       set_signals (signals s ++ [sig])
         (set_score (score s + points sig) (set_calls (S (calls s)) s))) /\
    name sig = "COT Positioning (Proxy)" /\
    maxPoints sig = 30 /\
    (points sig = 30 <->
     exists r, price_percentile = Some r /\ (85 < r)%Q) /\
    (points sig = 30 \/ points sig = 0) /\
    truthy (triggered sig) = (points sig =? 30) /\
    (is_bool (triggered sig) = false <->
     weekly_prices = [] \/
     (forall p, In p weekly_prices -> (cur <= p)%Q)) /\
    (is_bool (triggered sig) = false -> points sig = 0) /\
    (weekly_prices = [] <-> history_of ts cs = []).
Proof.
  intros Hget weekly_prices price_percentile.
  assert (Hempty : weekly_prices = [] <-> history_of ts cs = []).
  { subst weekly_prices. destruct (history_of ts cs) as [|tp h'].
    - split; reflexivity.
    - split; discriminate. }
  assert (Hrun :
    gold_signal_1 E cur s
    = let cot_triggered :=
        match price_percentile with
        | None => PyNone
        | Some p => if truthy (PyFloat p) then PyBool (Qlt_bool 85 p) else PyFloat p
        end in
      let cot_points := if truthy cot_triggered then 30 else 0 in
      (Val tt,
       set_signals
         (signals s ++
          [ {| name := "COT Positioning (Proxy)";
               triggered := cot_triggered;
               points := cot_points;
               maxPoints := 30;
               detail :=
                 match price_percentile with
                 | None => "Unavailable"
                 | Some p =>
                     if truthy (PyFloat p)
                     then "Price at " ++ float_format E ".0f" p
                          ++ "th percentile (5yr)"
                     else "Unavailable"
                 end |} ])
         (set_score (score s + cot_points) (set_calls (S (calls s)) s)))).
  { unfold gold_signal_1, gold_signal_1_body, try_except, bind.
    rewrite (fetch_yahoo_history_answers _ _ _ _ _ _ Hget). reflexivity. }
  cbv zeta in Hrun.
  eexists (mkSignal _ _ _ _ _). split; [exact Hrun|].
  cbn [name maxPoints points triggered].
  split; [reflexivity|]. split; [reflexivity|].
  assert (Hrank :
    (weekly_prices = [] /\ price_percentile = None) \/
    (weekly_prices <> [] /\
     price_percentile
     = Some (inject_Z (count_below cur weekly_prices)
             / inject_Z (len weekly_prices) * 100)%Q)).
  { subst price_percentile. destruct weekly_prices as [|w ws] eqn:Hw.
    - left. split; reflexivity.
    - right. split; [discriminate|].
      apply percentile_rank_value. discriminate. }
  destruct Hrank as [[Hw Hr]|[Hw Hr]]; rewrite Hr.
  - cbn. split; [split; [discriminate | intros (r & Hs & _); discriminate Hs]|].
    split; [right; reflexivity|]. split; [reflexivity|].
    split; [split; [intros _; left; exact Hw | reflexivity]|].
    split; [reflexivity | exact Hempty].
  - set (r := (inject_Z (count_below cur weekly_prices)
               / inject_Z (len weekly_prices) * 100)%Q).
    pose proof (len_positive _ Hw) as Hn.
    pose proof (ratio_zero (count_below cur weekly_prices) _ Hn) as Hzero.
    fold r in Hzero. rewrite count_below_zero in Hzero.
    assert (Ht : truthy (PyFloat r) = negb (Qeq_bool r 0)) by reflexivity.
    destruct (Qeq_bool r 0) eqn:Hz; cbn [negb] in Ht;
      repeat (rewrite !Ht; cbv iota).
    + apply Qeq_bool_iff in Hz.
      split.
      { split; [discriminate|]. intros (r' & Hs & Hlt).
        inversion Hs; subst r'. rewrite Hz in Hlt. discriminate Hlt. }
      split; [right; reflexivity|].
      split; [reflexivity|].
      split; [split; [intros _; right; apply Hzero, Hz | reflexivity]|].
      split; [reflexivity | exact Hempty].
    + cbn [truthy is_bool].
      assert (Hnz : ~ (r == 0)%Q)
        by (intros H0; apply Qeq_bool_iff in H0; congruence).
      destruct (Qlt_bool 85 r) eqn:Hlt.
      * split.
        { split; [|reflexivity]. intros _. exists r.
          split; [reflexivity | apply Qlt_bool_iff, Hlt]. }
        split; [left; reflexivity|]. split; [reflexivity|].
        split; [|split; [discriminate | exact Hempty]].
        split; [discriminate|].
        intros [Hw'|Hall]; [contradiction|].
        apply Hzero in Hall. contradiction.
      * split.
        { split; [discriminate|]. intros (r' & Hs & Hgt).
          inversion Hs; subst r'. apply Qlt_bool_iff in Hgt. congruence. }
        split; [right; reflexivity|]. split; [reflexivity|].
        split; [|split; [discriminate | exact Hempty]].
        split; [discriminate|].
        intros [Hw'|Hall]; [contradiction|].
        apply Hzero in Hall. contradiction.
Qed.

(** The closes 100 and 70 and the current price 70: the weekly sample is
    the close 100, which is not below 70. *)
Lemma cot_positioning_award_witness :
  exists sig,
    gold_signal_1 env_two_closes 70%Q initial
    = (Val tt,
       set_signals [sig]
         (set_score (0 + points sig) (set_calls 1 initial))) /\
    points sig = 0 /\
    is_bool (triggered sig) = false.
Proof.
  destruct (cot_positioning_award env_two_closes 70%Q initial
              (fst (chart [100; 70]%Q)) (snd (chart [100; 70]%Q)) eq_refl)
    as (sig & Hrun & _ & _ & _ & _ & _ & Hb & Hp & _).
  exists sig. split; [exact Hrun|].
  assert (Hnb : is_bool (triggered sig) = false).
  { apply Hb. right. intros p [<-|[]]. unfold Qle. cbn. lia. }
  split; [exact (Hp Hnb) | exact Hnb].
Defined.

(** *** The report as a whole *)







(** *** The places of the records *)

Lemma body_emits_fetch ok E sym rng (k : History -> Run unit) :
  (forall h, body_emits ok (k h)) ->
  body_emits ok (bind (fetch_yahoo_history E sym rng) k).
Proof.
  intros Hk s. unfold bind, fetch_yahoo_history.
  destruct (http_get E (calls s) sym rng) as [[ts cs]|e].
  - exact (Hk _ (set_calls (S (calls s)) s)).
  - reflexivity.
Qed.

Lemma body_emits_lift ok {A} (r : res A) (k : A -> Run unit) :
  (forall a, body_emits ok (k a)) -> body_emits ok (bind (lift r) k).
Proof.
  intros Hk s. unfold bind, lift. destruct r as [a|e]; [exact (Hk a s)|].
  reflexivity.
Qed.

Lemma body_emits_ret ok {A} (a : A) (k : A -> Run unit) :
  body_emits ok (k a) -> body_emits ok (bind (ret a) k).
Proof. intros Hk s. exact (Hk s). Qed.

Lemma body_emits_assoc ok {A B} (m : Run A) (f : A -> Run B)
  (k : B -> Run unit) :
  body_emits ok (bind m (fun a => bind (f a) k)) ->
  body_emits ok (bind (bind m f) k).
Proof.
  intros H s. specialize (H s). unfold bind in *.
  destruct (m s) as [[a|e] s1]; exact H.
Qed.

Lemma body_emits_raise ok e : body_emits ok (raise e).
Proof. intros s. reflexivity. Qed.

Lemma body_emits_emit ok p sig :
  try_record ok sig ->
  body_emits ok (bind (add_score p) (fun _ => append_signal sig)).
Proof. intros Hn s. cbn. exists sig. split; [reflexivity | exact Hn]. Qed.

Lemma body_emits_emit_div ok p (r : res Q) (sig : Q -> Signal) :
  (forall ratio, try_record ok (sig ratio)) ->
  body_emits ok
    (bind (add_score p)
       (fun _ => bind (lift r) (fun ratio => append_signal (sig ratio)))).
Proof.
  intros Hn s. unfold bind, lift. destruct r as [ratio|e]; cbn.
  - exists (sig ratio). split; [reflexivity | apply Hn].
  - reflexivity.
Qed.

Lemma block_emits_try ok fb K body :
  body_emits ok body ->
  block_emits (ok, fb, K) (try_except body (unavailable fb K)).
Proof.
  intros Hb s. specialize (Hb s). unfold try_except.
  destruct (body s) as [[[]|e] s1].
  - destruct Hb as (sig & Hs & Hn). exists sig.
    split; [exact Hs | left; exact Hn].
  - destruct (is_Exception e); [|exact I].
    unfold unavailable, append_signal, modify. cbn.
    exists (fallback fb K e). split; [rewrite Hb; reflexivity|].
    right. exists e. reflexivity.
Qed.

Ltac emits_step :=
  lazymatch goal with
  | |- body_emits _ (bind (fetch_yahoo_history _ _ _) _) =>
      apply body_emits_fetch; intros ?h
  | |- body_emits _ (bind (lift _) _) => apply body_emits_lift; intros ?x
  | |- body_emits _ (bind (ret _) _) => apply body_emits_ret
  | |- body_emits _ (bind (bind _ _) _) => apply body_emits_assoc
  | |- body_emits _ (bind (if ?c then _ else _) _) => destruct c
  | |- body_emits _ (raise _) => apply body_emits_raise
  | |- body_emits _ (bind (add_score _) (fun _ => append_signal _)) =>
      apply body_emits_emit; split; reflexivity
  | |- body_emits _ (bind (add_score _) (fun _ => bind (lift _) _)) =>
      apply body_emits_emit_div; intros ?ratio; split; reflexivity
  | |- body_emits _ (if ?c then _ else _) => destruct c
  | |- body_emits _ (match ?o with Some _ => _ | None => _ end) => destruct o
  end.

Ltac emits := apply block_emits_try; cbv zeta; repeat emits_step.

Lemma gold_names E h cur :
  Forall2 block_emits
    [ ("COT Positioning (Proxy)", "COT Positioning", 30);
      ("Real Yields Surge", "Real Yields", 25);
      ("MA Overextension", "MA Deviation", 15);
      ("DXY Breakout", "DXY Breakout", 15);
      ("Volatility Extreme", "Sentiment", 15) ]
    [ gold_signal_1 E cur; gold_signal_2 E; gold_signal_3 E h cur;
      gold_signal_4 E; gold_signal_5 E h ].
Proof.
  repeat apply Forall2_cons; try apply Forall2_nil.
  - unfold gold_signal_1, gold_signal_1_body. emits.
  - unfold gold_signal_2, gold_signal_2_body. emits.
  - unfold gold_signal_3, gold_signal_3_body. emits.
  - unfold gold_signal_4, gold_signal_4_body. emits.
  - unfold gold_signal_5, gold_signal_5_body. emits.
Qed.

Lemma sp500_names E h cur :
  Forall2 block_emits
    [ ("VIX Elevated", "VIX Level", 30);
      ("Yield Curve", "Yield Curve", 25);
      ("MA Overextension", "MA Deviation", 20);
      ("Hedging Surge", "Put/Call Ratio", 15);
      ("Market Breadth", "Market Breadth", 10) ]
    [ sp500_signal_1 E; sp500_signal_2 E; sp500_signal_3 E h cur;
      sp500_signal_4 E; sp500_signal_5 E h ].
Proof.
  repeat apply Forall2_cons; try apply Forall2_nil.
  - unfold sp500_signal_1, sp500_signal_1_body. emits.
  - unfold sp500_signal_2, sp500_signal_2_body. emits.
  - unfold sp500_signal_3, sp500_signal_3_body. emits.
  - unfold sp500_signal_4, sp500_signal_4_body. emits.
  - unfold sp500_signal_5, sp500_signal_5_body. emits.
Qed.

Lemma nasdaq_names E h cur :
  Forall2 block_emits
    [ ("VIX Elevated", "VIX Level", 30);
      ("MA Overextension", "MA Deviation", 25);
      ("Rate Surge", "Rate Sensitivity", 20);
      ("Momentum Reversal", "Momentum", 15);
      ("Volatility Spike", "Volatility", 10) ]
    [ nasdaq_signal_1 E; nasdaq_signal_2 E h cur; nasdaq_signal_3 E;
      nasdaq_signal_4 E h cur; nasdaq_signal_5 E h ].
Proof.
  repeat apply Forall2_cons; try apply Forall2_nil.
  - unfold nasdaq_signal_1, nasdaq_signal_1_body. emits.
  - unfold nasdaq_signal_2, nasdaq_signal_2_body. emits.
  - unfold nasdaq_signal_3, nasdaq_signal_3_body. emits.
  - unfold nasdaq_signal_4, nasdaq_signal_4_body. emits.
  - unfold nasdaq_signal_5, nasdaq_signal_5_body. emits.
Qed.

Lemma bitcoin_names E h cur :
  Forall2 block_emits
    [ ("MA Overextension", "MA Deviation", 30);
      ("Volatility Extreme", "Volatility", 25);
      ("Momentum Exhaustion", "Momentum", 20);
      ("Risk-Off Correlation", "Correlation", 15);
      ("Drawdown from ATH", "Drawdown", 10) ]
    [ bitcoin_signal_1 E h cur; bitcoin_signal_2 E h; bitcoin_signal_3 E h cur;
      bitcoin_signal_4 E h; bitcoin_signal_5 E h cur ].
Proof.
  repeat apply Forall2_cons; try apply Forall2_nil.
  - unfold bitcoin_signal_1, bitcoin_signal_1_body. emits.
  - unfold bitcoin_signal_2, bitcoin_signal_2_body. emits.
  - unfold bitcoin_signal_3, bitcoin_signal_3_body. emits.
  - unfold bitcoin_signal_4, bitcoin_signal_4_body. emits.
  - unfold bitcoin_signal_5, bitcoin_signal_5_body. emits.
Qed.

Lemma five_blocks_names n1 n2 n3 n4 n5 (b1 b2 b3 b4 b5 : Run unit)
  (level_of : Z -> Level * string) s sc lv sigs rec s' :
  Forall2 block_emits [n1; n2; n3; n4; n5] [b1; b2; b3; b4; b5] ->
  signals s = [] ->
  (b1 ;;; b2 ;;; b3 ;;; b4 ;;; b5 ;;;
   st <- get ;;
   let (level, recommendation) := level_of (score st) in
   ret (ScoreRecord (score st) level (signals st) recommendation)) s
  = (Val (ScoreRecord sc lv sigs rec), s') ->
  Forall2 block_record [n1; n2; n3; n4; n5] sigs.
Proof.
  intros HF Hnil.
  inversion HF as [|? ? ? ? H1 HF1]; subst.
  inversion HF1 as [|? ? ? ? H2 HF2]; subst.
  inversion HF2 as [|? ? ? ? H3 HF3]; subst.
  inversion HF3 as [|? ? ? ? H4 HF4]; subst.
  inversion HF4 as [|? ? ? ? H5 _]; subst.
  unfold bind, get.
  specialize (H1 s). destruct (b1 s) as [[[]|e1] s1]; [|discriminate].
  destruct H1 as (g1 & S1 & N1).
  specialize (H2 s1). destruct (b2 s1) as [[[]|e2] s2]; [|discriminate].
  destruct H2 as (g2 & S2 & N2).
  specialize (H3 s2). destruct (b3 s2) as [[[]|e3] s3]; [|discriminate].
  destruct H3 as (g3 & S3 & N3).
  specialize (H4 s3). destruct (b4 s3) as [[[]|e4] s4]; [|discriminate].
  destruct H4 as (g4 & S4 & N4).
  specialize (H5 s4). destruct (b5 s4) as [[[]|e5] s5]; [|discriminate].
  destruct H5 as (g5 & S5 & N5).
  destruct (level_of (score s5)) as [lv' rec']. cbn.
  intros H. inversion H; subst.
  rewrite S5, S4, S3, S2, S1, Hnil. cbn [app].
  repeat (apply Forall2_cons; [assumption|]). apply Forall2_nil.
Qed.

Lemma with_baseline_score E symbol prefix rest s sc lv sigs rec s' :
  with_baseline E symbol prefix rest s = (Val (ScoreRecord sc lv sigs rec), s') ->
  exists h cur s0,
    signals s0 = [] /\
    rest h cur s0 = (Val (ScoreRecord sc lv sigs rec), s').
Proof.
  unfold with_baseline, bind, modify, try_except, fetch_yahoo_history, lift, ret.
  cbn.
  destruct (http_get E (calls s) symbol "1y") as [[ts cs]|e].
  - set (h := flat_map _ _).
    destruct (price_at h (-1)) as [cur|e].
    + intros H. eexists h, cur, _. split; [|exact H]. reflexivity.
    + destruct (is_Exception e); intros H; discriminate H.
  - destruct (is_Exception e); intros H; discriminate H.
Qed.

Lemma records_of_a_result E key symbol label f names s sc lv sigs rec s' :
  In (key, symbol, label, f) (asset_classes E) ->
  In (key, names) signal_table ->
  f s = (Val (ScoreRecord sc lv sigs rec), s') ->
  Forall2 block_record names sigs.
Proof.
  intros Hin Htab Hrun. unfold asset_classes in Hin. unfold signal_table in Htab.
  destruct Hin as [Heq|[Heq|[Heq|[Heq|[]]]]]; inversion Heq; subst; clear Heq;
    destruct Htab as [Heq|[Heq|[Heq|[Heq|[]]]]]; inversion Heq; subst; clear Heq.
  - rewrite gold_shape in Hrun.
    apply with_baseline_score in Hrun. destruct Hrun as (h & cur & s0 & Hnil & Hrun).
    exact (five_blocks_names _ _ _ _ _ _ _ _ _ _ _ _ _ _ _ _ _
             (gold_names E h cur) Hnil Hrun).
  - rewrite sp500_shape in Hrun.
    apply with_baseline_score in Hrun. destruct Hrun as (h & cur & s0 & Hnil & Hrun).
    exact (five_blocks_names _ _ _ _ _ _ _ _ _ _ _ _ _ _ _ _ _
             (sp500_names E h cur) Hnil Hrun).
  - rewrite nasdaq_shape in Hrun.
    apply with_baseline_score in Hrun. destruct Hrun as (h & cur & s0 & Hnil & Hrun).
    exact (five_blocks_names _ _ _ _ _ _ _ _ _ _ _ _ _ _ _ _ _
             (nasdaq_names E h cur) Hnil Hrun).
  - rewrite bitcoin_shape in Hrun.
    apply with_baseline_score in Hrun. destruct Hrun as (h & cur & s0 & Hnil & Hrun).
    exact (five_blocks_names _ _ _ _ _ _ _ _ _ _ _ _ _ _ _ _ _
             (bitcoin_names E h cur) Hnil Hrun).
Qed.


(** X13.  The records of a result keep their places.  In the [signals]
    list of a score record the i-th record is the record of the i-th
    block of the class: it bears the name the block gives the record of
    its [try], or it is the record of the block's [except] branch, with
    the fallback name, [triggered = False], no points, the block's budget
    and a detail that starts with 'Data unavailable: '. *)
Theorem signals_keep_their_places E key symbol label f names s sc lv sigs rec s' :
  In (key, symbol, label, f) (asset_classes E) ->
  In (key, names) signal_table ->
  f s = (Val (ScoreRecord sc lv sigs rec), s') ->
  Forall2 (fun n sig =>
             name sig = fst (fst n) \/
             exists e, sig = fallback (snd (fst n)) (snd n) e)
          names sigs.
Proof.
  intros Hin Htab Hrun.
  pose proof (records_of_a_result _ _ _ _ _ _ _ _ _ _ _ _ Hin Htab Hrun) as H.
  clear Hin Htab Hrun.
  induction H as [|n sig names' sigs' Hr _ IH]; [apply Forall2_nil|].
  apply Forall2_cons; [|exact IH].
  destruct Hr as [[Hn _]|He]; [left; exact Hn | right; exact He].
Qed.

(** The 1-year histories answer and every other request fails: the
    records of the S&P 500 result, in their places. *)
Lemma signals_keep_their_places_witness :
  exists sc lv sigs rec s',
    fetch_sp500_barometer env_aux_down initial
    = (Val (ScoreRecord sc lv sigs rec), s') /\
    Forall2 (fun n sig =>
               name sig = fst (fst n) \/
               exists e, sig = fallback (snd (fst n)) (snd n) e)
            [ ("VIX Elevated", "VIX Level", 30);
              ("Yield Curve", "Yield Curve", 25);
              ("MA Overextension", "MA Deviation", 20);
              ("Hedging Surge", "Put/Call Ratio", 15);
              ("Market Breadth", "Market Breadth", 10) ]
            sigs.
Proof.
  eexists _, _, _, _, _. split; [vm_compute; reflexivity|].
  eapply (signals_keep_their_places env_aux_down "sp500" "^GSPC" "S&P 500"
            (fetch_sp500_barometer env_aux_down) _ initial).
  - right. left. reflexivity.
  - right. left. reflexivity.
  - vm_compute. reflexivity.
Defined.

(** *** The award and the trigger *)




(** *** The hedging block *)

Lemma price_at_out_of_range (h : History) (k : Z) :
  len h < k ->
  price_at h (- k) = Exc (Exn IndexError "list index out of range").
Proof.
  intros Hk. unfold price_at, index.
  pose proof (len_nonneg h) as Hpos.
  assert (H1 : (- k <? 0) = true) by (apply Z.ltb_lt; lia). rewrite H1.
  assert (H2 : (- k + len h <? 0) = true) by (apply Z.ltb_lt; lia).
  rewrite H2. reflexivity.
Qed.

(** X20.  The hedging block of the S&P 500 function asks for the same
    one-month VIX history up to three times and reads each answer for one
    thing: the current VIX in the first, the number of closes in the second,
    the close of seven sessions ago in the third.  When the second answer
    has fewer than 7 closes there is no third request and the week-ago VIX
    is the current one: the change is 0 and the record 'Hedging Surge' is
    not triggered, unless the current VIX is zero and the division raises.
    When the second answer has 7 closes or more and the third fewer than 7,
    the block falls back with the IndexError of the third. *)
Theorem hedging_surge_reads_three_responses E s ts1 cs1 ts2 cs2 vix_current :
  http_get E (calls s) "^VIX" "1mo" = Val (ts1, cs1) ->
  http_get E (S (calls s)) "^VIX" "1mo" = Val (ts2, cs2) ->
  price_at (history_of ts1 cs1) (-1) = Val vix_current ->
  (len (history_of ts2 cs2) < 7 ->
   ~ (vix_current == 0)%Q ->
   exists sig,
     sp500_signal_4 E s
     = (Val tt,
        set_signals (signals s ++ [sig])
          (set_score (score s + 0) (set_calls (S (S (calls s))) s))) /\
     name sig = "Hedging Surge" /\
     triggered sig = PyBool false /\
     points sig = 0) /\
  (len (history_of ts2 cs2) < 7 ->
   (vix_current == 0)%Q ->
   sp500_signal_4 E s
   = (Val tt,
      set_signals
        (signals s ++
         [fallback "Put/Call Ratio" 15
            (Exn ZeroDivisionError "float division by zero")])
        (set_calls (S (S (calls s))) s))) /\
  (7 <= len (history_of ts2 cs2) ->
   forall ts3 cs3,
     http_get E (S (S (calls s))) "^VIX" "1mo" = Val (ts3, cs3) ->
     len (history_of ts3 cs3) < 7 ->
     sp500_signal_4 E s
     = (Val tt,
        set_signals
          (signals s ++
           [fallback "Put/Call Ratio" 15
              (Exn IndexError "list index out of range")])
          (set_calls (S (S (S (calls s)))) s))).
Proof.
  intros H1 H2 Hcur.
  assert (F1 : fetch_yahoo_history E "^VIX" "1mo" s
               = (Val (history_of ts1 cs1), set_calls (S (calls s)) s))
    by (apply fetch_yahoo_history_answers, H1).
  assert (F2 : fetch_yahoo_history E "^VIX" "1mo" (set_calls (S (calls s)) s)
               = (Val (history_of ts2 cs2),
                  set_calls (S (S (calls s))) (set_calls (S (calls s)) s)))
    by (apply fetch_yahoo_history_answers, H2).
  split; [|split].
  - intros Hshort Hnz.
    assert (H7 : (7 <=? len (history_of ts2 cs2)) = false)
      by (apply Z.leb_gt; exact Hshort).
    unfold sp500_signal_4, sp500_signal_4_body, try_except, bind, lift, ret.
    rewrite F1, Hcur, F2, H7.
    unfold div. rewrite (Qeq_bool_false _ _ Hnz).
    assert (Hz : Qlt_bool 30
                   ((vix_current - vix_current) / vix_current * 100) = false).
    { apply Qlt_bool_false_iff.
      assert (H0 : ((vix_current - vix_current) / vix_current * 100 == 0)%Q)
        by (field; exact Hnz).
      rewrite H0. discriminate. }
    rewrite Hz. eexists. split; [reflexivity|]. repeat split.
  - intros Hshort Hz.
    assert (H7 : (7 <=? len (history_of ts2 cs2)) = false)
      by (apply Z.leb_gt; exact Hshort).
    unfold sp500_signal_4, sp500_signal_4_body, try_except, bind, lift, ret.
    rewrite F1, Hcur, F2, H7.
    unfold div. apply Qeq_bool_iff in Hz. rewrite Hz. reflexivity.
  - intros Hlong ts3 cs3 H3 Hshort.
    assert (H7 : (7 <=? len (history_of ts2 cs2)) = true)
      by (apply Z.leb_le; exact Hlong).
    assert (F3 : fetch_yahoo_history E "^VIX" "1mo"
                   (set_calls (S (S (calls s))) (set_calls (S (calls s)) s))
                 = (Val (history_of ts3 cs3),
                    set_calls (S (S (S (calls s))))
                      (set_calls (S (S (calls s))) (set_calls (S (calls s)) s))))
      by (apply fetch_yahoo_history_answers, H3).
    unfold sp500_signal_4, sp500_signal_4_body, try_except, bind, lift, ret.
    rewrite F1, Hcur, F2, H7, F3.
    pose proof (price_at_out_of_range (history_of ts3 cs3) 7 Hshort) as Hx.
    change (- (7)) with (-7) in Hx. rewrite Hx. reflexivity.
Qed.

(** Every request answers the closes 100 and 70: two requests, and a
    record that is not triggered. *)
Lemma hedging_surge_reads_three_responses_witness :
  exists sig,
    sp500_signal_4 env_two_closes initial
    = (Val tt,
       set_signals [sig] (set_score 0 (set_calls 2 initial))) /\
    name sig = "Hedging Surge" /\
    triggered sig = PyBool false.
Proof.
  destruct (hedging_surge_reads_three_responses env_two_closes initial
              (fst (chart [100; 70]%Q)) (snd (chart [100; 70]%Q))
              (fst (chart [100; 70]%Q)) (snd (chart [100; 70]%Q))
              70%Q eq_refl eq_refl eq_refl)
    as (H & _ & _).
  destruct H as (sig & Hrun & Hn & Ht & _).
  - vm_compute. reflexivity.
  - unfold Qeq. cbn. lia.
  - exists sig. split; [exact Hrun|]. split; [exact Hn | exact Ht].
Defined.

End RiskProofs.

(** ** Properties of the market snapshot script *)

Module MarketProofs.
Import MarketData MarketSpec.

Local Open Scope string_scope.
Local Open Scope Z_scope.
Local Open Scope py_scope.







(** ** Further properties of the market snapshot script *)

(** *** The guards of [fetch_symbol] *)




(** *** The fields of a snapshot *)

Lemma snapshot_spark E c :
  sparkData (snapshot_of E c)
  = map (fun x => round E x 2) (slice_from (closes_of c) (-48)).
Proof. reflexivity. Qed.

Lemma slice_from_short {A} (l : list A) (n : Z) :
  1 <= n -> len l <= n -> slice_from l (- n) = l.
Proof.
  intros Hn Hl. unfold slice_from.
  assert (Hneg : (- n <? 0) = true) by (apply Z.ltb_lt; lia).
  rewrite Hneg.
  assert (Hs : Z.max (- n + len l) 0 = 0) by lia.
  rewrite Hs. reflexivity.
Qed.

(** X15.  [sparkData] holds the last 48 closes that are not null, rounded to
    two digits, in their order: all of them when there are 48 or fewer,
    never more than 48. *)
Theorem spark_data_is_the_last_48_closes E c :
  exists older recent,
    closes_of c = (older ++ recent)%list /\
    sparkData (snapshot_of E c) = map (fun x => round E x 2) recent /\
    len recent = Z.min 48 (len (closes_of c)) /\
    len (sparkData (snapshot_of E c)) = Z.min 48 (len (closes_of c)) /\
    (len (closes_of c) <= 48 -> older = []).
Proof.
  rewrite snapshot_spark.
  destruct (Z.le_gt_cases 48 (len (closes_of c))) as [Hlong|Hshort].
  - destruct (RiskProofs.slice_last (closes_of c) 48) as (older & Hl & Hn);
      [lia|].
    change (- (48)) with (-48) in *.
    exists older, (slice_from (closes_of c) (-48)).
    split; [exact Hl|]. split; [reflexivity|].
    split; [lia|]. split.
    + unfold len in *. rewrite length_map. lia.
    + intros Hle. assert (Hz : len older = 0).
      { apply (f_equal (@len Q)) in Hl. rewrite RiskProofs.len_app in Hl. lia. }
      destruct older; [reflexivity|].
      rewrite RiskProofs.len_cons in Hz.
      pose proof (RiskProofs.len_nonneg older). lia.
  - pose proof (slice_from_short (closes_of c) 48) as Hs.
    change (- (48)) with (-48) in Hs. rewrite Hs by lia.
    exists [], (closes_of c).
    split; [reflexivity|]. split; [reflexivity|].
    split; [lia|]. split; [|reflexivity].
    unfold len in *. rewrite length_map. lia.
Qed.

Lemma Qmin_spec x y :
  (Qmin x y = x \/ Qmin x y = y) /\ (Qmin x y <= x)%Q /\ (Qmin x y <= y)%Q.
Proof.
  unfold Qmin. destruct (Qlt_bool y x) eqn:Hb.
  - apply RiskProofs.Qlt_bool_iff in Hb.
    split; [right; reflexivity|].
    split; [apply Qlt_le_weak, Hb | apply Qle_refl].
  - apply RiskProofs.Qlt_bool_false_iff in Hb.
    split; [left; reflexivity|]. split; [apply Qle_refl | exact Hb].
Qed.

Lemma fold_left_Qmin_spec xs x :
  In (fold_left Qmin xs x) (x :: xs) /\
  (forall y, In y (x :: xs) -> (fold_left Qmin xs x <= y)%Q).
Proof.
  revert x. induction xs as [|a xs IH]; intros x; cbn [fold_left].
  - split; [left; reflexivity|].
    intros y [<-|[]]. apply Qle_refl.
  - destruct (IH (Qmin x a)) as [Hin Hle].
    destruct (Qmin_spec x a) as (Hor & Hx & Ha).
    split.
    + destruct Hin as [Heq|Hin].
      * rewrite <- Heq. destruct Hor as [->| ->];
          [left | right; left]; reflexivity.
      * right. right. exact Hin.
    + intros y [<-|[<-|Hy]].
      * apply Qle_trans with (Qmin x a); [|exact Hx].
        apply Hle. left. reflexivity.
      * apply Qle_trans with (Qmin x a); [|exact Ha].
        apply Hle. left. reflexivity.
      * apply Hle. right. exact Hy.
Qed.

(** X16.  [high] and [low] are null exactly when the chart has no close that
    is not null.  Otherwise they are the rounding to four digits of two
    closes of the chart, between which every close of the chart lies. *)
Theorem high_and_low_bound_the_closes E c :
  (closes_of c = [] <-> high (snapshot_of E c) = None) /\
  (closes_of c = [] <-> low (snapshot_of E c) = None) /\
  (closes_of c <> [] ->
   exists hi lo,
     high (snapshot_of E c) = Some (round E hi 4) /\
     low (snapshot_of E c) = Some (round E lo 4) /\
     In hi (closes_of c) /\
     In lo (closes_of c) /\
     (forall x, In x (closes_of c) -> (lo <= x <= hi)%Q)).
Proof.
  unfold snapshot_of. cbn [high low]. fold (closes_of c).
  destruct (closes_of c) as [|x xs].
  - split; [split; reflexivity|]. split; [split; reflexivity|].
    intros H. contradiction.
  - split; [split; discriminate|]. split; [split; discriminate|].
    intros _.
    destruct (RiskProofs.fold_left_Qmax_spec xs x) as [Hin Hge].
    destruct (fold_left_Qmin_spec xs x) as [Hin' Hle].
    exists (fold_left Qmax xs x), (fold_left Qmin xs x).
    repeat split; auto.
Qed.

Lemma high_and_low_bound_the_closes_witness :
  exists hi lo,
    high (snapshot_of env_bitcoin_only
            (mkChart empty_meta (Some [Some 100%Q; None; Some 70%Q])))
    = Some hi /\
    low (snapshot_of env_bitcoin_only
           (mkChart empty_meta (Some [Some 100%Q; None; Some 70%Q])))
    = Some lo /\
    (lo <= hi)%Q.
Proof.
  destruct (high_and_low_bound_the_closes env_bitcoin_only
              (mkChart empty_meta (Some [Some 100%Q; None; Some 70%Q])))
    as (_ & _ & H).
  destruct H as (hi & lo & Hh & Hl & Hin & _ & Hb); [discriminate|].
  exists (round env_bitcoin_only hi 4), (round env_bitcoin_only lo 4).
  split; [exact Hh|]. split; [exact Hl|].
  cbn [round env_bitcoin_only env_of].
  destruct (Hb hi Hin) as [H1 _]. exact H1.
Defined.

(** X17.  Without a close that is not null, the first close of the week is
    taken to be the previous close: the change of the week is the change of
    the day, the spark line is empty, and there is no high and no low. *)
Theorem without_closes_the_week_is_the_day E c :
  closes_of c = [] ->
  weekChangePct (snapshot_of E c) = dailyChangePct (snapshot_of E c) /\
  sparkData (snapshot_of E c) = [] /\
  high (snapshot_of E c) = None /\
  low (snapshot_of E c) = None /\
  price (snapshot_of E c)
  = match regularMarketPrice (meta c) with
    | Some p => if Qeq_bool p 0 then None else Some (round E p 4)
    | None => None
    end.
Proof.
  intros Hc. unfold snapshot_of.
  cbn [weekChangePct dailyChangePct sparkData high low price].
  fold (closes_of c). rewrite Hc.
  split; [reflexivity|]. split; [reflexivity|].
  split; [reflexivity|]. split; [reflexivity|].
  unfold or_else, truthy_num. cbn.
  destruct (regularMarketPrice (meta c)) as [p|]; [|reflexivity].
  destruct (Qeq_bool p 0) eqn:Hz; cbn; rewrite ?Hz; reflexivity.
Qed.

(** A chart with a price of 50, a previous close of 40 and no closes:
    both changes are 25 percent. *)
Lemma without_closes_the_week_is_the_day_witness :
  weekChangePct
    (snapshot_of env_down
       (mkChart (mkMeta (Some 50%Q) (Some 40%Q) None None None None) None))
  = dailyChangePct
      (snapshot_of env_down
         (mkChart (mkMeta (Some 50%Q) (Some 40%Q) None None None None) None)).
Proof.
  exact (proj1 (without_closes_the_week_is_the_day env_down
                  (mkChart (mkMeta (Some 50%Q) (Some 40%Q) None None None None)
                     None)
                  eq_refl)).
Defined.

Lemma index_last_app {A} (older : list A) x :
  index (older ++ [x])%list (-1) = Val x.
Proof.
  unfold index.
  assert (H1 : (-1 <? 0) = true) by reflexivity. rewrite H1.
  rewrite RiskProofs.len_app, RiskProofs.len_cons.
  change (len (@nil A)) with 0.
  pose proof (RiskProofs.len_nonneg older) as Hpos.
  assert (H2 : ((-1 + (len older + (1 + 0)) <? 0)
                || (len older + (1 + 0) <=? -1 + (len older + (1 + 0)))) = false).
  { apply orb_false_iff. split; [apply Z.ltb_ge | apply Z.leb_gt]; lia. }
  rewrite H2.
  assert (H3 : Z.to_nat (-1 + (len older + (1 + 0))) = List.length older)
    by (unfold len; lia).
  rewrite H3, nth_error_app2, Nat.sub_diag by lia. reflexivity.
Qed.

(** X18.  The price of a snapshot.  A [regularMarketPrice] that is present
    and not zero is the price.  One that is absent, null or zero is treated
    as missing: the price is then the last close that is not null, or null
    when that close is zero.  And a snapshot without a price reports no
    change:  [dailyChange] is the rounding of 0, and so are the two
    percentages. *)
Theorem price_falls_back_to_the_last_close E c :
  (forall p,
      regularMarketPrice (meta c) = Some p -> ~ (p == 0)%Q ->
      price (snapshot_of E c) = Some (round E p 4)) /\
  (truthy_num (regularMarketPrice (meta c)) = false ->
   forall older x,
     closes_of c = (older ++ [x])%list ->
     price (snapshot_of E c)
     = if Qeq_bool x 0 then None else Some (round E x 4)) /\
  (price (snapshot_of E c) = None ->
   dailyChange (snapshot_of E c) = round E 0 4 /\
   exists d w,
     dailyChangePct (snapshot_of E c) = round E d 2 /\ (d == 0)%Q /\
     weekChangePct (snapshot_of E c) = round E w 2 /\ (w == 0)%Q).
Proof.
  unfold snapshot_of.
  cbn [price dailyChange dailyChangePct weekChangePct].
  fold (closes_of c).
  split; [|split].
  - intros p Hp Hnz. rewrite Hp. unfold or_else, truthy_num.
    rewrite (RiskProofs.Qeq_bool_false _ _ Hnz). cbn.
    rewrite (RiskProofs.Qeq_bool_false _ _ Hnz). reflexivity.
  - intros Hf older x Hc. rewrite Hc, index_last_app.
    unfold or_else. rewrite Hf. unfold truthy_num.
    destruct (Qeq_bool x 0); reflexivity.
  - set (price0 := or_else _ _).
    set (prev := or_else (chartPreviousClose (meta c)) (previousClose (meta c))).
    set (first := match closes_of c with x :: _ => Some x | [] => prev end).
    intros Hnone.
    assert (Hf : truthy_num price0 = false).
    { destruct price0 as [p|]; [|reflexivity].
      destruct (truthy_num (Some p)); [discriminate Hnone | reflexivity]. }
    assert (Hd : match price0, prev with
                 | Some p, Some pc =>
                     if truthy_num price0 && truthy_num prev then (p - pc)%Q else 0%Q
                 | _, _ => 0%Q
                 end = 0%Q).
    { rewrite Hf. destruct price0, prev; reflexivity. }
    assert (Hw : match price0, first with
                 | Some p, Some fc =>
                     if truthy_num price0 && truthy_num first then (p - fc)%Q else 0%Q
                 | _, _ => 0%Q
                 end = 0%Q).
    { rewrite Hf. destruct price0, first; reflexivity. }
    rewrite Hd, Hw. split; [reflexivity|].
    eexists _, _. split; [reflexivity|]. split.
    { destruct prev as [pc|]; [|reflexivity].
      destruct (truthy_num (Some pc)); [|reflexivity].
      unfold Qdiv. ring. }
    split; [reflexivity|].
    destruct first as [fc|]; [|reflexivity].
    destruct (truthy_num (Some fc)); [|reflexivity].
    unfold Qdiv. ring.
Qed.

(** A market price of 0 and the closes 100, null, 70: the price is 70. *)
Lemma price_falls_back_to_the_last_close_witness :
  price
    (snapshot_of env_down
       (mkChart (mkMeta (Some 0%Q) None None None None None)
          (Some [Some 100%Q; None; Some 70%Q])))
  = Some 70%Q.
Proof.
  destruct (price_falls_back_to_the_last_close env_down
              (mkChart (mkMeta (Some 0%Q) None None None None None)
                 (Some [Some 100%Q; None; Some 70%Q])))
    as (_ & H & _).
  exact (H eq_refl [100%Q] 70%Q eq_refl).
Defined.

(** *** The report *)







End MarketProofs.

(** ** The exit status of the two scripts *)

Module Pipelines.

Local Open Scope Z_scope.






End Pipelines.
